(** * Presidential-elections model: harmonizer, multinomial encoder,
      coordinate builder, model assembler and forecast generator

    Shallow embedding of [presidential-elections/utils/model.py]
    (class [PresidentialElectionsModel]) and the properties of its data
    pipeline.

    Conventions of the embedding.
    - A pandas table is a list of row records, in row order.
    - A float64 cell of a poll table is a binary64 number ([float64], the
      primitive floats): NaN is the missing value, and every operation on
      cells rounds as IEEE 754 does.  A sum along a row adds the cells
      from left to right (numpy may group the additions of a row
      otherwise, according to the layout of the block in memory).
    - An integer cell is an int64 (what [astype(int)] gives where the C
      long has 64 bits), a [Z] with the wrap-around of its additions
      written out.
    - The tensors of the model graph and the predictor, which go through
      [exp] and a square root, are real numbers or NaN ([float]): the
      graph is described, not evaluated.
    - A timestamp is a calendar day, counted in days since 1970-01-01:
      every date column of the tables holds midnight timestamps.
    - Python exceptions are values of [exn]; a call that can raise returns
      a [result]. *)

From Stdlib Require Import PrimFloat FloatOps FloatAxioms SpecFloat.
From Stdlib Require Import ZArith QArith Qround Qabs Lqa Reals Lra.
From Stdlib Require Import List String Bool Lia Sorted Permutation.
From stdpp Require Import base gmap strings list.
Import ListNotations.

Set Warnings "-inexact-float".

Open Scope Z_scope.

(** ** Exceptions *)

Inductive exn : Type :=
| KeyError
| ValueError
| IndexError
| TypeError
| AttributeError
| AssertionError
| UnboundLocalError.

Inductive result (A : Type) : Type :=
| Ok (a : A)
| Raise (e : exn).

Arguments Ok {A} a.
Arguments Raise {A} e.

#[global] Instance result_ret : MRet result := fun _ a => Ok a.

#[global] Instance result_bind : MBind result := fun _ _ k r =>
  match r with
  | Ok a => k a
  | Raise e => Raise e
  end.

(** [mapM]: a list comprehension, or a column-wise operation, over calls
    that can raise. *)
Fixpoint traverse {A B : Type} (f : A -> result B) (l : list A) : result (list B) :=
  match l with
  | [] => Ok []
  | x :: l' => y ← f x; ys ← traverse f l'; mret (y :: ys)
  end.

(** ** Binary64 and int64 *)

Abbreviation float64 := PrimFloat.float.

(** The exact value of a finite cell; NaN and the infinities have none. *)
Definition value (x : float64) : option Q :=
  match Prim2SF x with
  | S754_zero _ => Some 0%Q
  | S754_finite s m e =>
      Some (inject_Z (if s then Z.neg m else Z.pos m) * 2 ^ e)%Q
  | S754_infinity _ | S754_nan => None
  end.

(** An integer as a float64, rounded to the nearest one when it has more
    than 53 significant bits. *)
Definition of_int (z : Z) : float64 := SF2Prim (binary_normalize prec emax z 0 false).

(** [.fillna(v)] on one cell. *)
Definition fillna (v x : float64) : float64 := if PrimFloat.is_nan x then v else x.

Definition INT64_MIN : Z := - 2 ^ 63.

(** The low 64 bits of an integer, read as an int64. *)
Definition wrap_int64 (z : Z) : Z := (z + 2 ^ 63) mod 2 ^ 64 - 2 ^ 63.

(** int64 addition, and [.sum(1)] of int64 columns. *)
Definition int64_add (a b : Z) : Z := wrap_int64 (a + b).

Definition int64_sum (cells : list Z) : Z := fold_left int64_add cells 0.

(** The sum of integers, without bound. *)
Definition zsum (l : list Z) : Z := fold_right Z.add 0 l.

(** ** Calendar *)

Abbreviation Timestamp := Z (only parsing).

(** [pd.to_datetime("y-m-d")]: the day number of a civil date. *)
Definition to_datetime (y m d : Z) : Timestamp :=
  let y' := if m <=? 2 then y - 1 else y in
  let era := y' / 400 in
  let yoe := y' - era * 400 in
  let mp := if 2 <? m then m - 3 else m + 9 in
  let doy := (153 * mp + 2) / 5 + d - 1 in
  let doe := yoe * 365 + yoe / 4 - yoe / 100 + doy in
  era * 146097 + doe - 719468.

(** The civil date [(year, month, day)] of a day number. *)
Definition civil (t : Timestamp) : Z * Z * Z :=
  let z := t + 719468 in
  let era := z / 146097 in
  let doe := z - era * 146097 in
  let yoe := (doe - doe / 1460 + doe / 36524 - doe / 146096) / 365 in
  let doy := doe - (365 * yoe + yoe / 4 - yoe / 100) in
  let mp := (5 * doy + 2) / 153 in
  let d := doy - (153 * mp + 2) / 5 + 1 in
  let m := if mp <? 10 then mp + 3 else mp - 9 in
  ((if m <=? 2 then yoe + era * 400 + 1 else yoe + era * 400), m, d).

Definition year (t : Timestamp) : Z := fst (fst (civil t)).
Definition month (t : Timestamp) : Z := snd (fst (civil t)).

#[global] Arguments to_datetime : simpl never.
#[global] Arguments year : simpl never.
#[global] Arguments month : simpl never.

(** [Series.unique()]: the distinct values in order of first appearance. *)
Fixpoint unique_from (seen : list Z) (l : list Z) : list Z :=
  match l with
  | [] => []
  | x :: l' =>
      if existsb (Z.eqb x) seen then unique_from seen l'
      else x :: unique_from (x :: seen) l'
  end.

Definition unique (l : list Z) : list Z := unique_from [] l.

(** ** Module-level helpers of the source *)

(** [dates_to_idx(timelist, reference_date)]: days from each date of
    [timelist] to [reference_date]. *)
Definition dates_to_idx (timelist : list Timestamp) (reference_date : Timestamp)
  : list Z :=
  map (fun t => reference_date - t) timelist.

(** ** Tables *)

Definition political_families : list string :=
  ["farleft"; "left"; "green"; "center"; "right"; "farright";
   "souverainistes"; "other"]%string.

(** A row of the table [_load_polls] returns: the [nb<family>] columns are
    kept in the order of [political_families]. *)
Record raw_poll : Type := RawPoll {
  raw_dateelection : Timestamp;
  raw_date : Timestamp;
  raw_sondage : string;
  raw_samplesize : float64;
  raw_nb : list float64
}.

(** A harmonized row: shares per family, in percent. *)
Record poll : Type := Poll {
  dateelection : Timestamp;
  date : Timestamp;
  countdown : Z;
  sondage : string;
  samplesize : float64;
  shares : list float64
}.

(** A multinomial row: int64 counts per family. *)
Record mpoll : Type := MPoll {
  m_dateelection : Timestamp;
  m_date : Timestamp;
  m_countdown : Z;
  m_sondage : string;
  m_samplesize : Z;
  m_counts : list Z
}.

(** [DataFrame.sum(1)] on float columns: a NaN cell counts as 0 and the
    cells are added from left to right; no cell gives 0. *)
Definition nansum (cells : list float64) : float64 :=
  match map (fillna 0) cells with
  | [] => 0%float
  | c :: cs => fold_left PrimFloat.add cs c
  end.

(** [np.testing.assert_allclose(actual, desired)] with its default
    [rtol=1e-07] and [atol=0]: every [actual] must have
    [abs(actual - desired) <= atol + rtol * abs(desired)], which a NaN or
    an infinite [actual] has not. *)
Definition rtol : float64 := 1e-7%float.
Definition atol : float64 := 0%float.

Definition allclose (actual desired : float64) : bool :=
  (PrimFloat.abs (actual - desired) <=? atol + rtol * PrimFloat.abs desired)%float.

Definition assert_allclose (actual : list float64) (desired : float64) : result unit :=
  if forallb (fun a => allclose a desired) actual then Ok tt
  else Raise AssertionError.

(** ** Dataset harmonizer: [_format_polls], countdown and "other" *)

(** Body of the loop of [_format_polls] for one election [date]: the rows
    of that election dated from January of its year on, with their
    countdown. *)
Definition keep_row (elec : Timestamp) (p : raw_poll) : bool :=
  (raw_dateelection p =? elec) && (to_datetime (year elec) 1 1 <=? raw_date p).

Definition election_frame (polls : list raw_poll) (elec : Timestamp)
  : list (raw_poll * Z) :=
  let df := List.filter (keep_row elec) polls in
  combine df (dates_to_idx (map raw_date df) elec).

(** The list [dfs] that the loop builds, one frame per election. *)
Definition election_frames (polls : list raw_poll) : list (list (raw_poll * Z)) :=
  map (election_frame polls) (unique (map raw_dateelection polls)).

(** The rows of [pd.concat(dfs)]. *)
Definition start_on_jan_1st (polls : list raw_poll) : list (raw_poll * Z) :=
  flat_map (election_frame polls) (unique (map raw_dateelection polls)).

(** Selection of the seven named families ([parties_complete[:-1]]). *)
Definition named_families (nb : list float64) : list float64 :=
  firstn (Nat.pred (length political_families)) nb.

(** [polls["other"] = 100 - polls.sum(1)] on one row. *)
Definition compute_other (pc : raw_poll * Z) : poll :=
  let named := named_families (raw_nb (fst pc)) in
  {| dateelection := raw_dateelection (fst pc);
     date := raw_date (fst pc);
     countdown := snd pc;
     sondage := raw_sondage (fst pc);
     samplesize := raw_samplesize (fst pc);
     shares := named ++ [(100 - nansum named)%float] |}.

(** The rows of the share table of lines 279-297 of [_format_polls], with
    their "other" column. *)
Definition with_other (polls : list raw_poll) : list poll :=
  map compute_other (start_on_jan_1st polls).

(** Line 298: [np.testing.assert_allclose(polls.sum(1).values, 100)]. *)
Definition check_shares (table : list poll) : result (list poll) :=
  _ ← assert_allclose (map (fun r => nansum (shares r)) table) 100%float;
  mret table.

(** [pd.concat(frames)]: refuses an empty list. *)
Definition concat_frames {A : Type} (frames : list A) : result (list A) :=
  match frames with
  | [] => Raise ValueError
  | _ => Ok frames
  end.

(** Lines 279-298: [pd.concat(dfs)] refuses the empty list of a table
    without a row, then the shares are checked. *)
Definition harmonize (polls : list raw_poll) : result (list poll) :=
  _ ← concat_frames (election_frames polls);
  check_shares (with_other polls).

(** ** Multinomial encoder *)

(** [numpy.round] on a value: the nearest integer, ties to the even one. *)
Definition np_round (q : Q) : Z :=
  let f := Qfloor q in
  match (q - inject_Z f ?= 1 # 2)%Q with
  | Lt => f
  | Gt => f + 1
  | Eq => if Z.even f then f else f + 1
  end.

(** The cast of an integer-valued float to int64: a value outside the
    range gives the least int64, as the conversion of x86-64 does. *)
Definition to_int64 (z : Z) : Z :=
  if (INT64_MIN <=? z) && (z <? 2 ^ 63) then z else INT64_MIN.

(** [.round().fillna(0).astype(int)] on one cell: a finite cell is
    rounded and cast, a NaN cell becomes 0, and [astype] refuses an
    infinite cell ("Cannot convert non-finite values (NA or inf) to
    integer", a [ValueError]). *)
Definition round_fillna_astype_int (x : float64) : result Z :=
  match value x with
  | Some q => Ok (to_int64 (np_round q))
  | None => if PrimFloat.is_nan x then Ok 0 else Raise ValueError
  end.

(** One cell of [(df[families] / 100).mul(df["samplesize"], axis=0)
    .round().fillna(0).astype(int)]. *)
Definition count_cell (size : float64) (share : float64) : result Z :=
  round_fillna_astype_int (share / 100 * size)%float.

Definition cast_row (r : poll) : result mpoll :=
  counts ← traverse (count_cell (samplesize r)) (shares r);
  mret {| m_dateelection := dateelection r;
          m_date := date r;
          m_countdown := countdown r;
          m_sondage := sondage r;
          m_samplesize := int64_sum counts;
          m_counts := counts |}.

Definition cast_as_multinomial (df : list poll) : result (list mpoll) :=
  traverse cast_row df.

(** ** Results table: [results_as_multinomial] *)

(** The official results, [raw_json.loc["premier_tour"].to_dict()]: per
    election year, the numeric fields of the first round. *)
Abbreviation results_json := (gmap Z (gmap string Z)).

(** [pd.json_normalize(raw_json[year])[["exprimes"]]]: either lookup can
    raise [KeyError]. *)
Definition exprimes_of (raw_json : results_json) (y : Z) : result Z :=
  match raw_json !! y with
  | None => Raise KeyError
  | Some fields =>
      match fields !! "exprimes"%string with
      | None => Raise KeyError
      | Some v => Ok v
      end
  end.

(** The [for year, dateelection in zip(...)] loop with its
    [try ... except KeyError: continue]. *)
Fixpoint collect_exprimes (raw_json : results_json)
  (pairs : list (Z * Timestamp)) : result (list (Timestamp * Z)) :=
  match pairs with
  | [] => Ok []
  | (y, d) :: rest =>
      match exprimes_of raw_json y with
      | Ok v => jsons ← collect_exprimes raw_json rest; mret ((d, v) :: jsons)
      | Raise KeyError => collect_exprimes raw_json rest
      | Raise e => Raise e
      end
  end.

(** What one iteration of that loop appends: the votes of the election,
    if its year has any. *)
Definition votes_of (raw_json : results_json) (p : Z * Timestamp)
  : list (Timestamp * Z) :=
  match exprimes_of raw_json (fst p) with
  | Ok v => [(snd p, v)]
  | Raise _ => []
  end.

(** Left join of one result row with the expressed votes of its election. *)
Definition joined_exprimes (jsons : list (Timestamp * Z)) (d : Timestamp)
  : option Z :=
  match List.find (fun e => fst e =? d) jsons with
  | Some e => Some (snd e)
  | None => None
  end.

(** The joined row, with [samplesize = exprimes // 100] as a float64
    (exactly, for a number of votes below 2^53): NaN for an election
    without expressed votes. *)
Definition set_samplesize (n : float64) (r : poll) : poll :=
  {| dateelection := dateelection r;
     date := date r;
     countdown := countdown r;
     sondage := sondage r;
     samplesize := n;
     shares := shares r |}.

Definition with_expressed_votes (jsons : list (Timestamp * Z)) (r : poll) : poll :=
  set_samplesize
    (match joined_exprimes jsons (dateelection r) with
     | Some v => of_int (v / 100)
     | None => PrimFloat.nan
     end) r.

Definition results_as_multinomial (raw_json : results_json)
  (results_raw : list poll) : result (list mpoll) :=
  let dates := map dateelection results_raw in
  let pairs := combine (unique (map year dates)) (unique dates) in
  frames ← collect_exprimes raw_json pairs;
  jsons ← concat_frames frames;
  cast_as_multinomial (map (with_expressed_votes jsons) results_raw).

(** ** [_format_polls] and [_train_split] *)

Definition is_result (r : poll) : bool := String.eqb (sondage r) "result".

(** Lines 300-311 of [_format_polls]. *)
Definition format_results (raw_json : results_json) (table : list poll)
  : result (list poll * list mpoll * list mpoll) :=
  let results_raw := List.filter is_result table in
  polls ← cast_as_multinomial (List.filter (fun r => negb (is_result r)) table);
  results_mult ← results_as_multinomial raw_json results_raw;
  mret (results_raw, results_mult, polls).

Definition _format_polls (raw_json : results_json) (polls : list raw_poll)
  : result (list poll * list mpoll * list mpoll) :=
  table ← harmonize polls;
  format_results raw_json table.

(** [_train_split(polls, test_cutoff)]: the polls of the last election
    dated after the cutoff are held out; [test_cutoff] is a number of
    days, and a missing or zero one means two days. *)
Definition last_item (l : list Z) : result Z :=
  match l with
  | [] => Raise IndexError
  | x :: l' => Ok (List.last l' x)
  end.

Definition _train_split (polls : list mpoll) (test_cutoff : option Z)
  : result (list mpoll * list mpoll) :=
  last_election ← last_item (unique (map m_dateelection polls));
  let polls_train := List.filter (fun r => negb (m_dateelection r =? last_election)) polls in
  let polls_test := List.filter (fun r => m_dateelection r =? last_election) polls in
  let test_cutoff_ :=
    match test_cutoff with
    | Some (Z0) | None => last_election - 2
    | Some c => last_election - c
    end in
  mret (polls_train ++ List.filter (fun r => m_date r <=? test_cutoff_) polls_test,
        List.filter (fun r => negb (m_date r <=? test_cutoff_)) polls_test).

(** ** Current-cycle polls: [select_hypothesis] *)

(** Decoded JSON; an object keeps its keys in order. *)
Inductive json : Type :=
| JNull
| JNum (q : Q)
| JStr (s : string)
| JList (items : list json)
| JDict (fields : list (string * json)).

(** [d[key]] *)
Definition getitem (d : json) (key : string) : result json :=
  match d with
  | JDict fields =>
      match List.find (fun kv => String.eqb (fst kv) key) fields with
      | Some kv => Ok (snd kv)
      | None => Raise KeyError
      end
  | _ => Raise TypeError
  end.

(** [d.keys()] *)
Definition keys (d : json) : result (list string) :=
  match d with
  | JDict fields => Ok (map fst fields)
  | _ => Raise AttributeError
  end.

(** [pd.json_normalize(d)]: the one-row table of the flattened record.
    The fields that are not objects come first, in their order; the
    nested objects follow, flattened under dotted column names. *)
Fixpoint nested_to_record (prefix : string) (j : json) : list (string * json) :=
  match j with
  | JDict fields =>
      (fix go (fs : list (string * json)) : list (string * json) :=
         match fs with
         | [] => []
         | (k, v) :: fs' =>
             nested_to_record (prefix ++ "." ++ k)%string v ++ go fs'
         end) fields
  | _ => [(prefix, j)]
  end.

Definition is_dict (j : json) : bool :=
  match j with JDict _ => true | _ => false end.

Definition json_normalize (d : json) : result (list (string * json)) :=
  match d with
  | JDict fields =>
      Ok (List.filter (fun kv => negb (is_dict (snd kv))) fields
          ++ flat_map (fun kv => nested_to_record (fst kv) (snd kv))
               (List.filter (fun kv => is_dict (snd kv)) fields))
  | _ => Raise TypeError
  end.

Definition reference_candidate : string := "Christiane Taubira".

(** The [for hypothesis in poll] loop; [hypothesis] is the loop variable,
    unbound until the first iteration and still bound after the last. *)
Fixpoint select_hypothesis_loop (hypothesis : option json) (poll : list json)
  : result (list (string * json)) :=
  match poll with
  | [] =>
      match hypothesis with
      | Some h => json_normalize h
      | None => Raise UnboundLocalError
      end
  | h :: rest =>
      intentions ← getitem h "intentions";
      ks ← keys intentions;
      if existsb (String.eqb reference_candidate) ks
      then json_normalize h
      else select_hypothesis_loop (Some h) rest
  end.

Definition select_hypothesis (poll : list json) : result (list (string * json)) :=
  select_hypothesis_loop None poll.

(** ** Current-cycle polls: [_format_2022_polls] *)

(** A row of the table [_clean_up_json] hands over, for a file whose
    hypotheses hold nothing but what the source names: the pollster, the
    first and last day of the field work, the number of expressed
    intentions and one [intentions.<candidate>] column per candidate of
    the table, NaN where the poll did not test the candidate.  The
    columns [intentions] are kept under the candidates' names, as after
    the first [rename]. *)
Record new_poll : Type := NewPoll {
  institut : string;
  date_debut : Timestamp;
  date_fin : Timestamp;
  intentions_exprimees : float64;
  intentions : list (string * float64)
}.

Definition AFFILIATIONS : list (string * string) :=
  [("Jean-Luc Mélenchon", "nbfarleft");
   ("Anne Hidalgo", "nbleft");
   ("Yannick Jadot", "nbgreen");
   ("Emmanuel Macron", "nbcenter");
   ("Valérie Pécresse", "nbright");
   ("Marine Le Pen", "nbfarright");
   ("Éric Zemmour", "nbsouverainistes")]%string.

(** [.rename(columns=AFFILIATIONS)] on one column name. *)
Definition rename_column (name : string) : string :=
  match List.find (fun a => String.eqb (fst a) name) AFFILIATIONS with
  | Some a => snd a
  | None => name
  end.

Definition renamed (p : new_poll) : list (string * float64) :=
  map (fun kv => (rename_column (fst kv), snd kv)) (intentions p).

(** The cell of a column; a column the table has not is one of NaN once
    the table is concatenated with the older polls. *)
Definition column (name : string) (cols : list (string * float64)) : float64 :=
  match List.find (fun kv => String.eqb (fst kv) name) cols with
  | Some kv => snd kv
  | None => PrimFloat.nan
  end.

Definition core_cols : list string :=
  ["sondage"; "date"; "dateelection"; "samplesize"]%string ++ map snd AFFILIATIONS.

(** [.replace({"Harris interactive": "Harris", "Opinionway": "OpinionWay"})] *)
Definition replace_pollster (s : string) : string :=
  if String.eqb s "Harris interactive" then "Harris"%string
  else if String.eqb s "Opinionway" then "OpinionWay"%string
  else s.

(** The median of the two days of the field work, cut to a day. *)
Definition median_date (debut fin : Timestamp) : Timestamp := (debut + fin) / 2.

(** [Index.difference] returns its columns sorted by name. *)
Fixpoint insert_column (c : string * float64) (l : list (string * float64))
  : list (string * float64) :=
  match l with
  | [] => [c]
  | d :: l' => if String.leb (fst c) (fst d) then c :: l else d :: insert_column c l'
  end.

Definition sort_columns (l : list (string * float64)) : list (string * float64) :=
  fold_right insert_column [] l.

(** [rest = new_polls[new_polls.columns.difference(core_cols)]]: the
    columns outside the core ones, summed into [nbother]. *)
Definition rest (p : new_poll) : list (string * float64) :=
  sort_columns
    (List.filter (fun kv => negb (existsb (String.eqb (fst kv)) core_cols)) (renamed p)).

Definition format_2022_row (p : new_poll) : raw_poll :=
  {| raw_dateelection := to_datetime 2022 4 10;
     raw_date := median_date (date_debut p) (date_fin p);
     raw_sondage := replace_pollster (institut p);
     raw_samplesize := intentions_exprimees p;
     raw_nb := map (fun a => column (snd a) (renamed p)) AFFILIATIONS
               ++ [nansum (map snd (rest p))] |}.

Definition _format_2022_polls (new_polls : list new_poll) : list raw_poll :=
  map format_2022_row new_polls.

(** ** The model object *)

(** A float64 of the model graph or of the predictor, as a real number:
    [None] is a value that is not finite (NaN). *)
Definition float : Type := option R.

Definition fadd (a b : float) : float :=
  match a, b with Some x, Some y => Some (x + y)%R | _, _ => None end.
Definition fsub (a b : float) : float :=
  match a, b with Some x, Some y => Some (x - y)%R | _, _ => None end.
Definition fmul (a b : float) : float :=
  match a, b with Some x, Some y => Some (x * y)%R | _, _ => None end.
Definition fdiv (a b : float) : float :=
  match a, b with
  | Some x, Some y => if Req_dec_T y 0 then None else Some (x / y)%R
  | _, _ => None
  end.
Definition fexp (a : float) : float :=
  match a with Some x => Some (exp x) | None => None end.
Definition fsqrt (a : float) : float :=
  match a with
  | Some x => if Rlt_dec x 0 then None else Some (sqrt x)
  | None => None
  end.
Definition of_Z (z : Z) : float := Some (IZR z).

Declare Scope graph_scope.
Delimit Scope graph_scope with fl.
Bind Scope graph_scope with float.
Infix "+" := fadd : graph_scope.
Infix "-" := fsub : graph_scope.
Infix "*" := fmul : graph_scope.
Infix "/" := fdiv : graph_scope.

(** A quarter, [(year, quarter)], as [to_period("Q")] gives it. *)
Definition quarter_of (t : Timestamp) : Z * Z := (year t, (month t - 1) / 3 + 1).

(** The attributes of a [PresidentialElectionsModel] after [__init__],
    and the [election_date] it was built with, which [__init__] uses to
    make [results_oos]. *)
Record PresidentialElectionsModel : Type := {
  election_date : Timestamp;
  polls_train : list mpoll;
  polls_test : list mpoll;
  results_raw : list poll;
  results_mult : list mpoll;
  unemployment_data : gmap (Z * Z) float;
  continuous_predictors : list (Timestamp * float);
  results_preds : list float;
  campaign_preds : list float
}.

(** [Series.factorize()]: codes and distinct values, the latter in order
    of first appearance, or sorted. *)
Fixpoint index_of {A : Type} (eqb : A -> A -> bool) (x : A) (l : list A) : Z :=
  match l with
  | [] => -1
  | y :: l' => if eqb x y then 0
               else let i := index_of eqb x l' in if i <? 0 then -1 else i + 1
  end.

Definition factorize (l : list Z) : list Z * list Z :=
  let uniques := unique l in
  (map (fun x => index_of Z.eqb x uniques) l, uniques).

Fixpoint unique_str_from (seen : list string) (l : list string) : list string :=
  match l with
  | [] => []
  | x :: l' =>
      if existsb (String.eqb x) seen then unique_str_from seen l'
      else x :: unique_str_from (x :: seen) l'
  end.

Fixpoint insert_sorted (x : string) (l : list string) : list string :=
  match l with
  | [] => [x]
  | y :: l' => if String.leb x y then x :: l else y :: insert_sorted x l'
  end.

Definition sort_str (l : list string) : list string :=
  fold_right insert_sorted [] l.

(** The order of the sort. *)
Definition str_le (a b : string) : Prop := String.leb a b = true.

Definition factorize_str (sorted : bool) (l : list string) : list Z * list string :=
  let uniques := if sorted then sort_str (unique_str_from [] l)
                 else unique_str_from [] l in
  (map (fun x => index_of String.eqb x uniques) l, uniques).

(** Lines 107-111 of [__init__]. *)
Definition unique_elections (self : PresidentialElectionsModel) : list Timestamp :=
  snd (factorize (map m_dateelection (polls_train self))).

Definition unique_pollsters (self : PresidentialElectionsModel) : list string :=
  snd (factorize_str false (map m_sondage (polls_train self))).

Definition results_oos (self : PresidentialElectionsModel) : list mpoll :=
  List.filter (fun r => negb (m_dateelection r =? election_date self))
              (results_mult self).

(** ** Coordinate builder: [_build_coords] *)

Record COORDS : Type := {
  observations : list nat;
  parties_complete : list string;
  pollsters : list string;
  countdown_coord : list Z;
  elections : list Timestamp;
  elections_observed : list Timestamp
}.

(** The maximum of an integer column, as [np.arange(column.max() + 1)]
    and [max(column)] need it: an empty column has none, and either call
    raises [ValueError]. *)
Definition column_max (l : list Z) : result Z :=
  match l with
  | [] => Raise ValueError
  | x :: l' => Ok (fold_right Z.max x l')
  end.

(** [np.arange(n)] *)
Definition arange (n : Z) : list Z := map Z.of_nat (seq 0 (Z.to_nat n)).

Definition _build_coords (self : PresidentialElectionsModel)
  (polls : option (list mpoll))
  : result (list Z * list Z * list Z * COORDS) :=
  let data := match polls with Some p => p | None => polls_train self end in
  let '(pollster_id, pollsters_) := factorize_str true (map m_sondage data) in
  let countdown_id := map m_countdown data in
  max_countdown ← column_max countdown_id;
  let '(election_id, elections_) := factorize (map m_dateelection data) in
  mret (pollster_id, countdown_id, election_id,
        {| observations := seq 0 (length data);
           parties_complete := political_families;
           pollsters := pollsters_;
           countdown_coord := arange (max_countdown + 1);
           elections := elections_;
           elections_observed := removelast elections_ |}).

(** ** Data containers: [_build_data_containers] *)

Record non_competing : Type := {
  polls_multiplicative : list (list Z);
  polls_additive : list (list Z);
  results : list (list Z)
}.

Record containers : Type := {
  election_idx : list Z;
  pollster_idx : list Z;
  countdown_idx : list Z;
  stdz_unemp : list float;
  election_unemp : list float;
  observed_N : list Z;
  observed_polls : list (list Z);
  results_N : list Z;
  observed_results : list (list Z)
}.

(** [.astype(bool).astype(int)] on one integer cell. *)
Definition astype_bool_int (c : Z) : Z := if c =? 0 then 0 else 1.

(** [.replace(to_replace=a, value=b)] on one integer cell. *)
Definition replace (to_replace value : Z) (c : Z) : Z :=
  if c =? to_replace then value else c.

Definition is_here (polls : list mpoll) : list (list Z) :=
  map (fun r => map astype_bool_int (m_counts r)) polls.

Definition penalty (table : list (list Z)) : list (list Z) :=
  map (map (fun c => replace 1 0 (replace 0 (-10) c))) table.

Definition _build_data_containers (self : PresidentialElectionsModel)
  (ids : list Z * list Z * list Z)
  (polls : option (list mpoll)) (campaign_predictors : option (list float))
  : containers * non_competing :=
  let '(pollster_id, countdown_id, election_id) := ids in
  let polls := match polls with Some p => p | None => polls_train self end in
  let campaign_predictors :=
    match campaign_predictors with Some c => c | None => campaign_preds self end in
  ({| election_idx := election_id;
      pollster_idx := pollster_id;
      countdown_idx := countdown_id;
      stdz_unemp := campaign_predictors;
      election_unemp := results_preds self;
      observed_N := map m_samplesize polls;
      observed_polls := map m_counts polls;
      results_N := map m_samplesize (results_oos self);
      observed_results := map m_counts (results_oos self) |},
   {| polls_multiplicative := is_here polls;
      polls_additive := penalty (is_here polls);
      results := penalty (is_here (results_mult self)) |}).

(** ** Generative model assembler: [build_model] *)

(** A point of the sample space: the value of each random variable (or
    deterministic combination of deeper ones) that the two likelihoods are
    built from.  A tensor is a function of its indices; an axis addressed
    through an index container takes the integer found there, the family
    axis a position in [political_families]. *)
Record draw : Type := {
  party_baseline : nat -> float;
  election_party_baseline : Z -> nat -> float;
  party_time_effect : Z -> nat -> float;
  election_party_time_effect : Z -> nat -> Z -> float;
  unemployment_effect : nat -> float;
  poll_bias : nat -> float;
  house_effects : Z -> nat -> float;
  house_election_effects : Z -> nat -> Z -> float;
  concentration_polls : float;
  concentration_results : float
}.

Definition n_parties : nat := length political_families.

Definition at_Z (l : list Z) (i : nat) : Z := nth i l 0.
Definition at_F (l : list float) (i : nat) : float := nth i l None.
Definition at_ZZ (l : list (list Z)) (i p : nat) : Z := nth p (nth i l []) 0.

(** A matrix given by its cells. *)
Definition tabulate (rows cols : nat) (cell : nat -> nat -> float)
  : list (list float) :=
  map (fun i => map (cell i) (seq 0 cols)) (seq 0 rows).

(** [m.T] *)
Definition transpose {A B C : Type} (m : A -> B -> C) : B -> A -> C :=
  fun b a => m a b.

Definition fsum (l : list float) : float := fold_right fadd (Some 0%R) l.

(** [aet.nnet.softmax], row by row. *)
Definition softmax_row (row : list float) : list float :=
  let e := map fexp row in
  map (fun x => x / fsum e)%fl e.

Definition softmax (m : list (list float)) : list (list float) :=
  map softmax_row m.

Definition scale (c : float) (m : list (list float)) : list (list float) :=
  map (map (fmul c)) m.

Inductive distribution : Type :=
| DirichletMultinomial (a : list (list float)) (n : list Z).

Record observed_variable : Type := {
  rv_name : string;
  rv_dist : distribution;
  rv_observed : list (list Z);
  rv_dims : list string
}.

Section Graph.

Variable cds : COORDS.
Variable dc : containers.
Variable ncp : non_competing.
Variable theta : draw.

Definition n_observations : nat := length (observations cds).
Definition n_elections : nat := length (elections cds).

(** Lines 686-697. *)
Definition latent_mu_cell (i p : nat) : float :=
  (party_baseline theta p
   + election_party_baseline theta (at_Z (election_idx dc) i) p
   + party_time_effect theta (at_Z (countdown_idx dc) i) p
   + election_party_time_effect theta
       (at_Z (countdown_idx dc) i) p (at_Z (election_idx dc) i)
   + at_F (stdz_unemp dc) i * unemployment_effect theta p
   + of_Z (at_ZZ (polls_additive ncp) i p))%fl.

Definition latent_mu : list (list float) :=
  tabulate n_observations n_parties latent_mu_cell.

Definition latent_popularity : list (list float) := softmax latent_mu.

(** Lines 703-711. *)
Definition noisy_mu_cell (i p : nat) : float :=
  (latent_mu_cell i p
   + poll_bias theta p
   + house_effects theta (at_Z (pollster_idx dc) i) p
   + house_election_effects theta
       (at_Z (pollster_idx dc) i) p (at_Z (election_idx dc) i)
     * of_Z (at_ZZ (polls_multiplicative ncp) i p))%fl.

Definition noisy_mu : list (list float) :=
  tabulate n_observations n_parties noisy_mu_cell.

Definition noisy_popularity : list (list float) := softmax noisy_mu.

(** Lines 729-735. *)
Definition N_approve : observed_variable :=
  {| rv_name := "N_approve";
     rv_dist := DirichletMultinomial
                  (scale (concentration_polls theta) noisy_popularity)
                  (observed_N dc);
     rv_observed := observed_polls dc;
     rv_dims := ["observations"; "parties_complete"]%string |}.

(** Lines 749-759. *)
Definition latent_mu_t0_cell (e p : nat) : float :=
  (party_baseline theta p
   + election_party_baseline theta (Z.of_nat e) p
   + party_time_effect theta 0 p
   + transpose (election_party_time_effect theta 0) (Z.of_nat e) p
   + at_F (election_unemp dc) e * unemployment_effect theta p
   + of_Z (at_ZZ (results ncp) e p))%fl.

Definition latent_mu_t0 : list (list float) :=
  tabulate n_elections n_parties latent_mu_t0_cell.

Definition latent_pop_t0 : list (list float) := softmax latent_mu_t0.

(** Lines 773-782; [latent_pop_t0[:-1]] drops the last election. *)
Definition R_ : observed_variable :=
  {| rv_name := "R";
     rv_dist := DirichletMultinomial
                  (scale (concentration_results theta) (removelast latent_pop_t0))
                  (results_N dc);
     rv_observed := observed_results dc;
     rv_dims := ["elections_observed"; "parties_complete"]%string |}.

End Graph.

(** What [build_model] leaves behind: the coordinates and index arrays it
    stores on the object, and the model, whose two likelihoods are
    functions of the draw. *)
Record Model : Type := {
  coords : COORDS;
  pollster_id : list Z;
  countdown_id : list Z;
  election_id : list Z;
  data_containers : containers;
  non_competing_parties : non_competing
}.

(** [build_model] as far as the data goes: the coordinates, then the
    containers.  The random variables that its [with pm.Model] block then
    declares are the functions of a draw above; what PyMC checks while
    declaring them, such as the agreement of the shapes, is not part of
    the embedding. *)
Definition build_model (self : PresidentialElectionsModel)
  (polls : option (list mpoll)) (continuous_predictors : option (list float))
  : result Model :=
  '(pollster_id_, countdown_id_, election_id_, cds) ← _build_coords self polls;
  let '(dc, ncp) :=
    _build_data_containers self (pollster_id_, countdown_id_, election_id_)
                           polls continuous_predictors in
  mret {| coords := cds;
          pollster_id := pollster_id_;
          countdown_id := countdown_id_;
          election_id := election_id_;
          data_containers := dc;
          non_competing_parties := ncp |}.

(** The likelihood of the polls and of the results in a built model. *)
Definition polls_likelihood (m : Model) (theta : draw) : observed_variable :=
  N_approve (coords m) (data_containers m) (non_competing_parties m) theta.

Definition results_likelihood (m : Model) (theta : draw) : observed_variable :=
  R_ (coords m) (data_containers m) (non_competing_parties m) theta.

(** ** Mean and deviation of the predictor *)

(** [Series.mean()] and [Series.std()], as real numbers: NaN cells are
    skipped; the mean of no value and the deviation of fewer than two are
    NaN. *)
Definition dropna (s : list float) : list R :=
  flat_map (fun c => match c with Some x => [x] | None => [] end) s.

Definition rsum (l : list R) : R := fold_right Rplus 0%R l.

Definition series_mean (s : list float) : float :=
  match dropna s with
  | [] => None
  | xs => Some (rsum xs / INR (length xs))%R
  end.

Definition series_std (s : list float) : float :=
  match dropna s, series_mean s with
  | (_ :: _ :: _) as xs, Some m =>
      fsqrt (Some (rsum (map (fun x => (x - m) * (x - m))%R xs)
                   / INR (length xs - 1))%R)
  | _, _ => None
  end.

(** ** Forecast generator *)

(** The coordinates a posterior trace carries. *)
Record InferenceData : Type := {
  posterior_countdown : list Z;
  posterior_elections : list Timestamp
}.

(** A row of the synthetic frame, and of the frame joined with the
    predictor. *)
Record oos_row : Type := {
  oos_date : Timestamp;
  oos_countdown : Z;
  oos_dateelection : Timestamp;
  oos_sondage : string;
  oos_samplesize : Z
}.

Record joined_row : Type := {
  oos : oos_row;
  quarter : Z * Z;
  month_ : Z * Z;
  unemployment : float
}.

(** [pd.date_range(periods=periods, end=end_, freq="D")] *)
Definition date_range (periods : Z) (end_ : Timestamp) : result (list Timestamp) :=
  if periods <? 0 then Raise ValueError
  else Ok (map (fun i => end_ - (periods - 1 - i)) (arange periods)).

(** [np.random.choice(a, size=size)]: the generator is a stream of
    naturals, the k-th of which selects the k-th item. *)
Definition random_choice {A : Type} (g : nat -> nat) (a : list A) (size : nat)
  : result (list A) :=
  match a with
  | [] => if (size =? 0)%nat then Ok [] else Raise ValueError
  | d :: _ => Ok (map (fun k => nth (g k mod length a)%nat a d) (seq 0 size))
  end.

(** [np.tile(a, reps)] and [np.repeat(a, repeats)] *)
Definition tile {A : Type} (a : list A) (reps : nat) : list A :=
  concat (List.repeat a reps).
Definition np_repeat {A : Type} (a : list A) (repeats : nat) : list A :=
  flat_map (fun x => List.repeat x repeats) a.

Definition same_length (lens : list nat) : result unit :=
  match lens with
  | [] => Ok tt
  | n :: rest => if forallb (Nat.eqb n) rest then Ok tt else Raise ValueError
  end.

Definition _generate_oos_data (self : PresidentialElectionsModel)
  (idata : InferenceData) (g_sondage g_samplesize : nat -> nat)
  : result (list Timestamp * list oos_row) :=
  let countdown := posterior_countdown idata in
  let elections := posterior_elections idata in
  let estimated_days := tile (rev countdown) (length elections) in
  let N_estimated_days := length estimated_days in
  ranges ← traverse (fun date =>
                      max_countdown ← column_max countdown;
                      date_range (max_countdown + 1) date) elections;
  ranges ← concat_frames ranges;
  let new_dates := concat ranges in
  let dateelection_ := np_repeat (unique_elections self) (length countdown) in
  sondage_ ← random_choice g_sondage (unique_pollsters self) N_estimated_days;
  samplesize_ ← random_choice g_samplesize
                  (map m_samplesize (results_oos self)) N_estimated_days;
  _ ← same_length [length estimated_days; length dateelection_;
                   length sondage_; length samplesize_];
  _ ← same_length [length estimated_days; length new_dates];
  mret (new_dates,
        map (fun '(d, (c, (e, (s, n)))) =>
               {| oos_date := d; oos_countdown := c; oos_dateelection := e;
                  oos_sondage := s; oos_samplesize := n |})
            (combine new_dates
               (combine estimated_days
                  (combine dateelection_ (combine sondage_ samplesize_))))).

(** The left join of [_join_with_continuous_predictors], row by row. *)
Definition join_unemployment (self : PresidentialElectionsModel) (r : oos_row)
  : joined_row :=
  let q := quarter_of (oos_date r) in
  {| oos := r;
     quarter := q;
     month_ := (year (oos_date r), month (oos_date r));
     unemployment :=
       match unemployment_data self !! q with
       | Some u => u
       | None => None
       end |}.

Definition isna (c : float) : bool :=
  match c with None => true | Some _ => false end.

(** [oos_data.isna().any()]: per column, whether it holds a missing
    value; only a float column can. *)
Definition isna_any (frame : list joined_row) : list bool :=
  [false; false; false; false; false; false;
   existsb (fun r => isna (unemployment r)) frame].

(** [.mean()] of a boolean series. *)
Definition bool_mean (l : list bool) : float64 :=
  (of_int (Z.of_nat (length (List.filter (fun b : bool => b) l)))
   / of_int (Z.of_nat (length l)))%float.

Definition _join_with_continuous_predictors (self : PresidentialElectionsModel)
  (oos_data : list oos_row) : result (list joined_row) :=
  let oos_data := map (join_unemployment self) oos_data in
  _ ← assert_allclose [0%float] (bool_mean (isna_any oos_data));
  let observed := map snd (continuous_predictors self) in
  mret (map (fun r =>
               {| oos := oos r; quarter := quarter r; month_ := month_ r;
                  unemployment :=
                    ((unemployment r - series_mean observed)
                     / series_std observed)%fl |})
            oos_data).

(** The table [forecast_election] passes to [build_model]: the joined
    frame with a placeholder 0 in every family column. *)
Definition forecast_row (r : joined_row) : mpoll :=
  {| m_dateelection := oos_dateelection (oos r);
     m_date := oos_date (oos r);
     m_countdown := oos_countdown (oos r);
     m_sondage := oos_sondage (oos r);
     m_samplesize := oos_samplesize (oos r);
     m_counts := map (fun _ => 0) political_families |}.

(** [forecast_election] up to the call of the sampler: the observation
    coordinate of the predictions and the forecast model. *)
Definition forecast_election (self : PresidentialElectionsModel)
  (idata : InferenceData) (g_sondage g_samplesize : nat -> nat)
  : result (list Timestamp * Model) :=
  '(new_dates, oos_data) ← _generate_oos_data self idata g_sondage g_samplesize;
  oos_data ← _join_with_continuous_predictors self oos_data;
  forecast_model ← build_model self (Some (map forecast_row oos_data))
                                    (Some (map unemployment oos_data));
  mret (new_dates, forecast_model).

(** The coordinates [sample_all] records in the trace are those of the
    model it samples, built on the training table. *)
Definition sample_all (self : PresidentialElectionsModel) : result InferenceData :=
  model ← build_model self None None;
  mret {| posterior_countdown := countdown_coord (coords model);
          posterior_elections := elections (coords model) |}.

(** ** Statements of the specification and sample data *)

(** Whether the intentions of a hypothesis name the reference candidate. *)
Definition includes_reference (h : json) : bool :=
  match getitem h "intentions" with
  | Ok intentions =>
      match keys intentions with
      | Ok ks => existsb (String.eqb reference_candidate) ks
      | Raise _ => false
      end
  | Raise _ => false
  end.

(** A hypothesis as the poll file has it: an object whose "intentions" is
    an object. *)
Definition is_hypothesis (h : json) : Prop :=
  exists fields ints, h = JDict fields /\ getitem h "intentions" = Ok (JDict ints).

(** The selection rule as the specification states it: the hypothesis with
    the reference candidate if there is one, else the first. *)
Definition reference_else_first (poll : list json) : Prop :=
  match List.find includes_reference poll, poll with
  | Some h, _ => select_hypothesis poll = json_normalize h
  | None, h :: _ => select_hypothesis poll = json_normalize h
  | None, [] => True
  end.

Definition hypothesis_1 : json :=
  JDict [("hypothese", JStr "Hypothèse 1");
         ("intentions", JDict [("Emmanuel Macron", JNum 24);
                               ("Marine Le Pen", JNum 17)])]%string.

Definition hypothesis_2 : json :=
  JDict [("hypothese", JStr "Hypothèse 2");
         ("intentions", JDict [("Emmanuel Macron", JNum 25);
                               ("Marine Le Pen", JNum 16)])]%string.

Definition hypothesis_taubira : json :=
  JDict [("hypothese", JStr "Hypothèse 3");
         ("intentions", JDict [("Emmanuel Macron", JNum 24);
                               ("Christiane Taubira", JNum 4)])]%string.

(** The sum of the shares as the specification states it: within 1e-6 of
    100 at every row of the harmonized table. *)
Definition shares_sum_to_100 (polls : list raw_poll) : Prop :=
  forall table, harmonize polls = Ok table ->
    Forall (fun r => match value (nansum (shares r)) with
                     | Some s => (Qabs (s - 100) <= 1 # 1000000)%Q
                     | None => False
                     end) table.

(** The nearest integer to a value, ties to the even one, as a relation. *)
Definition nearest_even (q : Q) (c : Z) : Prop :=
  (Qabs (inject_Z c - q) <= 1 # 2)%Q /\
  ((Qabs (inject_Z c - q) == 1 # 2)%Q -> Z.even c = true).

(** The consistency of counts and trials as the specification states
    it: the trial count of an encoded row is the sum of its counts. *)
Definition trials_are_sums (df : list poll) : Prop :=
  forall table, cast_as_multinomial df = Ok table ->
    Forall (fun r => m_samplesize r = zsum (m_counts r)) table.

(** The countdown property as the specification states it: 0 at the
    result row, non-negative at the other rows kept. *)
Definition countdown_invariant (polls : list raw_poll) : Prop :=
  Forall (fun r => if is_result r then countdown r = 0 else 0 <= countdown r)
         (with_other polls).

Definition shares_2017 : list float64 :=
  [19.6; 6.4; 0; 24; 20; 21.3; 4.7; 4]%float.

(** The first round of 2017: the result row, a poll of early March, and a
    poll dated three days after the vote. *)
Definition polls_2017 : list raw_poll :=
  [ RawPoll (to_datetime 2017 4 23) (to_datetime 2017 3 1) "Ifop"
            1000%float shares_2017;
    RawPoll (to_datetime 2017 4 23) (to_datetime 2017 4 23) "result"
            PrimFloat.nan shares_2017;
    RawPoll (to_datetime 2017 4 23) (to_datetime 2017 4 26) "Ifop"
            1000%float shares_2017 ].

(** A poll whose far-left share is so large that the residual share is
    rounded by 96 points, and one whose far-left share is negative and
    whose shares add up to 100 - 2^-18. *)
Definition poll_huge_share : raw_poll :=
  RawPoll (to_datetime 2017 4 23) (to_datetime 2017 3 1) "Ifop" 1000%float
          [1e17; 0; 0; 0; 0; 0; 0; 0]%float.

Definition poll_negative_share : raw_poll :=
  RawPoll (to_datetime 2017 4 23) (to_datetime 2017 3 1) "Ifop" 1000%float
          [-34359738318.000004; 0; 0; 0; 0; 0; 0; 0]%float.

(** A harmonized row with a sample of 10^19: two counts of 5 * 10^18. *)
Definition poll_huge_sample : poll :=
  Poll (to_datetime 2017 4 23) (to_datetime 2017 3 1) 53 "Ifop" 1e19%float
       [50; 50; 0; 0; 0; 0; 0; 0]%float.

(** Official results: 2017 is published, 2022 is not. *)
Definition raw_json_2017 : results_json :=
  {[ 2017 := {[ "exprimes"%string := 36054394 ]} ]}.

Definition results_raw_2017_2022 : list poll :=
  [ Poll (to_datetime 2017 4 23) (to_datetime 2017 4 23) 0 "result" PrimFloat.nan
         [19.6; 6.4; 0; 24; 20; 21.3; 4.7; 4]%float;
    Poll (to_datetime 2022 4 10) (to_datetime 2022 4 10) 0 "result" PrimFloat.nan
         [PrimFloat.nan; PrimFloat.nan; PrimFloat.nan; PrimFloat.nan;
          PrimFloat.nan; PrimFloat.nan; PrimFloat.nan; 100%float] ].

(** A model object trained on the 2017 polls and the first polls of 2022,
    with sixty countdown days. *)
Definition counts_2017 : list Z :=
  [70666; 23075; 0; 86530; 72109; 76796; 16946; 14422].

Definition forecaster : PresidentialElectionsModel :=
  {| election_date := to_datetime 2022 4 10;
     polls_train :=
       [ MPoll (to_datetime 2017 4 23) (to_datetime 2017 2 23) 59 "Ifop" 1000
               [120; 140; 0; 230; 200; 260; 30; 20];
         MPoll (to_datetime 2017 4 23) (to_datetime 2017 4 13) 10 "BVA" 1000
               [190; 80; 0; 230; 200; 230; 40; 30];
         MPoll (to_datetime 2022 4 10) (to_datetime 2022 3 1) 40 "Ifop" 1000
               [120; 20; 50; 270; 130; 170; 130; 110] ];
     polls_test := [];
     results_raw := results_raw_2017_2022;
     results_mult :=
       [ MPoll (to_datetime 2017 4 23) (to_datetime 2017 4 23) 0 "result" 360544
               counts_2017;
         MPoll (to_datetime 2022 4 10) (to_datetime 2022 4 10) 0 "result" 0
               [0; 0; 0; 0; 0; 0; 0; 0] ];
     unemployment_data :=
       {[ (2017, 1) := Some 10%R; (2017, 2) := Some 9%R;
          (2022, 1) := Some 7%R; (2022, 2) := Some 8%R ]};
     continuous_predictors :=
       [ (to_datetime 2017 2 23, Some 10%R); (to_datetime 2017 4 13, Some 9%R);
         (to_datetime 2017 4 23, Some 9%R); (to_datetime 2022 3 1, Some 7%R);
         (to_datetime 2022 4 10, Some 8%R) ];
     results_preds := [Some 0%R; Some 0%R];
     campaign_preds := [Some 1%R; Some 0%R; Some (-1)%R] |}.

Definition trace_2022 : InferenceData :=
  {| posterior_countdown := arange 60;
     posterior_elections := [to_datetime 2017 4 23; to_datetime 2022 4 10] |}.

(** Two generators: one cycles through the items, one always draws the
    first. *)
Definition cycling : nat -> nat := fun k => k.
Definition constant : nat -> nat := fun _ => 0%nat.

(** A synthetic row of April 2012, a quarter the predictor table of
    [forecaster] does not cover, and one of April 2017, which it does. *)
Definition row_2012 : oos_row :=
  {| oos_date := to_datetime 2012 4 22; oos_countdown := 0;
     oos_dateelection := to_datetime 2012 4 22;
     oos_sondage := "Ifop"; oos_samplesize := 360544 |}.

Definition row_2017 : oos_row :=
  {| oos_date := to_datetime 2017 4 23; oos_countdown := 0;
     oos_dateelection := to_datetime 2017 4 23;
     oos_sondage := "Ifop"; oos_samplesize := 360544 |}.

(** The index spaces of two coordinate sets agree. *)
Definition same_index_spaces (c1 c2 : COORDS) : Prop :=
  pollsters c1 = pollsters c2 /\
  elections c1 = elections c2 /\
  countdown_coord c1 = countdown_coord c2 /\
  parties_complete c1 = parties_complete c2.

(** Reuse of the coordinates as the specification states it: the model
    that [forecast_election] evaluates has the index spaces of the model
    built on the training table. *)
Definition coordinates_reused (self : PresidentialElectionsModel)
  (idata : InferenceData) (g_sondage g_samplesize : nat -> nat) : Prop :=
  forall new_dates forecast_model train_model,
    build_model self None None = Ok train_model ->
    forecast_election self idata g_sondage g_samplesize
    = Ok (new_dates, forecast_model) ->
    same_index_spaces (coords forecast_model) (coords train_model).

(** A poll of 1000 answers in which the green family is credited with
    0.04 percent. *)
Definition poll_small_share : poll :=
  Poll (to_datetime 2022 4 10) (to_datetime 2022 3 1) 40 "Ifop" 1000%float
       [12; 2; 0.04; 27; 13; 17; 13; 15.96]%float.

(** A draw with other pollster terms and another concentration of the
    polls, and a draw with another concentration of the results. *)
Definition with_pollster_terms (bias : nat -> float)
  (house : Z -> nat -> float) (house_election : Z -> nat -> Z -> float)
  (concentration : float) (theta : draw) : draw :=
  {| party_baseline := party_baseline theta;
     election_party_baseline := election_party_baseline theta;
     party_time_effect := party_time_effect theta;
     election_party_time_effect := election_party_time_effect theta;
     unemployment_effect := unemployment_effect theta;
     poll_bias := bias;
     house_effects := house;
     house_election_effects := house_election;
     concentration_polls := concentration;
     concentration_results := concentration_results theta |}.

(** The draw in which every effect is 0 and both concentrations are
    1000. *)
Definition flat_draw : draw :=
  {| party_baseline := fun _ => Some 0%R;
     election_party_baseline := fun _ _ => Some 0%R;
     party_time_effect := fun _ _ => Some 0%R;
     election_party_time_effect := fun _ _ _ => Some 0%R;
     unemployment_effect := fun _ => Some 0%R;
     poll_bias := fun _ => Some 0%R;
     house_effects := fun _ _ => Some 0%R;
     house_election_effects := fun _ _ _ => Some 0%R;
     concentration_polls := Some 1000%R;
     concentration_results := Some 1000%R |}.

Definition with_concentration_results (concentration : float) (theta : draw)
  : draw :=
  {| party_baseline := party_baseline theta;
     election_party_baseline := election_party_baseline theta;
     party_time_effect := party_time_effect theta;
     election_party_time_effect := election_party_time_effect theta;
     unemployment_effect := unemployment_effect theta;
     poll_bias := poll_bias theta;
     house_effects := house_effects theta;
     house_election_effects := house_election_effects theta;
     concentration_polls := concentration_polls theta;
     concentration_results := concentration |}.

(** A raw row with another value in its [nbother] column, the eighth of
    the family columns. *)
Definition set_nbother (v : float64) (p : raw_poll) : raw_poll :=
  RawPoll (raw_dateelection p) (raw_date p) (raw_sondage p) (raw_samplesize p)
          (<[7%nat := v]> (raw_nb p)).

(** The encoded polls of [forecaster] with one more poll, taken the day
    before the vote of 2022. *)
Definition encoded_polls : list mpoll :=
  polls_train forecaster
  ++ [ MPoll (to_datetime 2022 4 10) (to_datetime 2022 4 9) 1 "BVA" 1000
             [130; 20; 50; 260; 120; 180; 130; 110] ].

(** Share tables whose encoding gives the tables of [forecaster]. *)
Definition share_polls : list poll :=
  [ Poll (to_datetime 2017 4 23) (to_datetime 2017 2 23) 59 "Ifop" 1000%float
         [12; 14; 0; 23; 20; 26; 3; 2]%float;
    Poll (to_datetime 2017 4 23) (to_datetime 2017 4 13) 10 "BVA" 1000%float
         [19; 8; 0; 23; 20; 23; 4; 3]%float;
    Poll (to_datetime 2022 4 10) (to_datetime 2022 3 1) 40 "Ifop" 1000%float
         [12; 2; 5; 27; 13; 17; 13; 11]%float ].

Definition share_results : list poll :=
  map (with_expressed_votes [(to_datetime 2017 4 23, 36054394)])
      results_raw_2017_2022.

(** A poll of March 2022 that tests two candidates without affiliation. *)
Definition poll_march_2022 : new_poll :=
  {| institut := "Harris interactive";
     date_debut := to_datetime 2022 3 4;
     date_fin := to_datetime 2022 3 7;
     intentions_exprimees := 2000%float;
     intentions :=
       [("Emmanuel Macron", 30.5%float); ("Marine Le Pen", 18%float);
        ("Jean-Luc Mélenchon", 12%float); ("Éric Zemmour", 13%float);
        ("Valérie Pécresse", 11%float); ("Yannick Jadot", 5%float);
        ("Fabien Roussel", 4%float); ("Anne Hidalgo", 2%float);
        ("Christiane Taubira", PrimFloat.nan);
        ("Jean Lassalle", 4.5%float)]%string |}.

(** * Properties *)

Lemma bind_Ok {A B : Type} (a : A) (k : A -> result B) : (Ok a ≫= k) = k a.
Proof. reflexivity. Qed.

Lemma bind_Raise {A B : Type} (e : exn) (k : A -> result B) :
  (Raise e ≫= k) = Raise e.
Proof. reflexivity. Qed.

Lemma bind_inv {A B : Type} (r : result A) (k : A -> result B) (b : B) :
  (r ≫= k) = Ok b -> exists a, r = Ok a /\ k a = Ok b.
Proof. destruct r as [a|e]; [eauto | discriminate]. Qed.

Lemma bind_raise_inv {A B : Type} (r : result A) (k : A -> result B) (e : exn) :
  (r ≫= k) = Raise e -> r = Raise e \/ exists a, r = Ok a /\ k a = Raise e.
Proof.
  destruct r as [a|e']; simpl; [eauto|].
  intros H. injection H as ->. left. reflexivity.
Qed.

Lemma traverse_inv {A B : Type} (f : A -> result B) (l : list A) (l' : list B) :
  traverse f l = Ok l' -> Forall2 (fun x y => f x = Ok y) l l'.
Proof.
  revert l'. induction l as [|x l IH]; intros l'; cbn [traverse].
  - intros H. injection H as <-. constructor.
  - intros H. apply bind_inv in H as (y & Hy & H).
    apply bind_inv in H as (ys & Hys & H). injection H as <-.
    constructor; [exact Hy | exact (IH _ Hys)].
Qed.

Lemma traverse_ok {A B : Type} (f : A -> result B) (g : A -> B) (l : list A) :
  (forall x, In x l -> f x = Ok (g x)) -> traverse f l = Ok (map g l).
Proof.
  induction l as [|x l IH]; intros H; cbn [traverse map]; [reflexivity|].
  rewrite (H x) by (left; reflexivity). rewrite bind_Ok.
  rewrite IH by (intros y Hy; apply H; right; exact Hy). reflexivity.
Qed.

(** ** Binary64 *)

Lemma Prim2SF_nan : Prim2SF PrimFloat.nan = S754_nan.
Proof. reflexivity. Qed.

(** A product or a quotient with a NaN operand is NaN. *)
Lemma mul_nan_r (x : float64) : (x * PrimFloat.nan)%float = PrimFloat.nan.
Proof.
  apply Prim2SF_inj. rewrite FloatAxioms.mul_spec, Prim2SF_nan.
  unfold SF64mul, SFmul. destruct (Prim2SF x); reflexivity.
Qed.

Lemma mul_nan_l (x : float64) : (PrimFloat.nan * x)%float = PrimFloat.nan.
Proof.
  apply Prim2SF_inj. rewrite FloatAxioms.mul_spec, Prim2SF_nan. reflexivity.
Qed.

Lemma div_nan_l (x : float64) : (PrimFloat.nan / x)%float = PrimFloat.nan.
Proof.
  apply Prim2SF_inj. rewrite FloatAxioms.div_spec, Prim2SF_nan. reflexivity.
Qed.

(** ** Shares and the residual "other" *)

Lemma election_frames_nil (polls : list raw_poll) :
  election_frames polls = [] -> polls = [].
Proof.
  unfold election_frames, unique. destruct polls as [|p polls]; [reflexivity|].
  cbn [map unique_from existsb]. discriminate.
Qed.

Lemma check_shares_inv (table t : list poll) :
  check_shares table = Ok t ->
  t = table /\ Forall (fun r => allclose (nansum (shares r)) 100 = true) table.
Proof.
  unfold check_shares, assert_allclose.
  destruct (forallb _ _) eqn:E; [|discriminate].
  rewrite bind_Ok. intros H. injection H as <-. split; [reflexivity|].
  apply List.Forall_forall. intros r Hr. rewrite forallb_forall in E.
  apply E. apply in_map_iff. exists r. split; [reflexivity | exact Hr].
Qed.

Lemma check_shares_raises (table : list poll) :
  Exists (fun r => allclose (nansum (shares r)) 100 = false) table ->
  check_shares table = Raise AssertionError.
Proof.
  intros H. unfold check_shares, assert_allclose.
  replace (forallb _ _) with false; [reflexivity|].
  symmetry. apply not_true_is_false. intros Hall.
  apply List.Exists_exists in H as (r & Hin & Hr).
  rewrite forallb_forall in Hall.
  assert (Hmem : In (nansum (shares r)) (map (fun r => nansum (shares r)) table)).
  { apply in_map_iff. exists r. split; [reflexivity | exact Hin]. }
  apply Hall in Hmem. rewrite Hr in Hmem. discriminate Hmem.
Qed.

(** What [harmonize] returns, when it returns. *)
Lemma harmonize_inv (polls : list raw_poll) (table : list poll) :
  harmonize polls = Ok table ->
  table = with_other polls /\ polls <> [] /\
  Forall (fun r => allclose (nansum (shares r)) 100 = true) table.
Proof.
  unfold harmonize. intros H. apply bind_inv in H as (dfs & Hdfs & H).
  apply check_shares_inv in H as [-> Hall].
  split; [reflexivity|]. split; [|exact Hall].
  intros ->. discriminate Hdfs.
Qed.

Lemma harmonize_nonempty (polls : list raw_poll) :
  polls <> [] -> harmonize polls = check_shares (with_other polls).
Proof.
  intros Hne. unfold harmonize.
  destruct (election_frames polls) as [|df dfs] eqn:E; [|reflexivity].
  exfalso. exact (Hne (election_frames_nil _ E)).
Qed.

Lemma allclose_100 (s : float64) :
  allclose s 100 = (PrimFloat.abs (s - 100) <=? 9.9999999999999991e-06)%float.
Proof.
  unfold allclose.
  replace (atol + rtol * PrimFloat.abs 100)%float with 9.9999999999999991e-06%float
    by (vm_compute; reflexivity).
  reflexivity.
Qed.

Lemma Forall2_map_r {A B : Type} (P : A -> B -> Prop) (f : A -> B) (l : list A) :
  (forall x, In x l -> P x (f x)) -> Forall2 P l (map f l).
Proof.
  induction l as [|x l IH]; intros H; cbn [map]; constructor.
  - apply H. left. reflexivity.
  - apply IH. intros y Hy. apply H. right. exact Hy.
Qed.

(** C1 (as amended). Whenever the harmonizer of [_format_polls] returns,
    its table has, for every row kept, the seven named shares of that row
    followed by "other" = 100 - their sum (NaN cells counting as 0), eight
    shares in all, and the sum of these shares passed the assertion of
    line 298: it is within the relative tolerance 1e-7 of 100, that is,
    within 9.9999999999999991e-06, a bound between 1e-6 and 1e-5.  A row
    whose sum is not makes the assertion raise, and [_format_polls] stops
    with that error, as it does with any error of the harmonizer. *)
Theorem family_shares_pass_the_assertion
  (raw_json : results_json) (polls : list raw_poll) :
  (forall table, harmonize polls = Ok table ->
     Forall2 (fun pc r =>
                shares r = named_families (raw_nb (fst pc))
                           ++ [(100 - nansum (named_families (raw_nb (fst pc))))%float]
                /\ ((7 <= length (raw_nb (fst pc)))%nat -> length (shares r) = 8%nat)
                /\ (PrimFloat.abs (nansum (shares r) - 100)
                    <=? 9.9999999999999991e-06)%float = true)
             (start_on_jan_1st polls) table)
  /\ (exists tolerance,
        value 9.9999999999999991e-06%float = Some tolerance
        /\ (1 # 1000000 < tolerance)%Q /\ (tolerance < 1 # 100000)%Q)
  /\ (forall s : float64,
        (PrimFloat.abs (s - 100) <=? 9.9999999999999991e-06)%float
        = (PrimFloat.abs (s - 100) <=? atol + rtol * PrimFloat.abs 100)%float)
  /\ (Exists (fun r => (PrimFloat.abs (nansum (shares r) - 100)
                        <=? 9.9999999999999991e-06)%float = false)
             (with_other polls) ->
      harmonize polls = Raise AssertionError)
  /\ (forall e, harmonize polls = Raise e -> _format_polls raw_json polls = Raise e).
Proof.
  split; [|split; [|split; [|split]]].
  - intros table H. apply harmonize_inv in H as (-> & _ & Hall).
    unfold with_other in *. apply Forall2_map_r. intros pc Hpc.
    split; [reflexivity|]. split.
    + intros Hlen. cbn [compute_other shares]. unfold named_families.
      rewrite length_app, length_firstn. cbn [length political_families Nat.pred].
      cbn [length political_families Nat.pred] in Hlen. lia.
    + rewrite <- allclose_100. rewrite List.Forall_forall in Hall.
      apply Hall. apply in_map. exact Hpc.
  - eexists. split; [vm_compute; reflexivity|]. split; reflexivity.
  - intros s. rewrite <- allclose_100. reflexivity.
  - intros H.
    assert (Hne : polls <> []).
    { intros ->. apply List.Exists_exists in H as (r & [] & _). }
    rewrite (harmonize_nonempty _ Hne). apply check_shares_raises.
    eapply List.Exists_impl; [|exact H]. intros r Hr. cbv beta in Hr.
    rewrite allclose_100. exact Hr.
  - intros e He. unfold _format_polls. rewrite He. reflexivity.
Qed.

Lemma family_shares_pass_the_assertion_witness :
  (exists table,
     harmonize polls_2017 = Ok table /\
     Forall (fun r => length (shares r) = 8%nat /\
                      (PrimFloat.abs (nansum (shares r) - 100)
                       <=? 9.9999999999999991e-06)%float = true) table)
  /\ _format_polls ∅ [poll_huge_share] = Raise AssertionError.
Proof.
  pose proof (family_shares_pass_the_assertion ∅ polls_2017) as (Hok & _).
  pose proof (family_shares_pass_the_assertion ∅ [poll_huge_share])
    as (_ & _ & _ & Hraise & Hstop).
  split.
  - destruct (harmonize polls_2017) as [table|e] eqn:E;
      [|vm_compute in E; discriminate E].
    exists table. split; [reflexivity|].
    specialize (Hok table eq_refl).
    assert (Hraw : Forall (fun pc : raw_poll * Z => (7 <= length (raw_nb (fst pc)))%nat)
                          (start_on_jan_1st polls_2017)).
    { vm_compute. repeat constructor. }
    clear E. revert Hraw. induction Hok as [|pc r ? ? (_ & Hlen & Hsum) _ IH];
      intros Hraw; constructor.
    + apply List.Forall_inv in Hraw. auto.
    + apply IH. exact (List.Forall_inv_tail Hraw).
  - apply Hstop, Hraise. vm_compute. constructor. reflexivity.
Defined.

(** C1, counterexample. A table passes the assertion although the shares
    of its row add up to 100 - 2^-18, more than 1e-6 away from 100. *)
Lemma shares_within_1e_6_fails : ~ shares_sum_to_100 [poll_negative_share].
Proof.
  unfold shares_sum_to_100. intros H.
  assert (E : harmonize [poll_negative_share] = Ok (with_other [poll_negative_share]))
    by (vm_compute; reflexivity).
  specialize (H _ E). apply List.Forall_inv in H.
  vm_compute in H. apply H. reflexivity.
Qed.

(** ** Counts and trials *)

Lemma np_round_nearest_even (q : Q) : nearest_even q (np_round q).
Proof.
  unfold nearest_even, np_round. cbv zeta.
  pose proof (Qfloor_le q) as Hl. pose proof (Qlt_floor q) as Hu.
  rewrite inject_Z_plus in Hu. change (inject_Z 1) with 1%Q in Hu.
  destruct (Qcompare_spec (q - inject_Z (Qfloor q)) (1 # 2)) as [He|Hlt|Hgt].
  - destruct (Z.even (Qfloor q)) eqn:Ev.
    + split; [|intros _; exact Ev].
      apply Qabs_Qle_condition. split; Lqa.lra.
    + split.
      * rewrite inject_Z_plus. change (inject_Z 1) with 1%Q.
        apply Qabs_Qle_condition. split; Lqa.lra.
      * intros _. rewrite Z.even_add, Ev. reflexivity.
  - split; [apply Qabs_Qle_condition; split; Lqa.lra|].
    intros H. exfalso.
    assert (Hn : (inject_Z (Qfloor q) - q <= 0)%Q) by Lqa.lra.
    rewrite (Qabs_neg _ Hn) in H. Lqa.lra.
  - rewrite inject_Z_plus. change (inject_Z 1) with 1%Q.
    split; [apply Qabs_Qle_condition; split; Lqa.lra|].
    intros H. exfalso.
    assert (Hp : (0 <= inject_Z (Qfloor q) + 1 - q)%Q) by Lqa.lra.
    rewrite (Qabs_pos _ Hp) in H. Lqa.lra.
Qed.

(** The nearest integer, ties to even, is unique. *)
Lemma nearest_even_unique (q : Q) (c1 c2 : Z) :
  nearest_even q c1 -> nearest_even q c2 -> c1 = c2.
Proof.
  intros [H1 E1] [H2 E2].
  apply Qabs_Qle_condition in H1. apply Qabs_Qle_condition in H2.
  assert (Hd : (inject_Z c1 - inject_Z c2 <= 1)%Q /\ (inject_Z c2 - inject_Z c1 <= 1)%Q)
    by (split; Lqa.lra).
  destruct Hd as [Hd1 Hd2].
  assert (Hz : c1 - c2 <= 1 /\ c2 - c1 <= 1).
  { split; rewrite Zle_Qle; unfold Z.sub; rewrite inject_Z_plus, inject_Z_opp;
      change (inject_Z 1) with 1%Q; Lqa.lra. }
  destruct (Z.eq_dec c1 c2) as [|Hne]; [assumption|exfalso].
  assert (Hcase : c1 = c2 + 1 \/ c2 = c1 + 1) by lia.
  destruct Hcase as [-> | ->].
  - rewrite inject_Z_plus in *. change (inject_Z 1) with 1%Q in *.
    assert (Ha : (Qabs (inject_Z c2 + 1 - q) == 1 # 2)%Q).
    { rewrite Qabs_pos by Lqa.lra. Lqa.lra. }
    assert (Hb : (Qabs (inject_Z c2 - q) == 1 # 2)%Q).
    { rewrite Qabs_neg by Lqa.lra. Lqa.lra. }
    specialize (E1 Ha). specialize (E2 Hb).
    rewrite Z.even_add, E2 in E1. discriminate E1.
  - rewrite inject_Z_plus in *. change (inject_Z 1) with 1%Q in *.
    assert (Ha : (Qabs (inject_Z c1 + 1 - q) == 1 # 2)%Q).
    { rewrite Qabs_pos by Lqa.lra. Lqa.lra. }
    assert (Hb : (Qabs (inject_Z c1 - q) == 1 # 2)%Q).
    { rewrite Qabs_neg by Lqa.lra. Lqa.lra. }
    specialize (E1 Hb). specialize (E2 Ha).
    rewrite Z.even_add, E1 in E2. discriminate E2.
Qed.

Lemma to_int64_id (z : Z) : INT64_MIN <= z < 2 ^ 63 -> to_int64 z = z.
Proof.
  intros [Hl Hu]. unfold to_int64.
  apply Z.leb_le in Hl. apply Z.ltb_lt in Hu. rewrite Hl, Hu. reflexivity.
Qed.

Lemma wrap_int64_id (z : Z) : INT64_MIN <= z < 2 ^ 63 -> wrap_int64 z = z.
Proof.
  unfold INT64_MIN, wrap_int64. intros H.
  rewrite Z.mod_small by lia. lia.
Qed.

Lemma wrap_int64_add (a b : Z) : wrap_int64 (wrap_int64 a + b) = wrap_int64 (a + b).
Proof.
  unfold wrap_int64.
  replace ((a + 2 ^ 63) mod 2 ^ 64 - 2 ^ 63 + b + 2 ^ 63)
    with ((a + 2 ^ 63) mod 2 ^ 64 + b) by lia.
  rewrite Zplus_mod_idemp_l. f_equal. f_equal. lia.
Qed.

Lemma fold_int64_add (cells : list Z) (a : Z) :
  fold_left int64_add cells (wrap_int64 a) = wrap_int64 (a + zsum cells).
Proof.
  revert a. induction cells as [|c cells IH]; intros a; cbn [fold_left zsum fold_right].
  - rewrite Z.add_0_r. reflexivity.
  - unfold int64_add at 2. rewrite wrap_int64_add, IH.
    change (fold_right Z.add 0 cells) with (zsum cells). f_equal. lia.
Qed.

(** The int64 sum of a row is the low 64 bits of the sum of its cells. *)
Lemma int64_sum_wrap (cells : list Z) : int64_sum cells = wrap_int64 (zsum cells).
Proof.
  unfold int64_sum. change 0 with (wrap_int64 0) at 1.
  rewrite fold_int64_add. reflexivity.
Qed.

Lemma zsum_bound (b : Z) (cells : list Z) :
  Forall (fun c => - b <= c <= b) cells ->
  - (Z.of_nat (length cells) * b) <= zsum cells <= Z.of_nat (length cells) * b.
Proof.
  induction 1 as [|c cells Hc _ IH]; cbn [zsum fold_right length]; [lia|].
  change (fold_right Z.add 0 cells) with (zsum cells). nia.
Qed.

Lemma count_cell_inv (size share : float64) (c : Z) :
  count_cell size share = Ok c ->
  match value (share / 100 * size)%float with
  | Some q => c = to_int64 (np_round q)
  | None => (share / 100 * size)%float = PrimFloat.nan /\ c = 0
  end.
Proof.
  unfold count_cell, round_fillna_astype_int.
  destruct (value _) as [q|] eqn:Ev.
  - intros H. injection H as <-. reflexivity.
  - destruct (PrimFloat.is_nan _) eqn:En; [|discriminate].
    intros H. injection H as <-. split; [|reflexivity].
    apply Prim2SF_inj. rewrite Prim2SF_nan.
    unfold PrimFloat.is_nan in En. rewrite FloatAxioms.eqb_spec in En.
    unfold value in Ev.
    destruct (Prim2SF (share / 100 * size)%float) as [s|s| |s m e];
      [discriminate Ev | | reflexivity | discriminate Ev].
    destruct s; discriminate En.
Qed.

Lemma count_cell_nan_size (share : float64) : count_cell PrimFloat.nan share = Ok 0.
Proof. unfold count_cell. rewrite mul_nan_r. reflexivity. Qed.

Lemma count_cell_nan_share (size : float64) : count_cell size PrimFloat.nan = Ok 0.
Proof. unfold count_cell. rewrite div_nan_l, mul_nan_l. reflexivity. Qed.

Lemma cast_row_inv (r : poll) (r' : mpoll) :
  cast_row r = Ok r' ->
  m_dateelection r' = dateelection r /\ m_date r' = date r /\
  m_countdown r' = countdown r /\ m_sondage r' = sondage r /\
  m_samplesize r' = int64_sum (m_counts r') /\
  Forall2 (fun share c => count_cell (samplesize r) share = Ok c)
          (shares r) (m_counts r').
Proof.
  unfold cast_row. intros H. apply bind_inv in H as (counts & Hc & H).
  injection H as <-. cbn. repeat split; try reflexivity.
  apply traverse_inv. exact Hc.
Qed.

Lemma cast_as_multinomial_inv (df : list poll) (table : list mpoll) :
  cast_as_multinomial df = Ok table ->
  Forall2 (fun r r' => cast_row r = Ok r') df table.
Proof. apply traverse_inv. Qed.

(** C2 (as amended). Whenever [cast_as_multinomial] returns, each count of
    each row is the binary64 product of the share divided by 100 by the
    sample size, rounded to the nearest integer (ties to the even one)
    when that integer is an int64, and 0 when the share or the sample
    size is missing; and the [samplesize] written back is the int64 sum of
    the row's counts: the low 64 bits of their sum, which is their sum
    whenever it is an int64, as it is for eight counts below 2^60 in
    absolute value. *)
Theorem counts_sum_to_trials (df : list poll) (table : list mpoll)
  (Hrun : cast_as_multinomial df = Ok table) :
  Forall2 (fun r r' =>
             Forall2 (fun share c =>
                        match value (share / 100 * samplesize r)%float with
                        | Some q =>
                            forall k, nearest_even q k -> INT64_MIN <= k < 2 ^ 63 ->
                                      c = k
                        | None => (share / 100 * samplesize r)%float = PrimFloat.nan
                                  /\ c = 0
                        end
                        /\ (share = PrimFloat.nan \/ samplesize r = PrimFloat.nan ->
                            c = 0))
                     (shares r) (m_counts r')
             /\ m_samplesize r' = wrap_int64 (zsum (m_counts r'))
             /\ (INT64_MIN <= zsum (m_counts r') < 2 ^ 63 ->
                 m_samplesize r' = zsum (m_counts r'))
             /\ ((length (m_counts r') <= 8)%nat ->
                 Forall (fun c => - 2 ^ 60 <= c <= 2 ^ 60 - 1) (m_counts r') ->
                 m_samplesize r' = zsum (m_counts r')))
          df table.
Proof.
  apply cast_as_multinomial_inv in Hrun.
  eapply List.Forall2_impl; [|exact Hrun]. intros r r' Hr. cbv beta.
  apply cast_row_inv in Hr as (_ & _ & _ & _ & Hsum & Hcounts).
  rewrite int64_sum_wrap in Hsum.
  split; [|split; [exact Hsum|split]].
  - eapply List.Forall2_impl; [|exact Hcounts]. intros share c Hc. cbv beta. split.
    + apply count_cell_inv in Hc.
      destruct (value _) as [q|]; [|exact Hc].
      intros k Hk Hrange. subst c.
      rewrite (nearest_even_unique q k (np_round q) Hk (np_round_nearest_even q)) in *.
      apply to_int64_id, Hrange.
    + intros [->| Hn].
      * rewrite count_cell_nan_share in Hc. injection Hc as <-. reflexivity.
      * rewrite Hn, count_cell_nan_size in Hc. injection Hc as <-. reflexivity.
  - intros Hrange. rewrite Hsum. apply wrap_int64_id, Hrange.
  - intros Hlen Hb. rewrite Hsum. apply wrap_int64_id.
    pose proof (zsum_bound (2 ^ 60) (m_counts r')) as Hz.
    assert (Hb' : Forall (fun c => - 2 ^ 60 <= c <= 2 ^ 60) (m_counts r')).
    { eapply List.Forall_impl; [|exact Hb]. intros c Hc. cbv beta in Hc. lia. }
    specialize (Hz Hb'). unfold INT64_MIN.
    assert (Hupper : zsum (m_counts r') <= Z.of_nat (length (m_counts r')) * (2 ^ 60 - 1)).
    { clear -Hb. induction Hb as [|c cells Hc _ IH]; cbn [zsum fold_right length]; [lia|].
      change (fold_right Z.add 0 cells) with (zsum cells). nia. }
    nia.
Qed.

Lemma counts_sum_to_trials_witness :
  exists table,
    cast_as_multinomial share_polls = Ok table /\
    Forall (fun r' => m_samplesize r' = zsum (m_counts r')) table.
Proof.
  destruct (cast_as_multinomial share_polls) as [table|e] eqn:E;
    [|vm_compute in E; discriminate E].
  exists table. split; [reflexivity|].
  pose proof (counts_sum_to_trials share_polls table E) as H.
  assert (Hb : match cast_as_multinomial share_polls with
               | Ok t => forallb (fun r' => (length (m_counts r') <=? 8)%nat
                                            && forallb (fun c => (- 2 ^ 60 <=? c)
                                                                 && (c <=? 2 ^ 60 - 1))
                                                       (m_counts r')) t
               | Raise _ => false
               end = true) by (vm_compute; reflexivity).
  rewrite E in Hb. rewrite forallb_forall in Hb.
  clear E. induction H as [|r r' ? ? (_ & _ & _ & Hr) _ IH]; constructor.
  - specialize (Hb r' (or_introl eq_refl)).
    apply andb_prop in Hb as [Hlen Hc]. apply Nat.leb_le in Hlen.
    apply Hr; [exact Hlen|]. apply List.Forall_forall. intros c Hin.
    rewrite forallb_forall in Hc. specialize (Hc c Hin).
    apply andb_prop in Hc as [H1 H2]. apply Z.leb_le in H1. apply Z.leb_le in H2.
    split; assumption.
  - apply IH. intros x Hx. apply Hb. right. exact Hx.
Defined.

(** C2, counterexample. A row with two shares of 50 and a sample of 10^19
    is encoded with two counts of 5 * 10^18, whose sum is no int64: the
    trial count written back is -8446744073709551616. *)
Lemma trials_are_sums_fails : ~ trials_are_sums [poll_huge_sample].
Proof.
  unfold trials_are_sums. intros H.
  assert (E : cast_as_multinomial [poll_huge_sample]
              = Ok [ MPoll (to_datetime 2017 4 23) (to_datetime 2017 3 1) 53 "Ifop"
                           (-8446744073709551616)
                           [5000000000000000000; 5000000000000000000;
                            0; 0; 0; 0; 0; 0] ])
    by (vm_compute; reflexivity).
  specialize (H _ E). apply List.Forall_inv in H.
  vm_compute in H. discriminate H.
Qed.

(** The product that is rounded is the binary64 one: 54.5 percent of 100
    answers give the product 54.500000000000007 and the count 55, where
    54.5 itself would give 54; 0.5 percent of 100 answers give 0. *)
Example count_of_the_binary64_product :
  count_cell 100 54.5 = Ok 55 /\ np_round (545 # 10) = 54
  /\ count_cell 100 0.5 = Ok 0.
Proof. vm_compute. repeat split; reflexivity. Qed.

(** ** Countdown *)

Lemma in_combine_map {A B : Type} (f : A -> B) (l : list A) (a : A) (b : B) :
  In (a, b) (combine l (map f l)) -> b = f a /\ In a l.
Proof.
  induction l as [|x l IH]; simpl; [tauto|].
  intros [H|H].
  - inversion H; subst. auto.
  - destruct (IH H). auto.
Qed.

Lemma start_on_jan_1st_row (polls : list raw_poll) (p : raw_poll) (c : Z) :
  In (p, c) (start_on_jan_1st polls) ->
  c = raw_dateelection p - raw_date p /\
  to_datetime (year (raw_dateelection p)) 1 1 <= raw_date p /\
  In p polls.
Proof.
  unfold start_on_jan_1st. rewrite in_flat_map.
  intros (elec & _ & H). unfold election_frame, dates_to_idx in H.
  rewrite map_map in H.
  apply in_combine_map in H as [-> Hp].
  apply filter_In in Hp as [Hp Hk].
  unfold keep_row in Hk. apply andb_prop in Hk as [He Hd].
  apply Z.eqb_eq in He. apply Z.leb_le in Hd. subst elec. auto.
Qed.

Lemma Forall2_in_r {A B : Type} (P : A -> B -> Prop) (l : list A) (l' : list B) (y : B) :
  Forall2 P l l' -> In y l' -> exists x, In x l /\ P x y.
Proof.
  induction 1 as [|x y' l l' Hxy _ IH]; [intros []|].
  intros [<-|Hin].
  - exists x. split; [left; reflexivity | exact Hxy].
  - destruct (IH Hin) as (x' & Hx' & HP). exists x'. split; [right; exact Hx' | exact HP].
Qed.

(** C5 (as amended). The countdown of a harmonized row is the number of
    days from its date to its election's date.  Every row kept is dated
    from 1 January of the election year on; the countdown is 0 exactly at
    the rows dated on the election day and non-negative exactly at the
    rows dated on or before it.  The same holds of the poll table that
    [_format_polls] hands to the train split. *)
Theorem countdown_is_days_to_election (polls : list raw_poll) :
  Forall (fun r =>
            countdown r = dateelection r - date r /\
            to_datetime (year (dateelection r)) 1 1 <= date r /\
            (countdown r = 0 <-> date r = dateelection r) /\
            (0 <= countdown r <-> date r <= dateelection r))
         (with_other polls)
  /\ (forall table,
        cast_as_multinomial
          (List.filter (fun r => negb (is_result r)) (with_other polls)) = Ok table ->
        Forall (fun r =>
                  m_countdown r = m_dateelection r - m_date r /\
                  (m_countdown r = 0 <-> m_date r = m_dateelection r) /\
                  (0 <= m_countdown r <-> m_date r <= m_dateelection r))
               table).
Proof.
  assert (H : forall r, In r (with_other polls) ->
                        countdown r = dateelection r - date r /\
                        to_datetime (year (dateelection r)) 1 1 <= date r).
  { intros r Hr. apply in_map_iff in Hr as ([p c] & <- & Hpc).
    apply start_on_jan_1st_row in Hpc as (-> & Hd & _). simpl. auto. }
  split.
  - apply List.Forall_forall.
    intros r Hr. destruct (H r Hr) as [Hc Hd]. repeat split; try assumption; lia.
  - intros table Hrun. apply cast_as_multinomial_inv in Hrun.
    apply List.Forall_forall. intros r' Hr'.
    destruct (Forall2_in_r _ _ _ _ Hrun Hr') as (r & Hr & Hcast).
    apply filter_In in Hr as [Hr _]. destruct (H r Hr) as [Hc _].
    apply cast_row_inv in Hcast as (-> & -> & -> & _).
    repeat split; lia.
Qed.

(** C5, counterexample. A poll of the 2017 election dated three days after
    the vote is kept, with countdown -3. *)
Lemma countdown_invariant_fails : ~ countdown_invariant polls_2017.
Proof.
  unfold countdown_invariant. intros H.
  apply List.Forall_forall with (x := nth 2 (with_other polls_2017) (compute_other (poll_huge_share, 0))) in H.
  - vm_compute in H. apply H. reflexivity.
  - vm_compute. right. right. left. reflexivity.
Qed.

(** ** Results table *)

Lemma in_unique_from (seen l : list Z) (x : Z) :
  In x (unique_from seen l) <-> In x l /\ ~ In x seen.
Proof.
  revert seen. induction l as [|y l IH]; intros seen; simpl; [tauto|].
  destruct (existsb (Z.eqb y) seen) eqn:E.
  - rewrite IH. apply existsb_exists in E as (z & Hz & Hyz).
    apply Z.eqb_eq in Hyz. subst z.
    split; [tauto|]. intros [[->|H] Hn]; [contradiction | tauto].
  - simpl. rewrite IH. simpl.
    assert (Hy : ~ In y seen).
    { intros Hy. apply not_true_iff_false in E. apply E.
      apply existsb_exists. exists y. split; [exact Hy | apply Z.eqb_refl]. }
    destruct (Z.eq_dec y x) as [->|Hne]; [tauto|].
    split; [intros [H|H]; [contradiction | tauto] | tauto].
Qed.

Lemma in_unique (l : list Z) (x : Z) : In x (unique l) <-> In x l.
Proof. unfold unique. rewrite in_unique_from. simpl. tauto. Qed.

Lemma unique_from_map (f : Z -> Z) (seen l : list Z) :
  (forall a b, In a (seen ++ l) -> In b (seen ++ l) -> f a = f b -> a = b) ->
  unique_from (map f seen) (map f l) = map f (unique_from seen l).
Proof.
  revert seen. induction l as [|x l IH]; intros seen Hinj; simpl; [reflexivity|].
  assert (E : existsb (Z.eqb (f x)) (map f seen) = existsb (Z.eqb x) seen).
  { apply eq_true_iff_eq. rewrite !existsb_exists. split.
    - intros (z & Hz & Hxz). apply in_map_iff in Hz as (a & <- & Ha).
      apply Z.eqb_eq in Hxz. exists a. split; [exact Ha|].
      apply Z.eqb_eq. apply Hinj; [apply in_or_app; right; left; reflexivity
                                  | apply in_or_app; left; exact Ha | exact Hxz].
    - intros (z & Hz & Hxz). apply Z.eqb_eq in Hxz. subst z.
      exists (f x). split; [apply in_map; exact Hz | apply Z.eqb_refl]. }
  rewrite E. destruct (existsb (Z.eqb x) seen).
  - apply IH. intros a b Ha Hb. apply Hinj.
    + apply in_app_or in Ha as [Ha|Ha]; apply in_or_app; [left|right; right]; exact Ha.
    + apply in_app_or in Hb as [Hb|Hb]; apply in_or_app; [left|right; right]; exact Hb.
  - simpl. f_equal. apply (IH (x :: seen)). intros a b Ha Hb. apply Hinj.
    + destruct Ha as [<-|Ha]; [apply in_or_app; right; left; reflexivity|].
      apply in_app_or in Ha as [Ha|Ha]; apply in_or_app; [left|right; right]; exact Ha.
    + destruct Hb as [<-|Hb]; [apply in_or_app; right; left; reflexivity|].
      apply in_app_or in Hb as [Hb|Hb]; apply in_or_app; [left|right; right]; exact Hb.
Qed.

Lemma combine_map_l {A B : Type} (f : A -> B) (l : list A) :
  combine (map f l) l = map (fun d => (f d, d)) l.
Proof. induction l as [|x l IH]; simpl; [reflexivity | rewrite IH; reflexivity]. Qed.

Lemma exprimes_of_raise (raw_json : results_json) (y : Z) (e : exn) :
  exprimes_of raw_json y = Raise e -> e = KeyError.
Proof.
  unfold exprimes_of. destruct (raw_json !! y) as [fields|]; [|congruence].
  destruct (fields !! "exprimes"%string); congruence.
Qed.

Lemma collect_exprimes_ok (raw_json : results_json) (pairs : list (Z * Timestamp)) :
  collect_exprimes raw_json pairs = Ok (flat_map (votes_of raw_json) pairs).
Proof.
  induction pairs as [|[y d] pairs IH]; simpl; [reflexivity|].
  unfold votes_of at 1. simpl.
  destruct (exprimes_of raw_json y) as [v|e] eqn:E.
  - rewrite IH. reflexivity.
  - rewrite (exprimes_of_raise _ _ _ E). exact IH.
Qed.

Lemma find_votes (raw_json : results_json) (ds : list Timestamp) (d : Timestamp) :
  In d ds ->
  joined_exprimes (flat_map (votes_of raw_json) (map (fun d => (year d, d)) ds)) d
  = match exprimes_of raw_json (year d) with Ok v => Some v | Raise _ => None end.
Proof.
  unfold joined_exprimes.
  induction ds as [|d' ds IH]; simpl; [tauto|].
  intros Hin. unfold votes_of at 1. simpl.
  destruct (Z.eq_dec d' d) as [->|Hne].
  - destruct (exprimes_of raw_json (year d)) as [v|e] eqn:E; simpl.
    + rewrite Z.eqb_refl. reflexivity.
    + destruct (in_dec Z.eq_dec d ds) as [Hd|Hd].
      * exact (IH Hd).
      * destruct (List.find _ _) as [[d0 v0]|] eqn:F; [|reflexivity].
        exfalso. apply find_some in F as [H0 Heq0]. simpl in Heq0.
        apply Z.eqb_eq in Heq0. subst d0. apply Hd.
        apply in_flat_map in H0 as ([y1 d1] & H1 & H2).
        apply in_map_iff in H1 as (d2 & Heq & Hd2). inversion Heq; subst.
        unfold votes_of in H2. simpl in H2.
        destruct (exprimes_of raw_json (year d1)); simpl in H2; [|tauto].
        destruct H2 as [H2|[]]. inversion H2; subst. exact Hd2.
  - destruct Hin as [Hin|Hin]; [contradiction|].
    destruct (exprimes_of raw_json (year d')) as [v|e]; simpl.
    + apply Z.eqb_neq in Hne. rewrite Hne. apply IH, Hin.
    + apply IH, Hin.
Qed.

Lemma zsum_zeros {A : Type} (l : list A) : zsum (map (fun _ => 0) l) = 0.
Proof. induction l; simpl; [reflexivity | exact IHl]. Qed.

Lemma concat_frames_nonempty {A : Type} (frames : list A) (x : A) :
  In x frames -> concat_frames frames = Ok frames.
Proof. destruct frames; simpl; [tauto | reflexivity]. Qed.

Lemma int64_sum_zeros {A : Type} (l : list A) : int64_sum (map (fun _ => 0) l) = 0.
Proof. rewrite int64_sum_wrap, zsum_zeros. reflexivity. Qed.

(** A row without sample size is encoded with all its counts 0. *)
Lemma cast_row_no_size (r : poll) :
  cast_row (set_samplesize PrimFloat.nan r)
  = Ok {| m_dateelection := dateelection r;
          m_date := date r;
          m_countdown := countdown r;
          m_sondage := sondage r;
          m_samplesize := 0;
          m_counts := map (fun _ => 0) (shares r) |}.
Proof.
  unfold cast_row. cbn [set_samplesize samplesize shares dateelection date
                        countdown sondage].
  rewrite (traverse_ok _ (fun _ => 0))
    by (intros share _; apply count_cell_nan_size).
  rewrite bind_Ok. unfold mret, result_ret. rewrite int64_sum_zeros. reflexivity.
Qed.

Lemma is_infinity_false (x : float64) :
  PrimFloat.is_infinity x = false ->
  match Prim2SF x with S754_infinity _ => False | _ => True end.
Proof.
  unfold PrimFloat.is_infinity. rewrite FloatAxioms.eqb_spec, FloatAxioms.abs_spec.
  destruct (Prim2SF x) as [s|s| |s m e]; try (intros _; exact I).
  intros H. discriminate H.
Qed.

(** The encoder returns a count for every cell that is not infinite. *)
Lemma count_cell_ok (size share : float64) :
  PrimFloat.is_infinity (share / 100 * size)%float = false ->
  exists c, count_cell size share = Ok c.
Proof.
  intros H. apply is_infinity_false in H.
  unfold count_cell, round_fillna_astype_int, value, PrimFloat.is_nan.
  rewrite FloatAxioms.eqb_spec.
  destruct (Prim2SF (share / 100 * size)%float) as [s|s| |s m e];
    [eexists; reflexivity | destruct H | eexists; reflexivity | eexists; reflexivity].
Qed.

Lemma traverse_exists {A B : Type} (f : A -> result B) (l : list A) :
  Forall (fun x => exists y, f x = Ok y) l -> exists l', traverse f l = Ok l'.
Proof.
  induction 1 as [|x l [y Hy] _ [l' IH]]; cbn [traverse]; [eexists; reflexivity|].
  rewrite Hy, bind_Ok, IH, bind_Ok. eexists. reflexivity.
Qed.

Lemma cast_as_multinomial_ok (df : list poll) :
  Forall (fun r => Forall (fun share =>
                             PrimFloat.is_infinity (share / 100 * samplesize r)%float
                             = false) (shares r)) df ->
  exists table, cast_as_multinomial df = Ok table.
Proof.
  intros H. apply traverse_exists.
  eapply List.Forall_impl; [|exact H]. intros r Hr. cbv beta in Hr.
  unfold cast_row.
  destruct (traverse_exists (count_cell (samplesize r)) (shares r)) as [counts Hc].
  { eapply List.Forall_impl; [|exact Hr]. intros share Hs. apply count_cell_ok, Hs. }
  rewrite Hc, bind_Ok. eexists. reflexivity.
Qed.

(** C8. The loop of [results_as_multinomial] never raises: a year without
    official results (no entry, or no [exprimes]) contributes nothing and
    the iteration goes on.  When the elections of the table fall in
    distinct years and at least one has results, the call hands every row
    of the table to the encoder: an election with results with its
    expressed votes divided by 100 as sample size, and the row of an
    election without results with no sample size, which is encoded with
    all its counts 0.  The call then returns one row per row of the table,
    and it does return when no product of a share by a sample size is
    infinite. *)
Theorem missing_results_are_skipped
  (raw_json : results_json) (results_raw : list poll)
  (Hyear : forall r1 r2, In r1 results_raw -> In r2 results_raw ->
             year (dateelection r1) = year (dateelection r2) ->
             dateelection r1 = dateelection r2)
  (Hsome : exists r v, In r results_raw /\
             exprimes_of raw_json (year (dateelection r)) = Ok v) :
  let joined :=
    map (fun r =>
           set_samplesize
             match exprimes_of raw_json (year (dateelection r)) with
             | Ok v => of_int (v / 100)
             | Raise _ => PrimFloat.nan
             end r)
        results_raw in
  (forall pairs,
     collect_exprimes raw_json pairs = Ok (flat_map (votes_of raw_json) pairs))
  /\ results_as_multinomial raw_json results_raw = cast_as_multinomial joined
  /\ Forall (fun r => (exists e, exprimes_of raw_json (year (dateelection r)) = Raise e) ->
                      cast_row (set_samplesize PrimFloat.nan r)
                      = Ok {| m_dateelection := dateelection r;
                              m_date := date r;
                              m_countdown := countdown r;
                              m_sondage := sondage r;
                              m_samplesize := 0;
                              m_counts := map (fun _ => 0) (shares r) |})
            results_raw
  /\ (forall table,
        results_as_multinomial raw_json results_raw = Ok table ->
        Forall2 (fun r r' => cast_row r = Ok r') joined table
        /\ length table = length results_raw)
  /\ (Forall (fun r => Forall (fun share =>
                                 PrimFloat.is_infinity (share / 100 * samplesize r)%float
                                 = false) (shares r)) joined ->
      exists table, results_as_multinomial raw_json results_raw = Ok table).
Proof.
  intros joined.
  assert (Hcall : results_as_multinomial raw_json results_raw
                  = cast_as_multinomial joined).
  { unfold results_as_multinomial.
    set (dates := map dateelection results_raw).
    assert (Hu : unique (map year dates) = map year (unique dates)).
    { unfold unique. apply (unique_from_map year [] dates). simpl.
      intros a b Ha Hb Hab.
      apply in_map_iff in Ha as (r1 & <- & H1).
      apply in_map_iff in Hb as (r2 & <- & H2). auto. }
    rewrite Hu, combine_map_l, collect_exprimes_ok.
    destruct Hsome as (r0 & v0 & Hr0 & Hv0).
    assert (Hin0 : In (dateelection r0, v0)
                      (flat_map (votes_of raw_json)
                         (map (fun d => (year d, d)) (unique dates)))).
    { apply in_flat_map. exists (year (dateelection r0), dateelection r0). split.
      - apply in_map_iff. exists (dateelection r0). split; [reflexivity|].
        apply in_unique. unfold dates. apply in_map. exact Hr0.
      - unfold votes_of. simpl. rewrite Hv0. left. reflexivity. }
    rewrite bind_Ok, (concat_frames_nonempty _ _ Hin0), bind_Ok.
    unfold joined. f_equal.
    apply map_ext_in. intros r Hr. unfold with_expressed_votes.
    rewrite find_votes.
    + destruct (exprimes_of raw_json (year (dateelection r))); reflexivity.
    + apply in_unique. unfold dates. apply in_map. exact Hr. }
  split; [apply collect_exprimes_ok|]. split; [exact Hcall|].
  split; [|split].
  - apply List.Forall_forall. intros r _ _. apply cast_row_no_size.
  - intros table Ht. rewrite Hcall in Ht. apply cast_as_multinomial_inv in Ht.
    split; [exact Ht|].
    rewrite <- (Forall2_length _ _ _ Ht). unfold joined. apply length_map.
  - intros Hfin. rewrite Hcall. apply cast_as_multinomial_ok, Hfin.
Qed.

Lemma missing_results_are_skipped_witness :
  results_as_multinomial raw_json_2017 results_raw_2017_2022
  = Ok [ MPoll (to_datetime 2017 4 23) (to_datetime 2017 4 23) 0 "result" 360544
               [70666; 23075; 0; 86530; 72109; 76796; 16946; 14422];
         MPoll (to_datetime 2022 4 10) (to_datetime 2022 4 10) 0 "result" 0
               [0; 0; 0; 0; 0; 0; 0; 0] ].
Proof.
  pose proof (missing_results_are_skipped raw_json_2017 results_raw_2017_2022) as H.
  destruct H as (_ & H & _).
  - intros r1 r2 [<-|[<-|[]]] [<-|[<-|[]]]; vm_compute; congruence.
  - exists (Poll (to_datetime 2017 4 23) (to_datetime 2017 4 23) 0 "result" PrimFloat.nan
         [19.6; 6.4; 0; 24; 20; 21.3; 4.7; 4]%float), 36054394.
    split; [left; reflexivity | vm_compute; reflexivity].
  - rewrite H. vm_compute. reflexivity.
Defined.

Example results_as_multinomial_without_any_result :
  results_as_multinomial raw_json_2017
    [ Poll (to_datetime 2022 4 10) (to_datetime 2022 4 10) 0 "result" PrimFloat.nan
           [PrimFloat.nan; PrimFloat.nan; PrimFloat.nan; PrimFloat.nan;
            PrimFloat.nan; PrimFloat.nan; PrimFloat.nan; 100%float] ]
  = Raise ValueError.
Proof. vm_compute. reflexivity. Qed.

(** ** Selection of a hypothesis *)

Lemma last_cons {A : Type} (x d : A) (l : list A) :
  List.last (x :: l) d = List.last l x.
Proof.
  revert x d. induction l as [|y l IH]; intros x d; [reflexivity|].
  change (List.last (x :: y :: l) d) with (List.last (y :: l) d).
  rewrite (IH y d). symmetry. apply IH.
Qed.

Lemma select_hypothesis_step (prev : option json) (h : json) (rest : list json) :
  is_hypothesis h ->
  select_hypothesis_loop prev (h :: rest)
  = if includes_reference h then json_normalize h
    else select_hypothesis_loop (Some h) rest.
Proof.
  intros (fields & ints & -> & Hi). unfold includes_reference.
  cbn [select_hypothesis_loop]. rewrite Hi. reflexivity.
Qed.

Lemma select_hypothesis_loop_spec (poll : list json) (prev : json) :
  Forall is_hypothesis poll ->
  select_hypothesis_loop (Some prev) poll
  = match List.find includes_reference poll with
    | Some h => json_normalize h
    | None => json_normalize (List.last poll prev)
    end.
Proof.
  revert prev. induction poll as [|h rest IH]; intros prev Hwf; [reflexivity|].
  inversion Hwf as [|? ? Hh Hrest]; subst.
  rewrite (select_hypothesis_step _ _ _ Hh). cbn [List.find].
  destruct (includes_reference h); [reflexivity|].
  rewrite (IH h Hrest), last_cons. reflexivity.
Qed.

(** C4 (as amended). On a non-empty list of hypotheses [select_hypothesis]
    returns the first hypothesis whose intentions include "Christiane
    Taubira" when there is one, and otherwise the last hypothesis of the
    list. *)
Theorem select_hypothesis_reference_else_last (h0 : json) (poll : list json)
  (Hwf : Forall is_hypothesis (h0 :: poll)) :
  select_hypothesis (h0 :: poll)
  = match List.find includes_reference (h0 :: poll) with
    | Some h => json_normalize h
    | None => json_normalize (List.last poll h0)
    end.
Proof.
  inversion Hwf as [|? ? Hh Hrest]; subst.
  unfold select_hypothesis. rewrite (select_hypothesis_step _ _ _ Hh).
  cbn [List.find]. destruct (includes_reference h0); [reflexivity|].
  apply select_hypothesis_loop_spec, Hrest.
Qed.

Lemma hypothesis_1_ok : is_hypothesis hypothesis_1.
Proof. do 2 eexists. split; reflexivity. Qed.

Lemma hypothesis_2_ok : is_hypothesis hypothesis_2.
Proof. do 2 eexists. split; reflexivity. Qed.

Lemma hypothesis_taubira_ok : is_hypothesis hypothesis_taubira.
Proof. do 2 eexists. split; reflexivity. Qed.

Lemma select_hypothesis_reference_else_last_witness :
  select_hypothesis [hypothesis_1; hypothesis_taubira; hypothesis_2]
  = json_normalize hypothesis_taubira
  /\ select_hypothesis [hypothesis_1; hypothesis_2] = json_normalize hypothesis_2.
Proof.
  split.
  - apply (select_hypothesis_reference_else_last
             hypothesis_1 [hypothesis_taubira; hypothesis_2]).
    repeat constructor;
      [apply hypothesis_1_ok | apply hypothesis_taubira_ok | apply hypothesis_2_ok].
  - apply (select_hypothesis_reference_else_last hypothesis_1 [hypothesis_2]).
    repeat constructor; [apply hypothesis_1_ok | apply hypothesis_2_ok].
Defined.

(** C4, counterexample. With two hypotheses that both leave the reference
    candidate out, the second one is returned, not the first. *)
Lemma reference_else_first_fails :
  ~ reference_else_first [hypothesis_1; hypothesis_2].
Proof.
  unfold reference_else_first. vm_compute. intros H. inversion H.
Qed.

(** ** Synthetic forecast dates *)

Lemma same_length_inv (n : nat) (rest : list nat) :
  same_length (n :: rest) = Ok tt -> Forall (eq n) rest.
Proof.
  simpl. destruct (forallb (Nat.eqb n) rest) eqn:E; [|discriminate].
  intros _. apply List.Forall_forall. intros m Hm.
  rewrite forallb_forall in E. apply Nat.eqb_eq, E, Hm.
Qed.

Lemma length_tile {A : Type} (a : list A) (reps : nat) :
  length (tile a reps) = (reps * length a)%nat.
Proof.
  unfold tile. induction reps as [|k IH]; simpl; [reflexivity|].
  rewrite length_app, IH. reflexivity.
Qed.

Lemma length_arange (n : Z) : length (arange n) = Z.to_nat n.
Proof. unfold arange. rewrite length_map, length_seq. reflexivity. Qed.

Lemma nth_arange (n : Z) (i : nat) :
  (i < Z.to_nat n)%nat -> nth i (arange n) 0 = Z.of_nat i.
Proof.
  intros H. unfold arange.
  rewrite (nth_indep _ 0 (Z.of_nat 0)) by (rewrite length_map, length_seq; exact H).
  rewrite map_nth, seq_nth by exact H. reflexivity.
Qed.

Lemma date_range_spec (periods : Z) (end_ : Timestamp) (ds : list Timestamp) :
  date_range periods end_ = Ok ds ->
  length ds = Z.to_nat periods /\
  forall i, (i < Z.to_nat periods)%nat ->
            nth i ds 0 = end_ - (periods - 1 - Z.of_nat i).
Proof.
  unfold date_range. destruct (periods <? 0); [discriminate|].
  intros H. inversion H; subst. split.
  - rewrite length_map. apply length_arange.
  - intros i Hi.
    rewrite (nth_indep _ 0 ((fun j => end_ - (periods - 1 - j)) 0))
      by (rewrite length_map, length_arange; exact Hi).
    rewrite (map_nth (fun j => end_ - (periods - 1 - j))), nth_arange by exact Hi.
    reflexivity.
Qed.

Lemma traverse_date_range (countdown : list Z) (els : list Timestamp)
      (ranges : list (list Timestamp)) :
  traverse (fun date => max_countdown ← column_max countdown;
                        date_range (max_countdown + 1) date) els = Ok ranges ->
  Forall2 (fun e ds => exists m, column_max countdown = Ok m /\
                                 date_range (m + 1) e = Ok ds) els ranges.
Proof.
  revert ranges. induction els as [|e els IH]; intros ranges; simpl.
  - intros H. inversion H. constructor.
  - intros H. apply bind_inv in H as (ds & Hds & H).
    apply bind_inv in H as (rs & Hrs & H). inversion H; subst.
    constructor; [|apply IH, Hrs].
    apply bind_inv in Hds as (m & Hm & Hds). eauto.
Qed.

Lemma last_nth {A : Type} (l : list A) (d : A) :
  List.last l d = nth (length l - 1) l d.
Proof.
  induction l as [|x l IH]; [reflexivity|].
  destruct l as [|y l]; [reflexivity|].
  change (List.last (x :: y :: l) d) with (List.last (y :: l) d).
  rewrite IH. simpl. rewrite Nat.sub_0_r. reflexivity.
Qed.

Lemma length_concat_uniform {A : Type} (n : nat) (ls : list (list A)) :
  Forall (fun l => length l = n) ls -> length (concat ls) = (length ls * n)%nat.
Proof.
  induction 1 as [|l ls Hl _ IH]; simpl; [reflexivity|].
  rewrite length_app, IH, Hl. reflexivity.
Qed.

Lemma map_fst_combine {A B : Type} (a : list A) (b : list B) :
  (length a <= length b)%nat -> map fst (combine a b) = a.
Proof.
  revert b. induction a as [|x a IH]; intros [|y b] H; simpl in *;
    try reflexivity; [lia|].
  rewrite IH by lia. reflexivity.
Qed.

Lemma random_choice_length {A : Type} (g : nat -> nat) (a l : list A) (size : nat) :
  random_choice g a size = Ok l -> length l = size.
Proof.
  unfold random_choice. destruct a as [|d a].
  - destruct (size =? 0)%nat eqn:E; [|discriminate].
    intros H. inversion H. apply Nat.eqb_eq in E. subst. reflexivity.
  - intros H. inversion H. rewrite length_map, length_seq. reflexivity.
Qed.

Lemma column_max_nonempty (l : list Z) (m : Z) :
  column_max l = Ok m -> (1 <= length l)%nat.
Proof. destruct l; simpl; [discriminate | lia]. Qed.

Lemma concat_frames_inv {A : Type} (frames l : list A) :
  concat_frames frames = Ok l -> l = frames /\ frames <> [].
Proof.
  destruct frames; simpl; [discriminate|].
  intros H. inversion H. split; [reflexivity | discriminate].
Qed.

(** C7. When [_generate_oos_data] returns, the dates it generates are, for
    each election of the coordinates in turn, max_countdown + 1
    consecutive days ending on the election's date, and these are the
    dates of the rows of the synthetic frame; with a countdown coordinate
    0..59 that is 60 dates per election. *)
Theorem forecast_dates_per_election
  (self : PresidentialElectionsModel) (idata : InferenceData)
  (g_sondage g_samplesize : nat -> nat)
  (new_dates : list Timestamp) (frame : list oos_row)
  (Hrun : _generate_oos_data self idata g_sondage g_samplesize
          = Ok (new_dates, frame)) :
  exists (max_countdown : Z) (ranges : list (list Timestamp)),
    column_max (posterior_countdown idata) = Ok max_countdown /\
    0 <= max_countdown /\
    new_dates = concat ranges /\
    map oos_date frame = new_dates /\
    Forall2 (fun e ds =>
               length ds = Z.to_nat (max_countdown + 1) /\
               List.last ds 0 = e /\
               (forall i, (S i < length ds)%nat ->
                          nth (S i) ds 0 = nth i ds 0 + 1))
            (posterior_elections idata) ranges /\
    (posterior_countdown idata = arange 60 ->
     Forall (fun ds => length ds = 60%nat) ranges).
Proof.
  unfold _generate_oos_data in Hrun.
  apply bind_inv in Hrun as (ranges0 & Htr & Hrun).
  apply bind_inv in Hrun as (ranges & Hcf & Hrun).
  apply bind_inv in Hrun as (sondage_ & Hs & Hrun).
  apply bind_inv in Hrun as (samplesize_ & Hn & Hrun).
  apply bind_inv in Hrun as ([] & Hlen4 & Hrun).
  apply bind_inv in Hrun as ([] & Hlen2 & Hrun).
  inversion Hrun as [[Hnd Hframe]]; clear Hrun.
  apply concat_frames_inv in Hcf as [-> Hne].
  apply traverse_date_range in Htr.
  set (cd := posterior_countdown idata) in *.
  set (els := posterior_elections idata) in *.
  assert (Hm : exists m, column_max cd = Ok m).
  { destruct Htr as [|e ds ? ? (m & Hm & _) _]; [contradiction | eauto]. }
  destruct Hm as [m Hm].
  assert (Hall : Forall2 (fun e ds => date_range (m + 1) e = Ok ds) els ranges0).
  { eapply List.Forall2_impl; [|exact Htr]. intros e ds (m' & Hm' & Hd).
    rewrite Hm in Hm'. inversion Hm'; subst. exact Hd. }
  assert (Hlens : Forall (fun ds => length ds = Z.to_nat (m + 1)) ranges0).
  { clear -Hall. induction Hall as [|e ds ? ? Hd _ IH]; constructor; [|exact IH].
    apply (date_range_spec _ _ _ Hd). }
  assert (Hsz : length (concat ranges0) = (length els * Z.to_nat (m + 1))%nat).
  { rewrite (length_concat_uniform _ _ Hlens). f_equal. symmetry.
    eapply Forall2_length. exact Hall. }
  apply same_length_inv in Hlen2. inversion Hlen2 as [|? ? Hl2 _]; subst.
  rewrite length_tile, length_rev in Hl2. rewrite Hsz in Hl2.
  assert (Hels : (1 <= length els)%nat).
  { destruct Htr; [contradiction | simpl; lia]. }
  pose proof (column_max_nonempty _ _ Hm) as Hcd.
  assert (Hcdlen : length cd = Z.to_nat (m + 1)) by nia.
  exists m, ranges0. split; [exact Hm|]. split; [lia|]. split; [reflexivity|].
  split; [|split].
  - rewrite map_map. simpl.
    transitivity (map fst (combine (concat ranges0)
                     (combine (tile (rev cd) (length els))
                        (combine (np_repeat (unique_elections self) (length cd))
                           (combine sondage_ samplesize_))))).
    { apply map_ext. intros [d [c [e [s n]]]]. reflexivity. }
    apply map_fst_combine.
    apply same_length_inv in Hlen4.
    inversion Hlen4 as [|? ? H1 Hlen4']; subst.
    inversion Hlen4' as [|? ? H2 Hlen4'']; subst.
    inversion Hlen4'' as [|? ? H3 _]; subst.
    rewrite !length_combine, <- H1, <- H2, <- H3, Hsz, length_tile, length_rev.
    lia.
  - eapply List.Forall2_impl; [|exact Hall]. intros e ds Hd.
    destruct (date_range_spec _ _ _ Hd) as [Hlen Hnth].
    split; [exact Hlen|]. split.
    + rewrite last_nth, Hnth by lia. lia.
    + intros i Hi. rewrite !Hnth by lia. lia.
  - intros H60. eapply List.Forall_impl; [|exact Hlens].
    intros ds Hds. rewrite Hds, <- Hcdlen.
    fold cd in H60. rewrite H60. reflexivity.
Qed.

Lemma forecast_dates_per_election_witness :
  exists (max_countdown : Z) (ranges : list (list Timestamp)),
    column_max (posterior_countdown trace_2022) = Ok max_countdown /\
    length ranges = 2%nat /\
    Forall (fun ds => length ds = 60%nat) ranges.
Proof.
  destruct (_generate_oos_data forecaster trace_2022 cycling cycling)
    as [[new_dates frame]|e] eqn:E.
  - destruct (forecast_dates_per_election _ _ _ _ _ _ E)
      as (m & ranges & Hm & _ & _ & _ & Hall & H60).
    exists m, ranges. split; [exact Hm|]. split.
    + symmetry. exact (Forall2_length _ _ _ Hall).
    + apply H60. reflexivity.
  - vm_compute in E. discriminate E.
Defined.

(** ** Join with the predictor *)

Lemma existsb_isna_true (self : PresidentialElectionsModel) (frame : list oos_row) :
  Exists (fun r => unemployment (join_unemployment self r) = None) frame ->
  existsb (fun r => isna (unemployment r)) (map (join_unemployment self) frame) = true.
Proof.
  intros H. apply List.Exists_exists in H as (r & Hin & Hr).
  apply existsb_exists. exists (join_unemployment self r).
  split; [apply in_map, Hin | rewrite Hr; reflexivity].
Qed.

Lemma existsb_isna_false (self : PresidentialElectionsModel) (frame : list oos_row) :
  Forall (fun r => unemployment (join_unemployment self r) <> None) frame ->
  existsb (fun r => isna (unemployment r)) (map (join_unemployment self) frame) = false.
Proof.
  intros H. apply not_true_is_false. intros E.
  apply existsb_exists in E as (j & Hj & Hna).
  apply in_map_iff in Hj as (r & <- & Hr).
  rewrite List.Forall_forall in H. specialize (H r Hr).
  destruct (unemployment (join_unemployment self r)); [discriminate | congruence].
Qed.

(** C9. If the join with the predictor table leaves a row of the synthetic
    frame without a value - its quarter is absent from the table or holds
    no value - [_join_with_continuous_predictors] raises, and so does
    [forecast_election]; nothing is imputed.  If every row gets a value,
    the joined frame is returned with each value centred on the mean and
    divided by the standard deviation of [continuous_predictors], the
    series stored when the model object was built. *)
Theorem missing_covariate_is_fatal
  (self : PresidentialElectionsModel) (frame : list oos_row) :
  (Exists (fun r => unemployment (join_unemployment self r) = None) frame ->
   _join_with_continuous_predictors self frame = Raise AssertionError /\
   forall idata g_sondage g_samplesize new_dates,
     _generate_oos_data self idata g_sondage g_samplesize = Ok (new_dates, frame) ->
     forecast_election self idata g_sondage g_samplesize = Raise AssertionError)
  /\ (Forall (fun r => unemployment (join_unemployment self r) <> None) frame ->
      _join_with_continuous_predictors self frame
      = Ok (map (fun r =>
                   {| oos := r;
                      quarter := quarter_of (oos_date r);
                      month_ := (year (oos_date r), month (oos_date r));
                      unemployment :=
                        ((unemployment (join_unemployment self r)
                          - series_mean (map snd (continuous_predictors self)))
                         / series_std (map snd (continuous_predictors self)))%fl |})
                frame)).
Proof.
  split.
  - intros H.
    assert (Hj : _join_with_continuous_predictors self frame = Raise AssertionError).
    { unfold _join_with_continuous_predictors, isna_any.
      rewrite (existsb_isna_true _ _ H). reflexivity. }
    split; [exact Hj|].
    intros idata g1 g2 new_dates Hgen. unfold forecast_election.
    rewrite Hgen, bind_Ok, Hj. reflexivity.
  - intros H. unfold _join_with_continuous_predictors, isna_any.
    rewrite (existsb_isna_false _ _ H).
    change (assert_allclose [0%float]
              (bool_mean [false; false; false; false; false; false; false]))
      with (@Ok unit tt).
    rewrite bind_Ok. unfold mret, result_ret. rewrite map_map. reflexivity.
Qed.

Lemma missing_covariate_is_fatal_witness :
  _join_with_continuous_predictors forecaster [row_2012] = Raise AssertionError
  /\ exists table,
       _join_with_continuous_predictors forecaster [row_2017] = Ok table.
Proof.
  split.
  - apply (proj1 (missing_covariate_is_fatal forecaster [row_2012])).
    constructor. vm_compute. reflexivity.
  - eexists.
    apply (proj2 (missing_covariate_is_fatal forecaster [row_2017])).
    constructor; [|constructor]. vm_compute. discriminate.
Defined.

(** ** Coordinates *)

Lemma existsb_Zeqb_false (x : Z) (seen : list Z) :
  existsb (Z.eqb x) seen = false <-> ~ In x seen.
Proof.
  rewrite <- not_true_iff_false, existsb_exists. split.
  - intros H Hin. apply H. exists x. split; [exact Hin | apply Z.eqb_refl].
  - intros H (y & Hy & Hxy). apply Z.eqb_eq in Hxy. subst. contradiction.
Qed.

Lemma NoDup_unique_from (seen l : list Z) : List.NoDup (unique_from seen l).
Proof.
  revert seen. induction l as [|x l IH]; intros seen; simpl; [apply List.NoDup_nil|].
  destruct (existsb (Z.eqb x) seen); [apply IH|].
  apply List.NoDup_cons; [|apply IH].
  rewrite in_unique_from. simpl. tauto.
Qed.

Lemma unique_from_skip (seen : list Z) (x : Z) (k : nat) (rest : list Z) :
  In x seen ->
  unique_from seen (List.repeat x k ++ rest) = unique_from seen rest.
Proof.
  intros Hin. induction k as [|k IH]; simpl; [reflexivity|].
  replace (existsb (Z.eqb x) seen) with true; [exact IH|].
  symmetry. apply existsb_exists. exists x. split; [exact Hin | apply Z.eqb_refl].
Qed.

Lemma unique_from_np_repeat (seen l : list Z) (k : nat) :
  (1 <= k)%nat -> List.NoDup l -> (forall x, In x l -> ~ In x seen) ->
  unique_from seen (np_repeat l k) = l.
Proof.
  intros Hk. revert seen. induction l as [|x l IH]; intros seen Hnd Hseen;
    [reflexivity|].
  destruct k as [|k]; [lia|].
  unfold np_repeat. cbn [flat_map List.repeat app unique_from].
  replace (existsb (Z.eqb x) seen) with false
    by (symmetry; apply existsb_Zeqb_false, Hseen; left; reflexivity).
  rewrite unique_from_skip by (left; reflexivity).
  f_equal. inversion Hnd as [|? ? Hx Hnd']; subst.
  apply IH; [exact Hnd'|].
  intros y Hy [<-|Hin]; [contradiction|].
  apply (Hseen y); [right; exact Hy | exact Hin].
Qed.

Lemma unique_np_repeat_unique (l : list Z) (k : nat) :
  (1 <= k)%nat -> unique (np_repeat (unique l) k) = unique l.
Proof.
  intros Hk. unfold unique at 1. apply unique_from_np_repeat; [exact Hk | |].
  - apply NoDup_unique_from.
  - intros x _ [].
Qed.

Lemma in_insert_sorted (x y : string) (l : list string) :
  In x (insert_sorted y l) <-> x = y \/ In x l.
Proof.
  induction l as [|z l IH]; simpl; [intuition congruence|].
  destruct (String.leb y z); simpl; [intuition congruence|].
  rewrite IH. intuition congruence.
Qed.

Lemma in_sort_str (x : string) (l : list string) : In x (sort_str l) <-> In x l.
Proof.
  unfold sort_str. induction l as [|y l IH]; simpl; [tauto|].
  rewrite in_insert_sorted, IH. intuition congruence.
Qed.

Lemma in_unique_str_from (seen l : list string) (x : string) :
  In x (unique_str_from seen l) -> In x l.
Proof.
  revert seen. induction l as [|y l IH]; intros seen; simpl; [tauto|].
  destruct (existsb (String.eqb y) seen); simpl.
  - intros H. right. exact (IH _ H).
  - intros [H|H]; [left; exact H | right; exact (IH _ H)].
Qed.

Lemma unique_str_from_complete (seen l : list string) (x : string) :
  In x l -> ~ In x seen -> In x (unique_str_from seen l).
Proof.
  revert seen. induction l as [|y l IH]; intros seen; simpl; [tauto|].
  intros Hin Hseen.
  destruct (String.eqb_spec x y) as [->|Hne].
  - destruct (existsb (String.eqb y) seen) eqn:E; [|left; reflexivity].
    exfalso. apply existsb_exists in E as (z & Hz & Hyz).
    apply String.eqb_eq in Hyz. subst. contradiction.
  - destruct Hin as [Heq|Hin]; [congruence|].
    destruct (existsb (String.eqb y) seen).
    + apply IH; assumption.
    + right. apply IH; [assumption|]. intros [Heq|H]; [congruence | contradiction].
Qed.

Lemma random_choice_in {A : Type} (g : nat -> nat) (a l : list A) (size : nat) :
  random_choice g a size = Ok l -> Forall (fun x => In x a) l.
Proof.
  unfold random_choice. destruct a as [|d a].
  - destruct (size =? 0)%nat; [|discriminate].
    intros H. inversion H. constructor.
  - intros H. injection H as <-. apply List.Forall_forall. intros x Hx.
    apply in_map_iff in Hx as (k & <- & _).
    change (In (nth (g k mod length (d :: a))%nat (d :: a) d) (d :: a)).
    apply (nth_In (d :: a) d).
    apply Nat.mod_upper_bound. discriminate.
Qed.

Lemma column_max_spec (l : list Z) (m : Z) :
  column_max l = Ok m -> In m l /\ Forall (fun x => x <= m) l.
Proof.
  destruct l as [|x l]; simpl; [discriminate|].
  intros H. inversion H as [Hm]. clear H Hm.
  induction l as [|y l [Hin Hall]]; simpl.
  - split; [left; reflexivity | constructor; [lia | constructor]].
  - inversion Hall as [|? ? Hx Hl]; subst. split.
    + destruct (Z.max_spec y (fold_right Z.max x l)) as [[_ ->]|[_ ->]].
      * destruct Hin as [Hin|Hin]; [left; exact Hin | right; right; exact Hin].
      * right. left. reflexivity.
    + constructor; [lia|]. constructor; [lia|].
      eapply List.Forall_impl; [|exact Hl]. intros z Hz. simpl in Hz. lia.
Qed.

Lemma in_arange (n x : Z) : In x (arange n) <-> 0 <= x < n.
Proof.
  unfold arange. rewrite in_map_iff. split.
  - intros (i & <- & Hi). apply in_seq in Hi. lia.
  - intros H. exists (Z.to_nat x). split; [lia|]. apply in_seq. lia.
Qed.

Lemma in_tile {A : Type} (a : list A) (reps : nat) (x : A) :
  In x (tile a reps) <-> (1 <= reps)%nat /\ In x a.
Proof.
  unfold tile. induction reps as [|k IH]; simpl.
  - split; [tauto | intros [H _]; lia].
  - rewrite in_app_iff, IH. split; [intros [H|[_ H]]; split; try lia; exact H|].
    intros [_ H]. left. exact H.
Qed.

Lemma column_max_tile_arange (k : Z) (reps : nat) (m : Z) :
  column_max (tile (rev (arange k)) reps) = Ok m -> m = k - 1 /\ 1 <= k.
Proof.
  intros H. apply column_max_spec in H as [Hin Hall].
  apply in_tile in Hin as [Hreps Hin]. apply in_rev in Hin.
  rewrite ?rev_involutive in Hin.
  apply in_arange in Hin.
  rewrite List.Forall_forall in Hall.
  assert (Hk : k - 1 <= m).
  { apply Hall. apply in_tile. split; [exact Hreps|].
    apply -> in_rev. apply in_arange. lia. }
  lia.
Qed.

Lemma map_snd_combine {A B : Type} (a : list A) (b : list B) :
  (length b <= length a)%nat -> map snd (combine a b) = b.
Proof.
  revert a. induction b as [|y b IH]; intros [|x a] H; simpl in *;
    try reflexivity; [lia|].
  rewrite IH by lia. reflexivity.
Qed.

(** The columns of the frame that [_generate_oos_data] returns. *)
Lemma generate_columns
  (self : PresidentialElectionsModel) (idata : InferenceData)
  (g_sondage g_samplesize : nat -> nat)
  (new_dates : list Timestamp) (frame : list oos_row) :
  _generate_oos_data self idata g_sondage g_samplesize = Ok (new_dates, frame) ->
  exists drawn,
    Forall (fun x => In x (unique_pollsters self)) drawn /\
    map oos_sondage frame = drawn /\
    map oos_countdown frame
    = tile (rev (posterior_countdown idata)) (length (posterior_elections idata)) /\
    map oos_dateelection frame
    = np_repeat (unique_elections self) (length (posterior_countdown idata)) /\
    (1 <= length (posterior_elections idata))%nat /\
    (1 <= length (posterior_countdown idata))%nat.
Proof.
  intros Hrun. unfold _generate_oos_data in Hrun.
  apply bind_inv in Hrun as (ranges0 & Htr & Hrun).
  apply bind_inv in Hrun as (ranges & Hcf & Hrun).
  apply bind_inv in Hrun as (sondage_ & Hs & Hrun).
  apply bind_inv in Hrun as (samplesize_ & Hn & Hrun).
  apply bind_inv in Hrun as ([] & Hlen4 & Hrun).
  apply bind_inv in Hrun as ([] & Hlen2 & Hrun).
  injection Hrun as Hnd Hframe.
  apply concat_frames_inv in Hcf as [-> Hne].
  apply traverse_date_range in Htr.
  set (cd := posterior_countdown idata) in *.
  set (els := posterior_elections idata) in *.
  assert (Hels : (1 <= length els)%nat).
  { destruct Htr; [contradiction | simpl; lia]. }
  assert (Hcd : (1 <= length cd)%nat).
  { destruct Htr as [|e ds ? ? (m & Hm & _) _]; [contradiction|].
    exact (column_max_nonempty _ _ Hm). }
  apply same_length_inv in Hlen4.
  inversion Hlen4 as [|? ? H1 Hlen4']; subst.
  inversion Hlen4' as [|? ? H2 Hlen4'']; subst.
  inversion Hlen4'' as [|? ? H3 _]; subst.
  apply same_length_inv in Hlen2. inversion Hlen2 as [|? ? H4 _]; subst.
  set (est := tile (rev cd) (length els)) in *.
  set (de := np_repeat (unique_elections self) (length cd)) in *.
  set (nd := concat ranges0) in *.
  exists sondage_. split; [exact (random_choice_in _ _ _ _ Hs)|].
  assert (Hrest : map snd (combine nd (combine est (combine de (combine sondage_ samplesize_))))
                  = combine est (combine de (combine sondage_ samplesize_))).
  { apply map_snd_combine. rewrite !length_combine. lia. }
  assert (Hrest2 : map snd (combine est (combine de (combine sondage_ samplesize_)))
                   = combine de (combine sondage_ samplesize_)).
  { apply map_snd_combine. rewrite !length_combine. lia. }
  assert (Hrest3 : map snd (combine de (combine sondage_ samplesize_))
                   = combine sondage_ samplesize_).
  { apply map_snd_combine. rewrite !length_combine. lia. }
  split; [|split; [|split; [|split; assumption]]].
  - rewrite map_map.
    transitivity (map fst (map snd (map snd (map snd
                    (combine nd (combine est (combine de (combine sondage_ samplesize_)))))))).
    { rewrite !map_map. apply map_ext. intros [d [c [e [s n]]]]. reflexivity. }
    rewrite Hrest, Hrest2, Hrest3. apply map_fst_combine. lia.
  - rewrite map_map.
    transitivity (map fst (map snd
                    (combine nd (combine est (combine de (combine sondage_ samplesize_)))))).
    { rewrite !map_map. apply map_ext. intros [d [c [e [s n]]]]. reflexivity. }
    rewrite Hrest. apply map_fst_combine. rewrite !length_combine. lia.
  - rewrite map_map.
    transitivity (map fst (map snd (map snd
                    (combine nd (combine est (combine de (combine sondage_ samplesize_))))))).
    { rewrite !map_map. apply map_ext. intros [d [c [e [s n]]]]. reflexivity. }
    rewrite Hrest, Hrest2. apply map_fst_combine. rewrite !length_combine. lia.
Qed.

Lemma join_keeps_rows (self : PresidentialElectionsModel)
      (frame : list oos_row) (joined : list joined_row) :
  _join_with_continuous_predictors self frame = Ok joined ->
  map oos joined = frame.
Proof.
  unfold _join_with_continuous_predictors. intros H.
  apply bind_inv in H as ([] & _ & H). injection H as <-.
  rewrite !map_map. simpl. apply map_id.
Qed.

(** The coordinates [build_model] stores are read off the table it is
    given, the training table when it is given none. *)
Lemma build_model_coords (self : PresidentialElectionsModel)
      (polls : option (list mpoll)) (cp : option (list float)) (m : Model) :
  build_model self polls cp = Ok m ->
  let data := match polls with Some p => p | None => polls_train self end in
  exists max_countdown,
    column_max (map m_countdown data) = Ok max_countdown /\
    coords m =
    {| observations := seq 0 (length data);
       parties_complete := political_families;
       pollsters := sort_str (unique_str_from [] (map m_sondage data));
       countdown_coord := arange (max_countdown + 1);
       elections := unique (map m_dateelection data);
       elections_observed := removelast (unique (map m_dateelection data)) |}.
Proof.
  intros H data. unfold build_model, _build_coords in H. fold data in H.
  unfold factorize_str, factorize in H. cbn beta iota in H.
  apply bind_inv in H as ([[[pid cid] eid] cds] & Hc & H).
  apply bind_inv in Hc as (mx & Hmx & Hc). injection Hc as <- <- <- <-.
  exists mx. split; [exact Hmx|].
  destruct (_build_data_containers _ _ _ _) as [dc ncp].
  injection H as <-. reflexivity.
Qed.

(** C3 (as amended). [build_model] rebuilds the coordinates from whatever
    table it is given - they depend on that table alone - and uses the
    training table only when it is given none.  [forecast_election] gives
    it the synthetic frame, which is generated from the coordinates of the
    trace and the elections and pollsters of the training table; when the
    trace is the one sampled on the training table, the coordinates
    rebuilt from the frame have the countdown range, the elections, the
    observed elections and the family list of the training coordinates,
    while the pollsters are the sorted distinct pollsters drawn into the
    frame, each of them a training pollster. *)
Theorem forecast_coordinates_rebuilt
  (self : PresidentialElectionsModel) (idata : InferenceData)
  (g_sondage g_samplesize : nat -> nat)
  (train_model forecast_model : Model) (new_dates : list Timestamp)
  (Htrain : build_model self None None = Ok train_model)
  (Hidata : sample_all self = Ok idata)
  (Hrun : forecast_election self idata g_sondage g_samplesize
          = Ok (new_dates, forecast_model)) :
  (forall self1 self2 later cp1 cp2 m1 m2,
     build_model self1 (Some later) cp1 = Ok m1 ->
     build_model self2 (Some later) cp2 = Ok m2 ->
     coords m1 = coords m2)
  /\ countdown_coord (coords forecast_model) = countdown_coord (coords train_model)
  /\ elections (coords forecast_model) = elections (coords train_model)
  /\ elections_observed (coords forecast_model)
     = elections_observed (coords train_model)
  /\ parties_complete (coords forecast_model)
     = parties_complete (coords train_model)
  /\ (exists drawn,
        Forall (fun x => In x (unique_pollsters self)) drawn /\
        pollsters (coords forecast_model)
        = sort_str (unique_str_from [] drawn))
  /\ incl (pollsters (coords forecast_model)) (pollsters (coords train_model)).
Proof.
  split.
  { intros self1 self2 later cp1 cp2 m1 m2 H1 H2.
    apply build_model_coords in H1 as (mx1 & Hmx1 & ->).
    apply build_model_coords in H2 as (mx2 & Hmx2 & ->).
    rewrite Hmx1 in Hmx2. injection Hmx2 as <-. reflexivity. }
  pose proof (build_model_coords _ _ _ _ Htrain) as (mx & Hmx & Hct).
  cbn beta iota zeta in Hmx, Hct.
  unfold sample_all in Hidata. rewrite Htrain, bind_Ok in Hidata.
  injection Hidata as <-. rewrite Hct in Hrun. cbn [countdown_coord elections] in Hrun.
  unfold forecast_election in Hrun.
  apply bind_inv in Hrun as ([nd frame] & Hgen & Hrun).
  apply bind_inv in Hrun as (joined & Hjoin & Hrun).
  apply bind_inv in Hrun as (fm & Hfm & Hrun). injection Hrun as _ <-.
  apply generate_columns in Hgen
    as (drawn & Hdrawn & Hs & Hc & He & Hels & Hcd).
  cbn [posterior_countdown posterior_elections] in Hc, He, Hels, Hcd.
  apply join_keeps_rows in Hjoin.
  apply build_model_coords in Hfm as (mx' & Hmx' & Hcf).
  cbn beta iota zeta in Hmx', Hcf.
  assert (Hsond : map m_sondage (map forecast_row joined) = drawn).
  { rewrite map_map. rewrite <- Hs, <- Hjoin, map_map. reflexivity. }
  assert (Hcount : map m_countdown (map forecast_row joined)
                   = tile (rev (arange (mx + 1)))
                          (length (unique (map m_dateelection (polls_train self))))).
  { rewrite map_map. rewrite <- Hc, <- Hjoin, map_map. reflexivity. }
  assert (Helec : map m_dateelection (map forecast_row joined)
                  = np_repeat (unique_elections self) (length (arange (mx + 1)))).
  { rewrite map_map. rewrite <- He, <- Hjoin, map_map. reflexivity. }
  rewrite Hcount in Hmx'. apply column_max_tile_arange in Hmx' as [-> Hk].
  rewrite Hsond, Helec in Hcf.
  assert (Hue : unique (np_repeat (unique_elections self) (length (arange (mx + 1))))
                = unique (map m_dateelection (polls_train self))).
  { unfold unique_elections, factorize. cbn [snd].
    apply unique_np_repeat_unique. exact Hcd. }
  rewrite Hue in Hcf. rewrite Hcf, Hct. cbn.
  replace (mx + 1 - 1 + 1) with (mx + 1) by lia.
  repeat split; try reflexivity.
  - exists drawn. split; [exact Hdrawn | reflexivity].
  - intros x Hx. apply (proj1 (in_sort_str _ _)) in Hx.
    apply in_unique_str_from in Hx.
    rewrite List.Forall_forall in Hdrawn. specialize (Hdrawn x Hx).
    apply (proj2 (in_sort_str _ _)). exact Hdrawn.
Qed.

Lemma forecast_coordinates_rebuilt_witness :
  exists train_model forecast_model new_dates,
    build_model forecaster None None = Ok train_model /\
    forecast_election forecaster trace_2022 cycling cycling
    = Ok (new_dates, forecast_model) /\
    countdown_coord (coords forecast_model) = countdown_coord (coords train_model) /\
    elections (coords forecast_model) = elections (coords train_model) /\
    incl (pollsters (coords forecast_model)) (pollsters (coords train_model)).
Proof.
  destruct (build_model forecaster None None) as [tm|e] eqn:Et;
    [|vm_compute in Et; discriminate Et].
  destruct (forecast_election forecaster trace_2022 cycling cycling)
    as [[nd fm]|e] eqn:Ef; [|vm_compute in Ef; discriminate Ef].
  exists tm, fm, nd. split; [reflexivity|]. split; [reflexivity|].
  assert (Hi : sample_all forecaster = Ok trace_2022)
    by (vm_compute; reflexivity).
  destruct (forecast_coordinates_rebuilt _ _ _ _ _ _ _ Et Hi Ef)
    as (_ & Hc & He & _ & _ & _ & Hp).
  auto.
Defined.

(** C3, counterexample. With a generator that always draws the first
    pollster, the model [forecast_election] builds has the single
    pollster "Ifop", while the training coordinates have "BVA" and
    "Ifop": the pollster index was rebuilt from the forecast frame. *)
Lemma coordinates_reused_fails :
  ~ coordinates_reused forecaster trace_2022 constant constant.
Proof.
  unfold coordinates_reused. intros H.
  assert (Ht : match build_model forecaster None None with
               | Ok m => pollsters (coords m)
               | Raise _ => []
               end = ["BVA"; "Ifop"]%string) by (vm_compute; reflexivity).
  assert (Hf : match forecast_election forecaster trace_2022 constant constant with
               | Ok (_, m) => pollsters (coords m)
               | Raise _ => []
               end = ["Ifop"]%string) by (vm_compute; reflexivity).
  destruct (build_model forecaster None None) as [tm|e]; [|discriminate Ht].
  destruct (forecast_election forecaster trace_2022 constant constant)
    as [[nd fm]|e]; [|discriminate Hf].
  destruct (H nd fm tm eq_refl eq_refl) as (Hp & _).
  rewrite Ht, Hf in Hp. discriminate Hp.
Qed.

(** ** Non-competing families *)

Lemma at_ZZ_map (f : Z -> Z) (table : list (list Z)) (i p : nat) (row : list Z) (c : Z) :
  table !! i = Some row -> row !! p = Some c ->
  at_ZZ (map (map f) table) i p = f c /\ at_ZZ table i p = c.
Proof.
  intros Hi Hp. unfold at_ZZ.
  assert (Hrow : nth i table [] = row).
  { apply nth_lookup_Some with (d := []) in Hi. exact Hi. }
  assert (Hrow' : nth i (map (map f) table) [] = map f row).
  { change [] with (map f []) at 1. rewrite map_nth, Hrow. reflexivity. }
  rewrite Hrow, Hrow'.
  assert (Hc : nth p row 0 = c) by (apply nth_lookup_Some with (d := 0) in Hp; exact Hp).
  split; [|exact Hc].
  rewrite (nth_indep _ 0 (f 0)).
  - rewrite map_nth, Hc. reflexivity.
  - rewrite length_map. apply lookup_lt_Some in Hp. exact Hp.
Qed.

Lemma penalty_cell (c : Z) :
  replace 1 0 (replace 0 (-10) (astype_bool_int c)) = (if c =? 0 then -10 else 0).
Proof. unfold astype_bool_int, replace. destruct (c =? 0); reflexivity. Qed.

Lemma at_ZZ_rows (f : Z -> Z) (data : list mpoll) (i p : nat) (row : mpoll) (c : Z) :
  data !! i = Some row -> m_counts row !! p = Some c ->
  at_ZZ (map (fun r => map f (m_counts r)) data) i p = f c.
Proof.
  intros Hi Hp.
  assert (Hrow : map m_counts data !! i = Some (m_counts row))
    by (rewrite list_lookup_fmap, Hi; reflexivity).
  rewrite <- (proj1 (at_ZZ_map f _ _ _ _ _ Hrow Hp)).
  rewrite map_map. reflexivity.
Qed.

Lemma penalty_is_here (data : list mpoll) :
  penalty (is_here data)
  = map (fun r => map (fun c => if c =? 0 then -10 else 0) (m_counts r)) data.
Proof.
  unfold penalty, is_here. rewrite map_map. apply map_ext. intros r.
  rewrite map_map. apply map_ext. intros c. apply penalty_cell.
Qed.

Lemma build_model_tables (self : PresidentialElectionsModel)
      (polls : option (list mpoll)) (cp : option (list float)) (m : Model) :
  build_model self polls cp = Ok m ->
  let data := match polls with Some p => p | None => polls_train self end in
  observed_polls (data_containers m) = map m_counts data /\
  polls_multiplicative (non_competing_parties m) = is_here data /\
  polls_additive (non_competing_parties m) = penalty (is_here data) /\
  results (non_competing_parties m) = penalty (is_here (results_mult self)).
Proof.
  intros H data. unfold build_model in H.
  apply bind_inv in H as ([[[pid cid] eid] cds] & _ & H).
  unfold _build_data_containers in H. fold data in H.
  injection H as <-. cbn. auto.
Qed.

Lemma np_round_small (q : Q) : (0 <= q)%Q -> (q <= 1 # 2)%Q -> np_round q = 0.
Proof.
  intros H0 H1.
  apply (nearest_even_unique q); [apply np_round_nearest_even|].
  split; [|intros _; reflexivity].
  change (inject_Z 0) with 0%Q. apply Qabs_Qle_condition. split; Lqa.lra.
Qed.

(** C10. In a built model a family is marked as not competing in a row
    exactly when its count there is 0: the additive term of the polls is
    -10 and the multiplier of the election-specific house effect is 0 when
    the observed count is 0, and they are 0 and 1 otherwise; the additive
    term of a result row is -10 when the result count is 0 and 0
    otherwise.  The latent and noisy popularities add and multiply exactly
    these terms.  Since the counts come from [cast_as_multinomial], a
    family with a positive share whose product with the sample size is at
    most one half is encoded with the count 0, and so marked as not
    competing. *)
Theorem non_competing_iff_zero_count
  (self : PresidentialElectionsModel)
  (polls : option (list mpoll)) (continuous_predictors : option (list float))
  (m : Model)
  (Hm : build_model self polls continuous_predictors = Ok m) :
  let data := match polls with Some p => p | None => polls_train self end in
  let dc := data_containers m in
  let ncp := non_competing_parties m in
  (forall i p row c,
     data !! i = Some row -> m_counts row !! p = Some c ->
     at_ZZ (observed_polls dc) i p = c /\
     at_ZZ (polls_additive ncp) i p = (if c =? 0 then -10 else 0) /\
     at_ZZ (polls_multiplicative ncp) i p = (if c =? 0 then 0 else 1) /\
     forall theta,
       latent_mu_cell dc ncp theta i p
       = (party_baseline theta p
          + election_party_baseline theta (at_Z (election_idx dc) i) p
          + party_time_effect theta (at_Z (countdown_idx dc) i) p
          + election_party_time_effect theta
              (at_Z (countdown_idx dc) i) p (at_Z (election_idx dc) i)
          + at_F (stdz_unemp dc) i * unemployment_effect theta p
          + of_Z (if c =? 0 then -10 else 0))%fl /\
       noisy_mu_cell dc ncp theta i p
       = (latent_mu_cell dc ncp theta i p
          + poll_bias theta p
          + house_effects theta (at_Z (pollster_idx dc) i) p
          + house_election_effects theta
              (at_Z (pollster_idx dc) i) p (at_Z (election_idx dc) i)
            * of_Z (if c =? 0 then 0 else 1))%fl)
  /\ (forall e p row c,
        results_mult self !! e = Some row -> m_counts row !! p = Some c ->
        at_ZZ (results ncp) e p = (if c =? 0 then -10 else 0))
  /\ (forall (r : poll) (encoded : mpoll) (p : nat) (share : float64) (product : Q),
        shares r !! p = Some share ->
        (0 <? share)%float = true ->
        value (share / 100 * samplesize r)%float = Some product ->
        (0 <= product)%Q -> (product <= 1 # 2)%Q ->
        cast_row r = Ok encoded ->
        m_counts encoded !! p = Some 0).
Proof.
  intros data dc ncp.
  destruct (build_model_tables _ _ _ _ Hm) as (Hobs & Hmul & Hadd & Hres).
  fold data dc ncp in Hobs, Hmul, Hadd, Hres.
  split; [|split].
  - intros i p row c Hi Hp.
    assert (Ha : at_ZZ (polls_additive ncp) i p = (if c =? 0 then -10 else 0)).
    { rewrite Hadd, penalty_is_here.
      exact (at_ZZ_rows (fun c => if c =? 0 then -10 else 0) _ _ _ _ _ Hi Hp). }
    assert (Hmu : at_ZZ (polls_multiplicative ncp) i p = (if c =? 0 then 0 else 1)).
    { rewrite Hmul.
      exact (at_ZZ_rows (fun c => if c =? 0 then 0 else 1) _ _ _ _ _ Hi Hp). }
    split.
    { rewrite Hobs. rewrite <- (map_id (map m_counts data)).
      rewrite map_map, (map_ext _ (fun r => map (fun x => x) (m_counts r)))
        by (intros r; symmetry; apply map_id).
      exact (at_ZZ_rows (fun x => x) _ _ _ _ _ Hi Hp). }
    split; [exact Ha|]. split; [exact Hmu|].
    intros theta. unfold noisy_mu_cell, latent_mu_cell. rewrite Ha, Hmu. auto.
  - intros e p row c He Hp.
    rewrite Hres, penalty_is_here.
    exact (at_ZZ_rows (fun c => if c =? 0 then -10 else 0) _ _ _ _ _ He Hp).
  - intros r encoded p share product Hs _ Hv H0 H1 Hcast.
    apply cast_row_inv in Hcast as (_ & _ & _ & _ & _ & Hcounts).
    destruct (Forall2_lookup_l _ _ _ _ _ Hcounts Hs) as (c & Hc & Hcell).
    rewrite Hc. f_equal.
    apply count_cell_inv in Hcell. rewrite Hv in Hcell. subst c.
    rewrite (np_round_small _ H0 H1). reflexivity.
Qed.

Lemma non_competing_iff_zero_count_witness :
  exists m encoded,
    build_model forecaster None None = Ok m /\
    at_ZZ (polls_additive (non_competing_parties m)) 0 2 = -10 /\
    at_ZZ (polls_multiplicative (non_competing_parties m)) 0 2 = 0 /\
    at_ZZ (polls_additive (non_competing_parties m)) 0 3 = 0 /\
    at_ZZ (polls_multiplicative (non_competing_parties m)) 0 3 = 1 /\
    cast_row poll_small_share = Ok encoded /\
    m_counts encoded !! 2%nat = Some 0.
Proof.
  destruct (build_model forecaster None None) as [m|e] eqn:Em;
    [|apply (f_equal (fun r => match r with Ok _ => true | Raise _ => false end)) in Em;
      vm_compute in Em; discriminate Em].
  destruct (cast_row poll_small_share) as [encoded|e] eqn:Ec;
    [|vm_compute in Ec; discriminate Ec].
  exists m, encoded. split; [reflexivity|].
  pose proof (non_competing_iff_zero_count forecaster None None m Em) as (Hp & _ & Hr).
  destruct (Hp 0%nat 2%nat _ 0 eq_refl eq_refl) as (_ & Ha & Hm & _).
  destruct (Hp 0%nat 3%nat _ 230 eq_refl eq_refl) as (_ & Ha' & Hm' & _).
  split; [exact Ha|]. split; [exact Hm|]. split; [exact Ha'|]. split; [exact Hm'|].
  split; [reflexivity|].
  apply (Hr poll_small_share encoded 2%nat 0.04%float
            (7205759403792794 # 18014398509481984)%Q);
    [reflexivity | reflexivity | vm_compute; reflexivity | discriminate | discriminate
     | exact Ec].
Defined.

(** ** The likelihood of the results *)

Lemma length_tabulate (rows cols : nat) (cell : nat -> nat -> float) :
  length (tabulate rows cols cell) = rows.
Proof. unfold tabulate. rewrite length_map, length_seq. reflexivity. Qed.

Lemma nth_tabulate (rows cols : nat) (cell : nat -> nat -> float) (i : nat) :
  (i < rows)%nat ->
  nth i (tabulate rows cols cell) [] = map (cell i) (seq 0 cols).
Proof.
  intros H. unfold tabulate.
  rewrite (nth_indep _ [] ((fun i => map (cell i) (seq 0 cols)) 0%nat))
    by (rewrite length_map, length_seq; exact H).
  rewrite (map_nth (fun i => map (cell i) (seq 0 cols))), seq_nth by exact H.
  reflexivity.
Qed.

Lemma nth_map_rows {A B : Type} (f : A -> B) (l : list A) (i : nat) (da : A) (db : B) :
  (i < length l)%nat -> nth i (map f l) db = f (nth i l da).
Proof.
  intros H. rewrite (nth_indep _ db (f da)) by (rewrite length_map; exact H).
  apply map_nth.
Qed.

Lemma nth_removelast {A : Type} (l : list A) (i : nat) (d : A) :
  (i < length l - 1)%nat -> nth i (removelast l) d = nth i l d.
Proof.
  intros H. rewrite removelast_firstn_len, nth_firstn.
  destruct (Nat.ltb_spec i (Nat.pred (length l))); [reflexivity | lia].
Qed.

Lemma length_removelast {A : Type} (l : list A) :
  length (removelast l) = (length l - 1)%nat.
Proof. rewrite removelast_firstn_len, length_firstn. lia. Qed.

Lemma build_model_results (self : PresidentialElectionsModel)
      (polls : option (list mpoll)) (cp : option (list float)) (m : Model) :
  build_model self polls cp = Ok m ->
  results_N (data_containers m) = map m_samplesize (results_oos self) /\
  observed_results (data_containers m) = map m_counts (results_oos self) /\
  election_unemp (data_containers m) = results_preds self.
Proof.
  intros H. unfold build_model in H.
  apply bind_inv in H as ([[[pid cid] eid] cds] & _ & H).
  unfold _build_data_containers in H. injection H as <-. cbn. auto.
Qed.

(** In a table with one row per election, the rows of the elections
    other than the last are all the rows but the last. *)
Lemma filter_not_last (l : list mpoll) (front : list Z) (d : Z) :
  map m_dateelection l = front ++ [d] -> List.NoDup (front ++ [d]) ->
  List.filter (fun r => negb (m_dateelection r =? d)) l = removelast l.
Proof.
  revert front. induction l as [|r l IH]; intros front Hmap Hnd.
  - destruct front; discriminate Hmap.
  - destruct l as [|r' l].
    + destruct front as [|x [|y front]]; [|discriminate Hmap|discriminate Hmap].
      cbn [map app] in Hmap. injection Hmap as Hd.
      cbn [List.filter removelast]. rewrite Hd, Z.eqb_refl. reflexivity.
    + destruct front as [|x front]; [discriminate Hmap|].
      cbn [map app] in Hmap. injection Hmap as Hx Hmap.
      cbn [app] in Hnd. inversion Hnd as [|? ? Hnotin Hnd']; subst.
      change (removelast (r :: r' :: l)) with (r :: removelast (r' :: l)).
      cbn [List.filter].
      replace (m_dateelection r =? d) with false.
      * cbn [negb]. f_equal. exact (IH front Hmap Hnd').
      * symmetry. apply Z.eqb_neq. intros E. apply Hnotin. rewrite E.
        apply in_or_app. right. left. reflexivity.
Qed.

Lemma map_removelast {A B : Type} (f : A -> B) (l : list A) :
  map f (removelast l) = removelast (map f l).
Proof.
  induction l as [|x l IH]; [reflexivity|].
  destruct l as [|y l]; [reflexivity|].
  change (removelast (x :: y :: l)) with (x :: removelast (y :: l)).
  cbn [map] in *. rewrite IH. reflexivity.
Qed.

(** C6. In a built model whose results table has one row per election of
    the election coordinate, in its order, and whose election to forecast
    is the last of that coordinate, the likelihood "R" of the results is a
    Dirichlet-multinomial observed at the vote counts of the results of
    every election but the one to forecast, with their trial counts; row
    by row, its parameter is [concentration_results] times the softmax of
    the latent popularity of that row's election at countdown 0.  That
    latent popularity has the terms of the one of the polls - baseline,
    election deviation, time effect, election-specific time effect,
    predictor effect, penalty of the families without a vote - taken at
    countdown 0: it coincides with the latent popularity of any poll of
    that election at countdown 0 with the same predictor value and
    penalty.  It has no pollster term and does not depend on
    [concentration_polls], the concentration of the likelihood of the
    polls, which in turn does not depend on [concentration_results]. *)
Theorem results_likelihood_structure
  (self : PresidentialElectionsModel)
  (polls : option (list mpoll)) (continuous_predictors : option (list float))
  (m : Model) (theta : draw)
  (Hm : build_model self polls continuous_predictors = Ok m)
  (Hresults : map m_dateelection (results_mult self) = elections (coords m))
  (Hforecast : elections (coords m)
               = elections_observed (coords m) ++ [election_date self]) :
  let cds := coords m in
  let dc := data_containers m in
  let ncp := non_competing_parties m in
  let a := scale (concentration_results theta)
                 (removelast (latent_pop_t0 cds dc ncp theta)) in
  rv_name (results_likelihood m theta) = "R"%string
  /\ rv_dims (results_likelihood m theta)
     = ["elections_observed"; "parties_complete"]%string
  /\ rv_dist (results_likelihood m theta)
     = DirichletMultinomial a (map m_samplesize (results_oos self))
  /\ rv_observed (results_likelihood m theta) = map m_counts (results_oos self)
  /\ results_oos self = removelast (results_mult self)
  /\ map m_dateelection (results_oos self) = elections_observed cds
  /\ ~ In (election_date self) (elections_observed cds)
  /\ length a = length (elections_observed cds)
  /\ (forall e row,
        results_oos self !! e = Some row ->
        elections cds !! e = Some (m_dateelection row)
        /\ results_mult self !! e = Some row
        /\ nth e (rv_observed (results_likelihood m theta)) [] = m_counts row
        /\ nth e a []
           = map (fmul (concentration_results theta))
                 (softmax_row (map (latent_mu_t0_cell dc ncp theta e)
                                   (seq 0 (length political_families)))))
  /\ (forall e p row c,
        results_mult self !! e = Some row -> m_counts row !! p = Some c ->
        latent_mu_t0_cell dc ncp theta e p
        = (party_baseline theta p
           + election_party_baseline theta (Z.of_nat e) p
           + party_time_effect theta 0 p
           + election_party_time_effect theta 0 p (Z.of_nat e)
           + at_F (results_preds self) e * unemployment_effect theta p
           + of_Z (if c =? 0 then -10 else 0))%fl)
  /\ (forall i e p,
        at_Z (election_idx dc) i = Z.of_nat e ->
        at_Z (countdown_idx dc) i = 0 ->
        at_F (stdz_unemp dc) i = at_F (election_unemp dc) e ->
        at_ZZ (polls_additive ncp) i p = at_ZZ (results ncp) e p ->
        latent_mu_cell dc ncp theta i p = latent_mu_t0_cell dc ncp theta e p)
  /\ (forall bias house house_election concentration,
        results_likelihood m
          (with_pollster_terms bias house house_election concentration theta)
        = results_likelihood m theta)
  /\ rv_dist (polls_likelihood m theta)
     = DirichletMultinomial
         (scale (concentration_polls theta) (noisy_popularity cds dc ncp theta))
         (observed_N dc)
  /\ (forall concentration,
        polls_likelihood m (with_concentration_results concentration theta)
        = polls_likelihood m theta).
Proof.
  intros cds dc ncp a.
  destruct (build_model_results _ _ _ _ Hm) as (HN & Hobs & Hunemp).
  destruct (build_model_tables _ _ _ _ Hm) as (_ & _ & _ & Hres).
  destruct (build_model_coords _ _ _ _ Hm) as (mx & _ & Hcds).
  cbv zeta in Hres, Hcds. fold dc in HN, Hobs, Hunemp. fold ncp in Hres.
  assert (Hnd : List.NoDup (elections cds)).
  { unfold cds. rewrite Hcds. cbn [elections]. apply NoDup_unique_from. }
  assert (Heo : elections_observed cds = removelast (elections cds)).
  { unfold cds. rewrite Hcds. reflexivity. }
  fold cds in Hresults, Hforecast.
  assert (Hoos : results_oos self = removelast (results_mult self)).
  { unfold results_oos.
    apply (filter_not_last _ (elections_observed cds)).
    - rewrite Hresults. exact Hforecast.
    - rewrite <- Hforecast. exact Hnd. }
  assert (Hdates : map m_dateelection (results_oos self) = elections_observed cds).
  { rewrite Hoos, map_removelast, Hresults, Heo. reflexivity. }
  assert (Hlen : length (latent_pop_t0 cds dc ncp theta) = length (elections cds)).
  { unfold latent_pop_t0, softmax, latent_mu_t0, n_elections.
    rewrite length_map. apply length_tabulate. }
  assert (Hla : length a = length (elections_observed cds)).
  { unfold a, scale. rewrite length_map, length_removelast, Hlen, Heo, length_removelast.
    reflexivity. }
  split; [reflexivity|]. split; [reflexivity|].
  split; [unfold results_likelihood, R_; cbn [rv_dist]; fold dc; rewrite HN; reflexivity|].
  split; [unfold results_likelihood, R_; cbn [rv_observed]; fold dc; exact Hobs|].
  split; [exact Hoos|]. split; [exact Hdates|].
  split.
  { intros Hin. rewrite Hforecast in Hnd. apply NoDup_remove_2 in Hnd.
    apply Hnd. rewrite app_nil_r. exact Hin. }
  split; [exact Hla|].
  split; [|split; [|split; [|split; [|split]]]]; try reflexivity.
  - intros e row He.
    assert (Hmult : results_mult self !! e = Some row
                    /\ (e < length (results_mult self) - 1)%nat).
    { rewrite Hoos, removelast_firstn_len in He.
      apply lookup_take_Some in He as [He Hlt]. split; [exact He | lia]. }
    destruct Hmult as [Hmult Hlt].
    assert (Hel : (e < length (elections cds) - 1)%nat).
    { rewrite <- Hresults, length_map. exact Hlt. }
    split; [rewrite <- Hresults, list_lookup_fmap, Hmult; reflexivity|].
    split; [exact Hmult|]. split.
    + unfold results_likelihood, R_. cbn [rv_observed]. fold dc. rewrite Hobs.
      change (@nil Z) with (m_counts (MPoll 0 0 0 "" 0 [])).
      rewrite map_nth. f_equal. apply nth_lookup_Some with (d := MPoll 0 0 0 "" 0 []).
      exact He.
    + unfold a, scale.
      rewrite (nth_map_rows _ _ _ [] []) by (rewrite length_removelast, Hlen; exact Hel).
      rewrite nth_removelast by (rewrite Hlen; exact Hel).
      unfold latent_pop_t0, softmax.
      rewrite (nth_map_rows _ _ _ [] [])
        by (unfold latent_mu_t0, n_elections; rewrite length_tabulate; lia).
      unfold latent_mu_t0, n_elections. rewrite nth_tabulate by lia. reflexivity.
  - intros e p row c He Hp.
    unfold latent_mu_t0_cell, transpose. fold dc. rewrite Hunemp.
    rewrite Hres, penalty_is_here.
    rewrite (at_ZZ_rows (fun c => if c =? 0 then -10 else 0) _ _ _ _ _ He Hp).
    reflexivity.
  - intros i e p He Hc Hu Hp.
    unfold latent_mu_cell, latent_mu_t0_cell, transpose.
    rewrite He, Hc, Hu, Hp. reflexivity.
Qed.

Lemma results_likelihood_structure_witness :
  exists m,
    build_model forecaster None None = Ok m /\
    rv_observed (results_likelihood m flat_draw)
    = [[70666; 23075; 0; 86530; 72109; 76796; 16946; 14422]] /\
    map m_dateelection (results_oos forecaster) = elections_observed (coords m) /\
    ~ In (election_date forecaster) (elections_observed (coords m)).
Proof.
  destruct (build_model forecaster None None) as [m|e] eqn:Em;
    [|apply (f_equal (fun r => match r with Ok _ => true | Raise _ => false end)) in Em;
      vm_compute in Em; discriminate Em].
  exists m. split; [reflexivity|].
  destruct (build_model_coords _ _ _ _ Em) as (mx & _ & Hcds). cbv zeta in Hcds.
  assert (Hresults : map m_dateelection (results_mult forecaster) = elections (coords m)).
  { rewrite Hcds. vm_compute. reflexivity. }
  assert (Hforecast : elections (coords m)
                      = elections_observed (coords m) ++ [election_date forecaster]).
  { rewrite Hcds. vm_compute. reflexivity. }
  destruct (results_likelihood_structure forecaster None None m flat_draw
              Em Hresults Hforecast)
    as (_ & _ & _ & Hobs & _ & Hdates & Hnot & _).
  split; [rewrite Hobs; vm_compute; reflexivity|].
  split; [exact Hdates | exact Hnot].
Defined.

(** * Further properties of the pipeline *)

(** ** Results table: no result at all *)

Lemma flat_map_nil {A B : Type} (f : A -> list B) (l : list A) :
  (forall x, In x l -> f x = []) -> flat_map f l = [].
Proof.
  induction l as [|x l IH]; intros H; simpl; [reflexivity|].
  rewrite (H x) by (left; reflexivity). apply IH.
  intros y Hy. apply H. right. exact Hy.
Qed.

(** X3. When no election of the results table has official results - in
    particular when the table is empty - [results_as_multinomial] raises
    [ValueError]: every year is skipped and [pd.concat] refuses the empty
    list. *)
Theorem no_result_at_all_is_an_error
  (raw_json : results_json) (results_raw : list poll)
  (Hnone : forall r, In r results_raw ->
             exists e, exprimes_of raw_json (year (dateelection r)) = Raise e) :
  results_as_multinomial raw_json results_raw = Raise ValueError.
Proof.
  unfold results_as_multinomial.
  rewrite collect_exprimes_ok, bind_Ok.
  rewrite flat_map_nil; [reflexivity|].
  intros [y d] Hin. apply in_combine_l in Hin.
  apply (proj1 (in_unique _ _)) in Hin. rewrite map_map in Hin.
  apply in_map_iff in Hin as (r & <- & Hr).
  destruct (Hnone r Hr) as [e He].
  unfold votes_of. cbn [fst]. rewrite He. reflexivity.
Qed.

Lemma no_result_at_all_is_an_error_witness :
  results_as_multinomial raw_json_2017
    [ Poll (to_datetime 2022 4 10) (to_datetime 2022 4 10) 0 "result" PrimFloat.nan
           [PrimFloat.nan; PrimFloat.nan; PrimFloat.nan; PrimFloat.nan;
            PrimFloat.nan; PrimFloat.nan; PrimFloat.nan; 100%float] ]
  = Raise ValueError.
Proof.
  apply no_result_at_all_is_an_error.
  intros r [<-|[]]. exists KeyError. vm_compute. reflexivity.
Defined.

(** ** Harmonizer: what the table is made of *)

Lemma filter_map_commute {A B : Type} (f : A -> B) (p : B -> bool) (q : A -> bool)
      (l : list A) :
  (forall x, p (f x) = q x) ->
  List.filter p (map f l) = map f (List.filter q l).
Proof.
  intros H. induction l as [|x l IH]; simpl; [reflexivity|].
  rewrite H. destruct (q x); simpl; rewrite IH; reflexivity.
Qed.

Lemma combine_map_fst {A B C : Type} (f : A -> B) (l : list A) (l' : list C) :
  combine (map f l) l' = map (fun pc => (f (fst pc), snd pc)) (combine l l').
Proof.
  revert l'. induction l as [|x l IH]; intros [|y l']; simpl; try reflexivity.
  rewrite IH. reflexivity.
Qed.

Lemma start_on_jan_1st_map (f : raw_poll -> raw_poll) (polls : list raw_poll) :
  (forall p, raw_dateelection (f p) = raw_dateelection p) ->
  (forall p, raw_date (f p) = raw_date p) ->
  start_on_jan_1st (map f polls)
  = map (fun pc => (f (fst pc), snd pc)) (start_on_jan_1st polls).
Proof.
  intros He Hd. unfold start_on_jan_1st.
  rewrite map_map, (map_ext _ raw_dateelection) by exact He.
  induction (unique (map raw_dateelection polls)) as [|e es IH]; [reflexivity|].
  cbn [flat_map]. rewrite map_app, IH. f_equal.
  unfold election_frame.
  rewrite (filter_map_commute f (keep_row e) (keep_row e))
    by (intros p; unfold keep_row; rewrite He, Hd; reflexivity).
  rewrite map_map, (map_ext _ raw_date) by exact Hd.
  apply combine_map_fst.
Qed.

(** X4. The "other" share of the harmonized table is recomputed from the
    seven named families alone: whatever the incoming [nbother] column
    holds, the harmonized table is the same. *)
Theorem other_ignores_nbother (v : float64) (polls : list raw_poll) :
  with_other (map (set_nbother v) polls) = with_other polls.
Proof.
  unfold with_other.
  rewrite (start_on_jan_1st_map (set_nbother v)) by (intros; reflexivity).
  rewrite map_map. apply map_ext. intros [p c].
  unfold compute_other, named_families. cbn [fst snd set_nbother raw_nb
    raw_dateelection raw_date raw_sondage raw_samplesize].
  change (Nat.pred (length political_families)) with 7%nat.
  rewrite take_insert_ge by lia. reflexivity.
Qed.

Lemma length_filter_split {A : Type} (p : A -> bool) (l : list A) :
  (length (List.filter p l) + length (List.filter (fun x => negb (p x)) l)
   = length l)%nat.
Proof.
  induction l as [|x l IH]; simpl; [reflexivity|].
  destruct (p x); simpl; lia.
Qed.

Lemma cast_as_multinomial_columns (df : list poll) (table : list mpoll) :
  cast_as_multinomial df = Ok table ->
  map m_sondage table = map sondage df /\
  map m_dateelection table = map dateelection df /\
  length table = length df.
Proof.
  intros H. apply cast_as_multinomial_inv in H.
  induction H as [|r r' df table Hr _ (IH1 & IH2 & IH3)]; [auto|].
  apply cast_row_inv in Hr as (He & _ & _ & Hs & _).
  cbn [map length]. rewrite Hs, He, IH1, IH2, IH3. auto.
Qed.

(** X5. When [_format_polls] returns, the rows of the harmonized table are
    split without loss: the raw results are the rows whose pollster is
    "result", the poll table holds one encoded row for each other row and
    no result row, and the encoded results hold one row, still marked
    "result", for each raw result. *)
Theorem format_polls_splits_results
  (raw_json : results_json) (polls : list raw_poll)
  (results_raw : list poll) (results_mult polls_m : list mpoll)
  (Hrun : _format_polls raw_json polls = Ok (results_raw, results_mult, polls_m)) :
  Forall (fun r => sondage r = "result"%string /\ In r (with_other polls)) results_raw
  /\ Forall (fun r => m_sondage r <> "result"%string) polls_m
  /\ Forall (fun r => m_sondage r = "result"%string) results_mult
  /\ (length results_raw + length polls_m = length (with_other polls))%nat
  /\ length results_mult = length results_raw
  /\ map m_dateelection results_mult = map dateelection results_raw.
Proof.
  unfold _format_polls in Hrun.
  apply bind_inv in Hrun as (table0 & Hh & Hrun).
  apply harmonize_inv in Hh as (-> & _ & _). unfold format_results in Hrun.
  apply bind_inv in Hrun as (pm & Hpm & Hrun).
  apply bind_inv in Hrun as (rm & Hrm & Hrun).
  injection Hrun as <- <- <-.
  unfold results_as_multinomial in Hrm.
  apply bind_inv in Hrm as (frames & _ & Hrm).
  apply bind_inv in Hrm as (jsons & _ & Hrm).
  set (table := with_other polls) in *.
  apply cast_as_multinomial_columns in Hpm as (Hps & _ & Hpl).
  apply cast_as_multinomial_columns in Hrm as (Hrs & Hre & Hrl).
  rewrite map_map in Hrs, Hre. rewrite length_map in Hrl.
  cbn [with_expressed_votes set_samplesize sondage dateelection] in Hrs, Hre.
  assert (Hres : Forall (fun r => sondage r = "result"%string /\ In r table)
                        (List.filter is_result table)).
  { apply List.Forall_forall. intros r Hr. apply filter_In in Hr as [Hin Hr].
    split; [|exact Hin]. unfold is_result in Hr. apply String.eqb_eq in Hr. exact Hr. }
  split; [exact Hres|]. split; [|split; [|split; [|split]]].
  - apply List.Forall_forall. intros r' Hr'.
    apply (in_map m_sondage) in Hr'. rewrite Hps in Hr'.
    apply in_map_iff in Hr' as (r & <- & Hr).
    apply filter_In in Hr as [_ Hr].
    unfold is_result in Hr. apply negb_true_iff in Hr.
    apply String.eqb_neq in Hr. exact Hr.
  - apply List.Forall_forall. intros r' Hr'.
    apply (in_map m_sondage) in Hr'. rewrite Hrs in Hr'.
    apply in_map_iff in Hr' as (r & <- & Hr).
    rewrite List.Forall_forall in Hres. apply (Hres r Hr).
  - rewrite Hpl. apply length_filter_split.
  - exact Hrl.
  - exact Hre.
Qed.

Lemma format_polls_splits_results_witness :
  exists results_raw results_mult polls_m,
    _format_polls raw_json_2017 polls_2017 = Ok (results_raw, results_mult, polls_m)
    /\ length results_raw = 1%nat /\ length polls_m = 2%nat
    /\ length results_mult = 1%nat.
Proof.
  destruct (_format_polls raw_json_2017 polls_2017) as [[[rr rm] pm]|e] eqn:E;
    [|vm_compute in E; discriminate E].
  exists rr, rm, pm. split; [reflexivity|].
  destruct (format_polls_splits_results _ _ _ _ _ E) as (_ & _ & _ & Hlen & Hrm & _).
  assert (Hrr : match _format_polls raw_json_2017 polls_2017 with
                | Ok (rr, _, _) => length rr
                | Raise _ => 0%nat
                end = 1%nat) by (vm_compute; reflexivity).
  rewrite E in Hrr.
  assert (Ht : length (with_other polls_2017) = 3%nat) by (vm_compute; reflexivity).
  rewrite Ht in Hlen. split; [exact Hrr|]. split; lia.
Defined.

(** ** Train and test split *)

Lemma Permutation_filter_split {A : Type} (p : A -> bool) (l : list A) :
  Permutation (List.filter p l ++ List.filter (fun x => negb (p x)) l) l.
Proof.
  induction l as [|x l IH]; simpl; [constructor|].
  destruct (p x); simpl.
  - constructor. exact IH.
  - symmetry. apply Permutation_cons_app. symmetry. exact IH.
Qed.

Lemma last_item_ok (l : list Z) : l <> [] -> exists x, last_item l = Ok x.
Proof. destruct l; [congruence | simpl; eauto]. Qed.

(** X6. When [_train_split] returns, the held-out rows are exactly the
    rows of the last election (the last in order of first appearance)
    dated after the cutoff, every training row belongs to another election
    or is dated on or before the cutoff, the two tables together are a
    rearrangement of the input, and the rows of the other elections stay
    in the training table in their order.  The cutoff is the election day
    minus [test_cutoff], and minus two days when [test_cutoff] is missing
    or zero. *)
Theorem train_split_partitions
  (polls : list mpoll) (test_cutoff : option Z) (train test : list mpoll)
  (Hrun : _train_split polls test_cutoff = Ok (train, test)) :
  exists last_election,
    last_item (unique (map m_dateelection polls)) = Ok last_election /\
    let cutoff := last_election
                  - match test_cutoff with
                    | Some 0 | None => 2
                    | Some c => c
                    end in
    test = List.filter (fun r => (m_dateelection r =? last_election)
                                 && negb (m_date r <=? cutoff)) polls /\
    Forall (fun r => m_dateelection r <> last_election \/ m_date r <= cutoff) train /\
    Permutation (train ++ test) polls /\
    List.filter (fun r => negb (m_dateelection r =? last_election)) train
    = List.filter (fun r => negb (m_dateelection r =? last_election)) polls.
Proof.
  unfold _train_split in Hrun.
  apply bind_inv in Hrun as (last & Hlast & Hrun).
  exists last. split; [exact Hlast|]. cbv zeta.
  set (cutoff := last - match test_cutoff with Some 0 | None => 2 | Some c => c end).
  assert (Hc : match test_cutoff with
               | Some 0 | None => last - 2
               | Some c => last - c
               end = cutoff).
  { unfold cutoff. destruct test_cutoff as [[| |]|]; reflexivity. }
  rewrite Hc in Hrun. injection Hrun as <- <-.
  set (T := List.filter (fun r => m_dateelection r =? last) polls).
  set (P := List.filter (fun r => negb (m_dateelection r =? last)) polls).
  split; [|split; [|split]].
  - unfold T. clear. induction polls as [|r polls IH]; simpl; [reflexivity|].
    destruct (m_dateelection r =? last); simpl; [|exact IH].
    destruct (m_date r <=? cutoff); simpl; rewrite IH; reflexivity.
  - apply Forall_app. split; apply List.Forall_forall; intros r Hr.
    + apply filter_In in Hr as [_ Hr]. apply negb_true_iff, Z.eqb_neq in Hr.
      left. exact Hr.
    + apply filter_In in Hr as [_ Hr]. apply Z.leb_le in Hr. right. exact Hr.
  - rewrite <- app_assoc.
    transitivity (P ++ T).
    + apply Permutation_app_head.
      apply (Permutation_filter_split (fun r => m_date r <=? cutoff) T).
    + transitivity (T ++ P); [apply Permutation_app_comm|].
      apply (Permutation_filter_split (fun r => m_dateelection r =? last) polls).
  - rewrite List.filter_app.
    assert (H1 : List.filter (fun r => negb (m_dateelection r =? last)) P = P).
    { unfold P. clear. induction polls as [|r polls IH]; simpl; [reflexivity|].
      destruct (m_dateelection r =? last) eqn:E; simpl; [exact IH|].
      rewrite E. simpl. rewrite IH. reflexivity. }
    assert (H2 : List.filter (fun r => negb (m_dateelection r =? last))
                   (List.filter (fun r => m_date r <=? cutoff) T) = []).
    { unfold T. clear. induction polls as [|r polls IH]; simpl; [reflexivity|].
      destruct (m_dateelection r =? last) eqn:E; simpl; [|exact IH].
      destruct (m_date r <=? cutoff); simpl; [rewrite E; simpl|]; exact IH. }
    rewrite H1, H2, app_nil_r. reflexivity.
Qed.

Lemma train_split_partitions_witness :
  exists train test,
    _train_split encoded_polls None = Ok (train, test) /\
    length test = 1%nat /\ Permutation (train ++ test) encoded_polls.
Proof.
  destruct (_train_split encoded_polls None) as [[train test]|e] eqn:E;
    [|vm_compute in E; discriminate E].
  exists train, test. split; [reflexivity|].
  destruct (train_split_partitions _ _ _ _ E) as (last & _ & Ht & _ & Hp & _).
  split; [|exact Hp].
  assert (Hl : match _train_split encoded_polls None with
               | Ok (_, test) => length test
               | Raise _ => 0%nat
               end = 1%nat) by (vm_compute; reflexivity).
  rewrite E in Hl. exact Hl.
Defined.

(** X7. [_train_split] fails exactly on an empty table, with the
    [IndexError] of taking the last election of none. *)
Theorem train_split_fails_only_when_empty
  (polls : list mpoll) (test_cutoff : option Z) :
  match _train_split polls test_cutoff with
  | Ok _ => polls <> []
  | Raise e => e = IndexError /\ polls = []
  end.
Proof.
  destruct polls as [|r polls]; [split; reflexivity|].
  unfold _train_split, unique. cbn [map unique_from existsb].
  cbn [last_item]. rewrite bind_Ok. discriminate.
Qed.

(** ** Coordinates: indices, order, range *)

Lemma index_of_in {A : Type} (eqb : A -> A -> bool) (x : A) (l : list A) :
  (forall a b, eqb a b = true <-> a = b) -> In x l ->
  0 <= index_of eqb x l /\ l !! Z.to_nat (index_of eqb x l) = Some x.
Proof.
  intros Heq. induction l as [|y l IH]; [intros []|].
  intros Hin. cbn [index_of].
  destruct (eqb x y) eqn:E.
  - apply Heq in E. subst. split; [lia | reflexivity].
  - destruct Hin as [->|Hin]; [rewrite (proj2 (Heq x x) eq_refl) in E; discriminate|].
    destruct (IH Hin) as [H0 Hl].
    destruct (index_of eqb x l <? 0) eqn:Hneg; [apply Z.ltb_lt in Hneg; lia|].
    split; [lia|].
    replace (Z.to_nat (index_of eqb x l + 1)) with (S (Z.to_nat (index_of eqb x l)))
      by lia.
    exact Hl.
Qed.

Lemma build_model_ids (self : PresidentialElectionsModel)
      (polls : option (list mpoll)) (cp : option (list float)) (m : Model) :
  build_model self polls cp = Ok m ->
  let data := match polls with Some p => p | None => polls_train self end in
  pollster_id m
  = map (fun r => index_of String.eqb (m_sondage r) (pollsters (coords m))) data /\
  election_id m
  = map (fun r => index_of Z.eqb (m_dateelection r) (elections (coords m))) data /\
  countdown_id m = map m_countdown data /\
  election_idx (data_containers m) = election_id m /\
  pollster_idx (data_containers m) = pollster_id m /\
  countdown_idx (data_containers m) = countdown_id m.
Proof.
  intros H data. unfold build_model, _build_coords in H. fold data in H.
  unfold factorize_str, factorize in H. cbn beta iota in H.
  apply bind_inv in H as ([[[pid cid] eid] cds] & Hc & H).
  apply bind_inv in Hc as (mx & Hmx & Hc). injection Hc as <- <- <- <-.
  unfold _build_data_containers in H. injection H as <-.
  cbn. rewrite !map_map. repeat split; reflexivity.
Qed.

(** X8. The index arrays of a built model decode to the table: at every
    row, the pollster index is a position of the pollster coordinate that
    holds the row's pollster, the election index a position of the
    election coordinate that holds the row's election date, and the
    countdown index is the row's countdown itself. *)
Theorem index_arrays_decode_to_rows
  (self : PresidentialElectionsModel)
  (polls : option (list mpoll)) (continuous_predictors : option (list float))
  (m : Model)
  (Hm : build_model self polls continuous_predictors = Ok m) :
  let data := match polls with Some p => p | None => polls_train self end in
  forall i r, data !! i = Some r ->
    (exists code, pollster_id m !! i = Some code /\ 0 <= code /\
                  pollsters (coords m) !! Z.to_nat code = Some (m_sondage r)) /\
    (exists code, election_id m !! i = Some code /\ 0 <= code /\
                  elections (coords m) !! Z.to_nat code = Some (m_dateelection r)) /\
    countdown_id m !! i = Some (m_countdown r).
Proof.
  intros data i r Hi.
  destruct (build_model_ids _ _ _ _ Hm) as (Hp & He & Hc & _).
  destruct (build_model_coords _ _ _ _ Hm) as (mx & _ & Hcds).
  fold data in Hp, He, Hc, Hcds.
  assert (Hin : In r data) by (apply list_elem_of_In, list_elem_of_lookup; eauto).
  split; [|split].
  - exists (index_of String.eqb (m_sondage r) (pollsters (coords m))).
    split; [rewrite Hp, list_lookup_fmap, Hi; reflexivity|].
    apply index_of_in; [apply String.eqb_eq|].
    rewrite Hcds. cbn [pollsters]. apply (proj2 (in_sort_str _ _)).
    apply unique_str_from_complete; [apply in_map, Hin | intros []].
  - exists (index_of Z.eqb (m_dateelection r) (elections (coords m))).
    split; [rewrite He, list_lookup_fmap, Hi; reflexivity|].
    apply index_of_in; [apply Z.eqb_eq|].
    rewrite Hcds. cbn [elections]. apply in_unique. apply in_map, Hin.
  - rewrite Hc, list_lookup_fmap, Hi. reflexivity.
Qed.

Lemma index_arrays_decode_to_rows_witness :
  exists m,
    build_model forecaster None None = Ok m /\
    pollster_id m !! 1%nat = Some 0 /\
    pollsters (coords m) !! 0%nat = Some "BVA"%string.
Proof.
  destruct (build_model forecaster None None) as [m|e] eqn:Em;
    [|apply (f_equal (fun r => match r with Ok _ => true | Raise _ => false end)) in Em;
      vm_compute in Em; discriminate Em].
  exists m. split; [reflexivity|].
  assert (Hid : match build_model forecaster None None with
                | Ok m => pollster_id m !! 1%nat
                | Raise _ => None
                end = Some 0) by (vm_compute; reflexivity).
  rewrite Em in Hid.
  destruct (index_arrays_decode_to_rows forecaster None None m Em 1%nat _ eq_refl)
    as ((code & Hc & _ & Hp) & _ & _).
  rewrite Hid in Hc. injection Hc as <-. split; [exact Hid | exact Hp].
Defined.

Lemma HdRel_insert_sorted (y x : string) (l : list string) :
  str_le y x -> HdRel str_le y l -> HdRel str_le y (insert_sorted x l).
Proof.
  intros Hyx Hl. destruct l as [|z l]; simpl; [constructor; exact Hyx|].
  destruct (String.leb x z); constructor; [exact Hyx|].
  inversion Hl; assumption.
Qed.

Lemma Sorted_insert_sorted (x : string) (l : list string) :
  Sorted str_le l -> Sorted str_le (insert_sorted x l).
Proof.
  induction 1 as [|y l Hs IH Hd]; simpl; [repeat constructor|].
  destruct (String.leb x y) eqn:E.
  - constructor; [constructor; assumption | constructor; exact E].
  - constructor; [exact IH|].
    apply HdRel_insert_sorted; [|exact Hd].
    destruct (String.leb_total x y) as [H|H]; [congruence | exact H].
Qed.

Lemma Sorted_sort_str (l : list string) : Sorted str_le (sort_str l).
Proof.
  unfold sort_str. induction l as [|x l IH]; simpl; [constructor|].
  apply Sorted_insert_sorted, IH.
Qed.

Lemma NoDup_insert_sorted (x : string) (l : list string) :
  ~ In x l -> List.NoDup l -> List.NoDup (insert_sorted x l).
Proof.
  intros Hx Hl. induction Hl as [|y l Hy Hl IH]; simpl.
  - constructor; [intros [] | constructor].
  - destruct (String.leb x y).
    + constructor; [exact Hx | constructor; assumption].
    + constructor.
      * rewrite in_insert_sorted. intros [->|H]; [apply Hx; left; reflexivity|].
        contradiction.
      * apply IH. intros H. apply Hx. right. exact H.
Qed.

Lemma NoDup_sort_str (l : list string) : List.NoDup l -> List.NoDup (sort_str l).
Proof.
  unfold sort_str. induction 1 as [|x l Hx Hl IH]; simpl; [constructor|].
  apply NoDup_insert_sorted; [|exact IH].
  intros H. apply Hx. apply (proj1 (in_sort_str x l)). exact H.
Qed.

Lemma unique_str_from_not_seen (seen l : list string) (x : string) :
  In x (unique_str_from seen l) -> ~ In x seen.
Proof.
  revert seen. induction l as [|y l IH]; intros seen; simpl; [tauto|].
  destruct (existsb (String.eqb y) seen) eqn:E; [apply IH|].
  intros [->|H].
  - intros Hin. apply not_true_iff_false in E. apply E.
    apply existsb_exists. exists x. split; [exact Hin | apply String.eqb_refl].
  - intros Hin. apply (IH _ H). right. exact Hin.
Qed.

Lemma NoDup_unique_str_from (seen l : list string) :
  List.NoDup (unique_str_from seen l).
Proof.
  revert seen. induction l as [|x l IH]; intros seen; simpl; [constructor|].
  destruct (existsb (String.eqb x) seen); [apply IH|].
  constructor; [|apply IH].
  intros H. apply unique_str_from_not_seen in H. apply H. left. reflexivity.
Qed.

(** X9. In the coordinates of a built model the pollsters are sorted in
    the order of their strings and pairwise distinct, the elections are
    pairwise distinct and are exactly the election dates of the table, and
    the observed elections are the elections without the last one. *)
Theorem coordinates_are_sorted_and_distinct
  (self : PresidentialElectionsModel)
  (polls : option (list mpoll)) (continuous_predictors : option (list float))
  (m : Model)
  (Hm : build_model self polls continuous_predictors = Ok m) :
  let data := match polls with Some p => p | None => polls_train self end in
  Sorted str_le (pollsters (coords m))
  /\ List.NoDup (pollsters (coords m))
  /\ (forall s, In s (pollsters (coords m)) <-> In s (map m_sondage data))
  /\ List.NoDup (elections (coords m))
  /\ (forall e, In e (elections (coords m)) <-> In e (map m_dateelection data))
  /\ elections_observed (coords m) = removelast (elections (coords m))
  /\ length (observations (coords m)) = length data.
Proof.
  intros data.
  destruct (build_model_coords _ _ _ _ Hm) as (mx & _ & ->). fold data.
  cbn [pollsters elections elections_observed observations].
  split; [apply Sorted_sort_str|].
  split; [apply NoDup_sort_str, NoDup_unique_str_from|].
  split; [|split; [apply NoDup_unique_from|split; [apply in_unique|]]].
  - intros s. rewrite in_sort_str. split; [apply in_unique_str_from|].
    intros H. apply unique_str_from_complete; [exact H | intros []].
  - split; [reflexivity | apply length_seq].
Qed.

Lemma coordinates_are_sorted_and_distinct_witness :
  exists m,
    build_model forecaster None None = Ok m /\
    Sorted str_le (pollsters (coords m)) /\
    elections_observed (coords m) = removelast (elections (coords m)).
Proof.
  destruct (build_model forecaster None None) as [m|e] eqn:Em;
    [|apply (f_equal (fun r => match r with Ok _ => true | Raise _ => false end)) in Em;
      vm_compute in Em; discriminate Em].
  exists m. split; [reflexivity|].
  destruct (coordinates_are_sorted_and_distinct forecaster None None m Em)
    as (Hs & _ & _ & _ & _ & Ho & _).
  split; [exact Hs | exact Ho].
Defined.

(** X10. The countdown coordinate of a built model is the range from 0 to
    the largest countdown of the table: a countdown of the table lies in
    it exactly when it is not negative, so a row dated after its election
    has no coordinate of its own. *)
Theorem countdown_coordinate_is_zero_to_max
  (self : PresidentialElectionsModel)
  (polls : option (list mpoll)) (continuous_predictors : option (list float))
  (m : Model)
  (Hm : build_model self polls continuous_predictors = Ok m) :
  let data := match polls with Some p => p | None => polls_train self end in
  exists max_countdown,
    In max_countdown (map m_countdown data) /\
    Forall (fun r => m_countdown r <= max_countdown) data /\
    (forall c, In c (countdown_coord (coords m)) <-> 0 <= c <= max_countdown) /\
    length (countdown_coord (coords m)) = Z.to_nat (max_countdown + 1) /\
    Forall (fun r => In (m_countdown r) (countdown_coord (coords m))
                     <-> 0 <= m_countdown r) data.
Proof.
  intros data.
  destruct (build_model_coords _ _ _ _ Hm) as (mx & Hmx & ->). fold data in Hmx.
  apply column_max_spec in Hmx as [Hin Hall].
  assert (Hle : Forall (fun r => m_countdown r <= mx) data).
  { apply List.Forall_forall. intros r Hr. rewrite List.Forall_forall in Hall.
    apply Hall. apply in_map. exact Hr. }
  exists mx. cbn [countdown_coord].
  split; [exact Hin|]. split; [exact Hle|]. split; [|split].
  - intros c. rewrite in_arange. lia.
  - apply length_arange.
  - eapply List.Forall_impl; [|exact Hle]. intros r Hr. cbv beta in Hr.
    rewrite in_arange. lia.
Qed.

Lemma countdown_coordinate_is_zero_to_max_witness :
  exists m max_countdown,
    build_model forecaster None None = Ok m /\
    In max_countdown (map m_countdown (polls_train forecaster)) /\
    length (countdown_coord (coords m)) = Z.to_nat (max_countdown + 1).
Proof.
  destruct (build_model forecaster None None) as [m|e] eqn:Em;
    [|apply (f_equal (fun r => match r with Ok _ => true | Raise _ => false end)) in Em;
      vm_compute in Em; discriminate Em].
  destruct (countdown_coordinate_is_zero_to_max forecaster None None m Em)
    as (mx & Hin & _ & _ & Hlen & _).
  exists m, mx. split; [reflexivity|]. split; [exact Hin | exact Hlen].
Defined.

(** X11. [_build_coords] fails exactly when the table it works on - the
    one it is given, or the training table - is empty, with the
    [ValueError] of a range without a maximum; and since it is the first
    thing [build_model] calls, so does [build_model] on an empty table. *)
Theorem build_coords_fails_only_on_empty_table
  (self : PresidentialElectionsModel) (polls : option (list mpoll)) :
  let data := match polls with Some p => p | None => polls_train self end in
  match _build_coords self polls with
  | Ok _ => data <> []
  | Raise e => e = ValueError /\ data = []
  end
  /\ (data = [] ->
      forall continuous_predictors,
        build_model self polls continuous_predictors = Raise ValueError).
Proof.
  intros data. split.
  - unfold _build_coords. fold data.
    unfold factorize_str, factorize. cbn beta iota.
    destruct data as [|r data]; [split; reflexivity|].
    cbn [map column_max]. rewrite !bind_Ok. discriminate.
  - intros Hd cp. unfold build_model, _build_coords. fold data. rewrite Hd.
    reflexivity.
Qed.

(** ** Synthetic frame: rows *)

Lemma generate_dates
  (self : PresidentialElectionsModel) (idata : InferenceData)
  (g_sondage g_samplesize : nat -> nat)
  (new_dates : list Timestamp) (frame : list oos_row) :
  _generate_oos_data self idata g_sondage g_samplesize = Ok (new_dates, frame) ->
  exists m ranges,
    column_max (posterior_countdown idata) = Ok m /\
    Forall2 (fun e ds => date_range (m + 1) e = Ok ds)
            (posterior_elections idata) ranges /\
    new_dates = concat ranges /\
    map oos_date frame = new_dates /\
    length frame = length new_dates /\
    Forall (fun r => In (oos_samplesize r) (map m_samplesize (results_oos self)))
           frame.
Proof.
  intros Hrun. unfold _generate_oos_data in Hrun.
  apply bind_inv in Hrun as (ranges0 & Htr & Hrun).
  apply bind_inv in Hrun as (ranges & Hcf & Hrun).
  apply bind_inv in Hrun as (sondage_ & Hs & Hrun).
  apply bind_inv in Hrun as (samplesize_ & Hn & Hrun).
  apply bind_inv in Hrun as ([] & Hlen4 & Hrun).
  apply bind_inv in Hrun as ([] & Hlen2 & Hrun).
  injection Hrun as Hnd Hframe.
  apply concat_frames_inv in Hcf as [-> Hne].
  apply traverse_date_range in Htr.
  assert (Hm : exists m, column_max (posterior_countdown idata) = Ok m).
  { destruct Htr as [|e ds ? ? (m & Hm & _) _]; [contradiction | eauto]. }
  destruct Hm as [m Hm]. exists m, ranges0.
  split; [exact Hm|]. split.
  { eapply List.Forall2_impl; [|exact Htr]. intros e ds (m' & Hm' & Hd).
    rewrite Hm in Hm'. injection Hm' as <-. exact Hd. }
  split; [symmetry; exact Hnd|].
  apply same_length_inv in Hlen4.
  inversion Hlen4 as [|? ? H1 Hlen4']; subst.
  inversion Hlen4' as [|? ? H2 Hlen4'']; subst.
  inversion Hlen4'' as [|? ? H3 _]; subst.
  apply same_length_inv in Hlen2. inversion Hlen2 as [|? ? H4 _]; subst.
  set (est := tile (rev (posterior_countdown idata))
                   (length (posterior_elections idata))) in *.
  set (de := np_repeat (unique_elections self)
                       (length (posterior_countdown idata))) in *.
  set (nd := concat ranges0) in *.
  assert (Hfst : map fst (combine nd (combine est (combine de (combine sondage_ samplesize_))))
                 = nd).
  { apply map_fst_combine. rewrite !length_combine. lia. }
  split; [|split].
  - rewrite map_map. rewrite <- Hfst at 2. apply map_ext.
    intros [d [c [e [s n]]]]. reflexivity.
  - rewrite length_map, !length_combine. lia.
  - apply List.Forall_forall. intros r Hr.
    apply in_map_iff in Hr as ([d [c [e [s n]]]] & <- & Hin). cbn [oos_samplesize].
    apply in_combine_r in Hin. apply in_combine_r in Hin.
    apply in_combine_r in Hin. apply in_combine_r in Hin.
    apply random_choice_in in Hn. rewrite List.Forall_forall in Hn. auto.
Qed.

Lemma rev_arange (k : Z) : rev (arange k) = map (fun i => k - 1 - i) (arange k).
Proof.
  apply (nth_ext _ _ 0 ((fun i => k - 1 - i) 0)).
  - rewrite length_rev, length_map. reflexivity.
  - intros i Hi. rewrite length_rev, length_arange in Hi.
    rewrite rev_nth by (rewrite length_arange; exact Hi).
    rewrite length_arange.
    rewrite (map_nth (fun i => k - 1 - i)).
    rewrite !nth_arange by lia. lia.
Qed.

Lemma combine_app_same {A B : Type} (a a' : list A) (b b' : list B) :
  length a = length b ->
  combine (a ++ a') (b ++ b') = combine a b ++ combine a' b'.
Proof.
  revert b. induction a as [|x a IH]; intros [|y b] H; simpl in *;
    try discriminate; [reflexivity|].
  rewrite IH by lia. reflexivity.
Qed.

Lemma block_countdown (k e : Z) (ds : list Z) :
  date_range k e = Ok ds ->
  map (fun p => snd p - fst p) (combine ds (List.repeat e (length (arange k))))
  = rev (arange k).
Proof.
  unfold date_range. destruct (k <? 0); [discriminate|]. intros H.
  injection H as <-. rewrite rev_arange.
  induction (arange k) as [|i l IH]; simpl; [reflexivity|].
  rewrite IH. f_equal. lia.
Qed.

Lemma frame_countdown (k : Z) (els : list Z) (ranges : list (list Z)) :
  Forall2 (fun e ds => date_range k e = Ok ds) els ranges ->
  map (fun p => snd p - fst p)
      (combine (concat ranges) (np_repeat els (length (arange k))))
  = tile (rev (arange k)) (length els).
Proof.
  induction 1 as [|e ds els ranges Hd _ IH]; [reflexivity|].
  unfold np_repeat, tile in *. cbn [concat flat_map length List.repeat].
  rewrite combine_app_same.
  - rewrite map_app, IH, (block_countdown _ _ _ Hd). reflexivity.
  - apply date_range_spec in Hd as [Hl _].
    rewrite Hl, repeat_length, length_arange. reflexivity.
Qed.

Lemma map_eq_Forall {A B : Type} (f g : A -> B) (l : list A) :
  map f l = map g l -> Forall (fun x => f x = g x) l.
Proof.
  induction l as [|x l IH]; simpl; intros H; [constructor|].
  injection H as Hx Hl. constructor; [exact Hx | exact (IH Hl)].
Qed.

Lemma combine_maps {A B C : Type} (f : A -> B) (g : A -> C) (l : list A) :
  combine (map f l) (map g l) = map (fun x => (f x, g x)) l.
Proof. induction l as [|x l IH]; simpl; [reflexivity | rewrite IH; reflexivity]. Qed.

Lemma sample_all_coords (self : PresidentialElectionsModel) (idata : InferenceData) :
  sample_all self = Ok idata ->
  exists mx,
    column_max (map m_countdown (polls_train self)) = Ok mx /\
    posterior_countdown idata = arange (mx + 1) /\
    posterior_elections idata = unique_elections self.
Proof.
  unfold sample_all. intros H. apply bind_inv in H as (m & Hm & H).
  injection H as <-.
  apply build_model_coords in Hm as (mx & Hmx & ->).
  exists mx. split; [exact Hmx|]. split; reflexivity.
Qed.

Lemma column_max_arange (k m : Z) : column_max (arange k) = Ok m -> m = k - 1.
Proof.
  intros H. apply column_max_spec in H as [Hin Hall].
  apply in_arange in Hin. rewrite List.Forall_forall in Hall.
  assert (k - 1 <= m) by (apply Hall, in_arange; lia). lia.
Qed.

(** X12. In the synthetic frame generated from a trace sampled on the
    training table, every row counts down to its own election: its
    countdown is the number of days from its date to its election date
    and is not negative; its election is a training election, its
    pollster a training pollster and its sample size the trial count of an
    observed result.  The frame has one row per election and countdown
    day. *)
Theorem synthetic_rows_count_down_to_their_election
  (self : PresidentialElectionsModel) (idata : InferenceData)
  (g_sondage g_samplesize : nat -> nat)
  (new_dates : list Timestamp) (frame : list oos_row)
  (Hidata : sample_all self = Ok idata)
  (Hrun : _generate_oos_data self idata g_sondage g_samplesize
          = Ok (new_dates, frame)) :
  Forall (fun r =>
            oos_countdown r = oos_dateelection r - oos_date r /\
            0 <= oos_countdown r /\
            In (oos_dateelection r) (unique_elections self) /\
            In (oos_sondage r) (unique_pollsters self) /\
            In (oos_samplesize r) (map m_samplesize (results_oos self)))
         frame
  /\ length frame
     = (length (unique_elections self) * length (posterior_countdown idata))%nat.
Proof.
  destruct (sample_all_coords _ _ Hidata) as (mx & _ & Hcd & Hels).
  destruct (generate_dates _ _ _ _ _ _ Hrun)
    as (m & ranges & Hm & Hall & Hnd & Hdate & Hlen & Hsize).
  destruct (generate_columns _ _ _ _ _ _ Hrun)
    as (drawn & Hdrawn & Hs & Hc & He & _ & _).
  rewrite Hcd in Hm, Hc, He. rewrite Hels in Hall, Hc.
  apply column_max_arange in Hm. subst m.
  replace (mx + 1 - 1 + 1) with (mx + 1) in Hall by lia.
  pose proof (frame_countdown _ _ _ Hall) as Hfc.
  rewrite <- Hnd, <- Hdate, <- He, <- Hc, combine_maps, map_map in Hfc.
  cbn [fst snd] in Hfc.
  apply map_eq_Forall in Hfc.
  assert (Hcount : Forall (fun r => 0 <= oos_countdown r) frame).
  { apply List.Forall_forall. intros r Hr.
    assert (Hin : In (oos_countdown r) (map oos_countdown frame))
      by (apply in_map; exact Hr).
    rewrite Hc in Hin. apply in_tile in Hin as [_ Hin].
    apply (proj2 (in_rev _ _)) in Hin. apply in_arange in Hin. lia. }
  assert (Helec : Forall (fun r => In (oos_dateelection r) (unique_elections self)) frame).
  { apply List.Forall_forall. intros r Hr.
    assert (Hin : In (oos_dateelection r) (map oos_dateelection frame))
      by (apply in_map; exact Hr).
    rewrite He in Hin. unfold np_repeat in Hin.
    apply in_flat_map in Hin as (e & Hin & Hrep).
    apply repeat_spec in Hrep. subst. exact Hin. }
  assert (Hsond : Forall (fun r => In (oos_sondage r) (unique_pollsters self)) frame).
  { apply List.Forall_forall. intros r Hr.
    rewrite List.Forall_forall in Hdrawn. apply Hdrawn.
    rewrite <- Hs. apply in_map. exact Hr. }
  split.
  - rewrite List.Forall_forall in *. intros r Hr.
    repeat split; auto. symmetry. apply (Hfc r Hr).
  - rewrite <- (length_map oos_countdown), Hc, length_tile, length_rev, Hcd.
    reflexivity.
Qed.

Lemma synthetic_rows_count_down_to_their_election_witness :
  exists new_dates frame,
    _generate_oos_data forecaster trace_2022 cycling cycling = Ok (new_dates, frame)
    /\ length frame = 120%nat
    /\ Forall (fun r => oos_countdown r = oos_dateelection r - oos_date r) frame.
Proof.
  assert (Hi : sample_all forecaster = Ok trace_2022) by (vm_compute; reflexivity).
  destruct (_generate_oos_data forecaster trace_2022 cycling cycling)
    as [[nd frame]|e] eqn:E; [|vm_compute in E; discriminate E].
  exists nd, frame. split; [reflexivity|].
  destruct (synthetic_rows_count_down_to_their_election _ _ _ _ _ _ Hi E)
    as (Hall & Hlen).
  split.
  - rewrite Hlen. vm_compute. reflexivity.
  - eapply List.Forall_impl; [|exact Hall]. intros r Hr. exact (proj1 Hr).
Defined.

(** ** Synthetic frame: failures *)

Lemma traverse_date_range_raises (countdown : list Z) (els : list Timestamp) (e : exn) :
  traverse (fun date => max_countdown ← column_max countdown;
                        date_range (max_countdown + 1) date) els = Raise e ->
  e = ValueError.
Proof.
  induction els as [|d els IH]; simpl; [discriminate|].
  intros H. apply bind_raise_inv in H as [H|(ds & _ & H)].
  - apply bind_raise_inv in H as [H|(m & _ & H)].
    + destruct countdown; simpl in H; congruence.
    + unfold date_range in H. destruct (m + 1 <? 0); congruence.
  - apply bind_raise_inv in H as [H|(rs & _ & H)]; [exact (IH H) | discriminate H].
Qed.

Lemma random_choice_raises {A : Type} (g : nat -> nat) (a : list A) (size : nat)
      (e : exn) :
  random_choice g a size = Raise e -> e = ValueError /\ a = [].
Proof.
  unfold random_choice. destruct a; [|discriminate].
  destruct (size =? 0)%nat; [discriminate|]. intros H. injection H as <-. auto.
Qed.

Lemma same_length_raises (lens : list nat) (e : exn) :
  same_length lens = Raise e -> e = ValueError.
Proof.
  destruct lens as [|n rest]; simpl; [discriminate|].
  destruct (forallb _ _); congruence.
Qed.

Lemma random_choice_nonempty {A : Type} (g : nat -> nat) (a l : list A) (size : nat) :
  random_choice g a size = Ok l -> (1 <= size)%nat -> a <> [].
Proof.
  unfold random_choice. destruct a; [|discriminate].
  destruct size; [lia | discriminate].
Qed.

Lemma length_np_repeat {A : Type} (a : list A) (k : nat) :
  length (np_repeat a k) = (length a * k)%nat.
Proof.
  unfold np_repeat. induction a as [|x a IH]; simpl; [reflexivity|].
  rewrite length_app, repeat_length, IH. reflexivity.
Qed.

(** X13. [_generate_oos_data] raises nothing but [ValueError], and it
    returns only if the trace has a countdown coordinate and elections,
    as many elections as the training table, a countdown coordinate with
    as many entries as its largest entry plus one, and if the training
    table has a pollster and the observed results a row. *)
Theorem generate_oos_data_requirements
  (self : PresidentialElectionsModel) (idata : InferenceData)
  (g_sondage g_samplesize : nat -> nat) :
  match _generate_oos_data self idata g_sondage g_samplesize with
  | Raise e => e = ValueError
  | Ok _ =>
      posterior_countdown idata <> [] /\
      posterior_elections idata <> [] /\
      length (posterior_elections idata) = length (unique_elections self) /\
      (exists m, column_max (posterior_countdown idata) = Ok m /\
                 length (posterior_countdown idata) = Z.to_nat (m + 1)) /\
      unique_pollsters self <> [] /\
      results_oos self <> []
  end.
Proof.
  destruct (_generate_oos_data self idata g_sondage g_samplesize)
    as [[nd frame]|e] eqn:Hrun.
  - destruct (generate_columns _ _ _ _ _ _ Hrun)
      as (drawn & _ & _ & _ & _ & Hels & Hcd).
    destruct (generate_dates _ _ _ _ _ _ Hrun)
      as (m & ranges & Hm & Hall & Hnd & _ & _ & _).
    unfold _generate_oos_data in Hrun.
    apply bind_inv in Hrun as (ranges0 & _ & Hrun).
    apply bind_inv in Hrun as (ranges1 & _ & Hrun).
    apply bind_inv in Hrun as (sondage_ & Hs & Hrun).
    apply bind_inv in Hrun as (samplesize_ & Hn & Hrun).
    apply bind_inv in Hrun as ([] & Hlen4 & Hrun).
    apply bind_inv in Hrun as ([] & Hlen2 & Hrun).
    apply same_length_inv in Hlen4.
    inversion Hlen4 as [|? ? H1 _]; subst.
    apply same_length_inv in Hlen2. inversion Hlen2 as [|? ? H4 _]; subst.
    injection Hrun as Hnd' Hframe'.
    rewrite length_tile, length_rev in H1, H4.
    rewrite length_np_repeat in H1.
    assert (Hlens : Forall (fun ds => length ds = Z.to_nat (m + 1)) ranges).
    { clear -Hall. induction Hall as [|e ds ? ? Hd _ IH]; constructor; [|exact IH].
      apply (date_range_spec _ _ _ Hd). }
    rewrite Hnd' in H4.
    rewrite (length_concat_uniform _ _ Hlens) in H4.
    rewrite <- (Forall2_length _ _ _ Hall) in H4.
    split; [intros H; rewrite H in Hcd; simpl in Hcd; lia|].
    split; [intros H; rewrite H in Hels; simpl in Hels; lia|].
    split; [nia|]. split; [exists m; split; [exact Hm | nia]|].
    assert (HN : (1 <= length (tile (rev (posterior_countdown idata))
                                    (length (posterior_elections idata))))%nat).
    { rewrite length_tile, length_rev. nia. }
    split.
    + exact (random_choice_nonempty _ _ _ _ Hs HN).
    + intros H. apply (random_choice_nonempty _ _ _ _ Hn HN). rewrite H. reflexivity.
  - unfold _generate_oos_data in Hrun.
    apply bind_raise_inv in Hrun as [H|(ranges0 & _ & Hrun)];
      [exact (traverse_date_range_raises _ _ _ H)|].
    apply bind_raise_inv in Hrun as [H|(ranges & _ & Hrun)];
      [destruct ranges0; simpl in H; congruence|].
    apply bind_raise_inv in Hrun as [H|(s & _ & Hrun)];
      [exact (proj1 (random_choice_raises _ _ _ _ H))|].
    apply bind_raise_inv in Hrun as [H|(n & _ & Hrun)];
      [exact (proj1 (random_choice_raises _ _ _ _ H))|].
    apply bind_raise_inv in Hrun as [H|([] & _ & Hrun)];
      [exact (same_length_raises _ _ H)|].
    apply bind_raise_inv in Hrun as [H|([] & _ & Hrun)];
      [exact (same_length_raises _ _ H) | discriminate Hrun].
Qed.

(** ** Forecast model *)

(** X14. The model [forecast_election] builds has one observation per
    generated date.  Its observed counts are the placeholder 0 in every
    family of every row, so every family of every row is marked as not
    competing - additive term -10, multiplier of the election-specific
    house effect 0 - while the trials are the sample sizes drawn from the
    observed results. *)
Theorem forecast_model_has_no_competing_family
  (self : PresidentialElectionsModel) (idata : InferenceData)
  (g_sondage g_samplesize : nat -> nat)
  (new_dates : list Timestamp) (forecast_model : Model)
  (Hrun : forecast_election self idata g_sondage g_samplesize
          = Ok (new_dates, forecast_model)) :
  let dc := data_containers forecast_model in
  let ncp := non_competing_parties forecast_model in
  length (observations (coords forecast_model)) = length new_dates
  /\ length (observed_polls dc) = length new_dates
  /\ length (observed_N dc) = length new_dates
  /\ Forall (fun row => row = map (fun _ => 0) political_families) (observed_polls dc)
  /\ Forall (fun n => In n (map m_samplesize (results_oos self))) (observed_N dc)
  /\ (forall i p, (i < length new_dates)%nat -> (p < length political_families)%nat ->
        at_ZZ (polls_additive ncp) i p = -10 /\
        at_ZZ (polls_multiplicative ncp) i p = 0).
Proof.
  intros dc ncp. unfold forecast_election in Hrun.
  apply bind_inv in Hrun as ([nd frame] & Hgen & Hrun).
  apply bind_inv in Hrun as (joined & Hjoin & Hrun).
  apply bind_inv in Hrun as (fm & Hfm & Hrun). injection Hrun as <- <-.
  destruct (generate_dates _ _ _ _ _ _ Hgen)
    as (_ & _ & _ & _ & _ & _ & Hlen & Hsize).
  apply join_keeps_rows in Hjoin.
  assert (Hlj : length joined = length nd).
  { rewrite <- Hlen, <- Hjoin, length_map. reflexivity. }
  destruct (build_model_coords _ _ _ _ Hfm) as (mx & _ & Hc).
  destruct (build_model_tables _ _ _ _ Hfm) as (Hobs & Hmul & Hadd & _).
  cbv zeta in Hc, Hobs, Hmul, Hadd.
  assert (HN : observed_N (data_containers fm)
               = map m_samplesize (map forecast_row joined)).
  { unfold build_model in Hfm.
    apply bind_inv in Hfm as ([[[pid cid] eid] cds] & _ & Hfm).
    unfold _build_data_containers in Hfm. injection Hfm as <-. reflexivity. }
  fold dc in Hobs, HN. fold ncp in Hmul, Hadd.
  split; [rewrite Hc; cbn [observations]; rewrite length_seq, length_map; exact Hlj|].
  split; [rewrite Hobs, !length_map; exact Hlj|].
  split; [rewrite HN, !length_map; exact Hlj|].
  split; [|split].
  - rewrite Hobs, map_map. apply List.Forall_forall. intros row Hrow.
    apply in_map_iff in Hrow as (r & <- & _). reflexivity.
  - rewrite HN, map_map. apply List.Forall_forall. intros n Hn.
    apply in_map_iff in Hn as (r & <- & Hr). cbn [forecast_row m_samplesize].
    rewrite List.Forall_forall in Hsize. apply Hsize.
    rewrite <- Hjoin. apply in_map. exact Hr.
  - intros i p Hi Hp.
    assert (Hrow : exists r, map forecast_row joined !! i = Some r /\
                             m_counts r !! p = Some 0).
    { destruct (lookup_lt_is_Some_2 (map forecast_row joined) i) as [r Hr];
        [rewrite length_map, Hlj; exact Hi|].
      exists r. split; [exact Hr|].
      apply list_lookup_fmap_Some in Hr as (j & -> & Hj).
      cbn [forecast_row m_counts].
      apply list_lookup_fmap_Some.
      destruct (lookup_lt_is_Some_2 political_families p Hp) as [f Hf].
      exists f. split; [reflexivity | exact Hf]. }
    destruct Hrow as (r & Hr & Hc0).
    split.
    + rewrite Hadd, penalty_is_here.
      exact (at_ZZ_rows (fun c => if c =? 0 then -10 else 0) _ _ _ _ _ Hr Hc0).
    + rewrite Hmul.
      exact (at_ZZ_rows (fun c => if c =? 0 then 0 else 1) _ _ _ _ _ Hr Hc0).
Qed.

Lemma forecast_model_has_no_competing_family_witness :
  exists new_dates forecast_model,
    forecast_election forecaster trace_2022 cycling cycling
    = Ok (new_dates, forecast_model) /\
    length (observations (coords forecast_model)) = length new_dates /\
    at_ZZ (polls_additive (non_competing_parties forecast_model)) 0 3 = -10.
Proof.
  destruct (forecast_election forecaster trace_2022 cycling cycling)
    as [[nd fm]|e] eqn:E;
    [|apply (f_equal (fun r => match r with Ok _ => true | Raise _ => false end)) in E;
      vm_compute in E; discriminate E].
  exists nd, fm. split; [reflexivity|].
  destruct (forecast_model_has_no_competing_family _ _ _ _ _ _ E)
    as (Hobs & _ & _ & _ & _ & Hpen).
  split; [exact Hobs|].
  assert (Hl : match forecast_election forecaster trace_2022 cycling cycling with
               | Ok (nd, _) => length nd
               | Raise _ => 0%nat
               end = 120%nat) by (vm_compute; reflexivity).
  rewrite E in Hl.
  apply Hpen; [rewrite Hl; lia | simpl; lia].
Defined.

Lemma samplesize_is_int64_sum (df : list poll) (table : list mpoll) :
  cast_as_multinomial df = Ok table ->
  Forall (fun r => m_samplesize r = int64_sum (m_counts r)) table.
Proof.
  intros H. apply cast_as_multinomial_inv in H.
  induction H as [|r r' df table Hr _ IH]; constructor; [|exact IH].
  apply cast_row_inv in Hr as (_ & _ & _ & _ & Hs & _). exact Hs.
Qed.

Lemma map_samplesize_sum (l : list mpoll) :
  Forall (fun r => m_samplesize r = int64_sum (m_counts r)) l ->
  map m_samplesize l = map int64_sum (map m_counts l).
Proof.
  induction 1 as [|r l Hr _ IH]; simpl; [reflexivity|].
  rewrite Hr, IH. reflexivity.
Qed.

Lemma map_int64_sum_in_range (rows : list (list Z)) :
  Forall (fun row => INT64_MIN <= zsum row < 2 ^ 63) rows ->
  map int64_sum rows = map zsum rows.
Proof.
  induction 1 as [|row rows Hr _ IH]; simpl; [reflexivity|].
  rewrite IH, int64_sum_wrap, (wrap_int64_id _ Hr). reflexivity.
Qed.

(** X15. In a model built on tables encoded by [cast_as_multinomial], the
    trials of each likelihood are the row sums of its observed counts, as
    int64: [observed_N] for the polls and [results_N] for the observed
    results.  They are the sums themselves where these are int64. *)
Theorem trials_are_row_sums_of_observed_counts
  (self : PresidentialElectionsModel) (df rs : list poll)
  (continuous_predictors : option (list float)) (m : Model)
  (Hpolls : cast_as_multinomial df = Ok (polls_train self))
  (Hresults : cast_as_multinomial rs = Ok (results_mult self))
  (Hm : build_model self None continuous_predictors = Ok m) :
  let dc := data_containers m in
  observed_N dc = map int64_sum (observed_polls dc)
  /\ results_N dc = map int64_sum (observed_results dc)
  /\ (Forall (fun row => INT64_MIN <= zsum row < 2 ^ 63) (observed_polls dc) ->
      observed_N dc = map zsum (observed_polls dc))
  /\ (Forall (fun row => INT64_MIN <= zsum row < 2 ^ 63) (observed_results dc) ->
      results_N dc = map zsum (observed_results dc)).
Proof.
  intros dc. unfold dc. unfold build_model in Hm.
  apply bind_inv in Hm as ([[[pid cid] eid] cds] & _ & Hm).
  unfold _build_data_containers in Hm. injection Hm as <-.
  cbn [data_containers observed_N observed_polls results_N observed_results].
  assert (H1 : map m_samplesize (polls_train self)
               = map int64_sum (map m_counts (polls_train self))).
  { apply map_samplesize_sum. exact (samplesize_is_int64_sum _ _ Hpolls). }
  assert (H2 : map m_samplesize (results_oos self)
               = map int64_sum (map m_counts (results_oos self))).
  { apply map_samplesize_sum. unfold results_oos.
    apply List.Forall_forall. intros r Hr. apply filter_In in Hr as [Hr _].
    pose proof (samplesize_is_int64_sum _ _ Hresults) as Hall.
    rewrite List.Forall_forall in Hall. exact (Hall r Hr). }
  split; [exact H1|]. split; [exact H2|]. split.
  - intros Hrange. rewrite H1. apply map_int64_sum_in_range, Hrange.
  - intros Hrange. rewrite H2. apply map_int64_sum_in_range, Hrange.
Qed.

Lemma trials_are_row_sums_of_observed_counts_witness :
  exists m,
    build_model forecaster None None = Ok m /\
    observed_N (data_containers m)
    = map int64_sum (observed_polls (data_containers m)).
Proof.
  destruct (build_model forecaster None None) as [m|e] eqn:Em;
    [|apply (f_equal (fun r => match r with Ok _ => true | Raise _ => false end)) in Em;
      vm_compute in Em; discriminate Em].
  exists m. split; [reflexivity|].
  apply (trials_are_row_sums_of_observed_counts
           forecaster share_polls share_results None m);
    [vm_compute; reflexivity | vm_compute; reflexivity | exact Em].
Defined.

(** ** Current-cycle polls *)

Lemma column_cons (name k : string) (v : float64) (cols : list (string * float64)) :
  column name ((k, v) :: cols) = if String.eqb k name then v else column name cols.
Proof. unfold column. simpl. destruct (String.eqb k name); reflexivity. Qed.

Lemma rename_column_spec (c : string) :
  (exists a, In a AFFILIATIONS /\ fst a = c /\ rename_column c = snd a)
  \/ rename_column c = c.
Proof.
  unfold rename_column.
  destruct (List.find _ AFFILIATIONS) as [a|] eqn:E; [left | right; reflexivity].
  apply find_some in E as [Hin He]. apply String.eqb_eq in He. eauto.
Qed.

Lemma family_is_core (a : string * string) :
  In a AFFILIATIONS -> In (snd a) core_cols.
Proof.
  intros H. unfold core_cols. apply in_or_app. right. apply in_map. exact H.
Qed.

Lemma affiliation_by_family (a b : string * string) :
  In a AFFILIATIONS -> In b AFFILIATIONS -> snd a = snd b -> a = b.
Proof.
  unfold AFFILIATIONS. cbn [In]. intros Ha Hb.
  repeat (destruct Ha as [Ha|Ha]; [|]); try contradiction; subst a;
    repeat (destruct Hb as [Hb|Hb]; [|]); try contradiction; subst b;
    cbn [snd]; intros H; try reflexivity; discriminate H.
Qed.

Lemma rename_column_inj (c1 c2 : string) :
  ~ In c1 core_cols -> ~ In c2 core_cols ->
  rename_column c1 = rename_column c2 -> c1 = c2.
Proof.
  intros H1 H2 E.
  destruct (rename_column_spec c1) as [(a1 & Ha1 & <- & E1)|E1];
    destruct (rename_column_spec c2) as [(a2 & Ha2 & <- & E2)|E2].
  - rewrite E1, E2 in E. f_equal. exact (affiliation_by_family a1 a2 Ha1 Ha2 E).
  - exfalso. apply H2. rewrite <- E2, <- E, E1. exact (family_is_core a1 Ha1).
  - exfalso. apply H1. rewrite <- E1, E, E2. exact (family_is_core a2 Ha2).
  - rewrite E1, E2 in E. exact E.
Qed.

Lemma family_cell_is_candidate_cell (cols : list (string * float64)) (c : string) :
  ~ In c core_cols ->
  Forall (fun c => ~ In c core_cols) (map fst cols) ->
  column (rename_column c)
         (map (fun kv => (rename_column (fst kv), snd kv)) cols)
  = column c cols.
Proof.
  intros Hc. induction cols as [|[k v] cols IH]; intros Hcore; [reflexivity|].
  cbn [map fst snd] in *. inversion Hcore as [|? ? Hk Hks]; subst.
  rewrite !column_cons, (IH Hks).
  destruct (String.eqb_spec k c) as [->|Hne]; [rewrite String.eqb_refl; reflexivity|].
  destruct (String.eqb_spec (rename_column k) (rename_column c)) as [E|_];
    [|reflexivity].
  exfalso. apply Hne. exact (rename_column_inj k c Hk Hc E).
Qed.

Lemma candidate_is_not_core (a : string * string) :
  In a AFFILIATIONS -> ~ In (fst a) core_cols /\ rename_column (fst a) = snd a.
Proof.
  unfold AFFILIATIONS. cbn [In]. intros Ha.
  repeat (destruct Ha as [Ha|Ha]; [|]); try contradiction; subst a;
    (split; [|reflexivity]); cbn [fst core_cols AFFILIATIONS map snd app In];
    intros H; repeat (destruct H as [H|H]; [discriminate H|]); exact H.
Qed.

(** X18. In the row that [_format_2022_polls] makes of a current-cycle
    poll whose candidates are not named like a core column, the cell of
    each of the seven families is the intention of the family's candidate
    (NaN when the poll has no such candidate), and the row has the eight
    family cells, the eighth being [nbother].  The row is dated between
    the first and the last day of the field work, belongs to the election
    of 10 April 2022 and keeps the number of expressed intentions as its
    sample size. *)
Theorem current_polls_family_cells
  (new_polls : list new_poll)
  (Hcore : Forall (fun p => Forall (fun c => ~ In c core_cols)
                                   (map fst (intentions p))) new_polls)
  (Hdates : Forall (fun p => date_debut p <= date_fin p) new_polls) :
  Forall2 (fun p r =>
             let cells := map (fun a => column (fst a) (intentions p)) AFFILIATIONS in
             named_families (raw_nb r) = cells
             /\ length (raw_nb r) = length political_families
             /\ date_debut p <= raw_date r <= date_fin p
             /\ raw_dateelection r = to_datetime 2022 4 10
             /\ raw_samplesize r = intentions_exprimees p)
          new_polls (_format_2022_polls new_polls).
Proof.
  unfold _format_2022_polls.
  induction new_polls as [|p ps IH]; cbn [map]; [constructor|].
  inversion Hcore as [|? ? Hk Hks]; subst.
  inversion Hdates as [|? ? Hd Hds]; subst.
  constructor; [|exact (IH Hks Hds)]. cbv zeta.
  assert (Hcells : named_families (raw_nb (format_2022_row p))
                   = map (fun a => column (fst a) (intentions p)) AFFILIATIONS).
  { cbn [format_2022_row raw_nb]. unfold named_families.
    change (Nat.pred (length political_families))
      with (length (map (fun a => column (snd a) (renamed p)) AFFILIATIONS) + 0)%nat.
    rewrite firstn_app_2. cbn [firstn]. rewrite app_nil_r.
    apply map_ext_in. intros a Ha.
    destruct (candidate_is_not_core a Ha) as [Hn <-].
    unfold renamed. apply family_cell_is_candidate_cell; assumption. }
  split; [exact Hcells|]. split; [reflexivity|].
  split; [|split; reflexivity].
  cbn [format_2022_row raw_date]. unfold median_date.
  split.
  - apply Z.div_le_lower_bound; lia.
  - apply Z.div_le_upper_bound; lia.
Qed.

Lemma current_polls_family_cells_witness :
  named_families (raw_nb (format_2022_row poll_march_2022))
  = [12; 2; 5; 30.5; 11; 18; 13]%float
  /\ date_debut poll_march_2022 <= raw_date (format_2022_row poll_march_2022)
     <= date_fin poll_march_2022.
Proof.
  assert (H : Forall2 (fun p r =>
             let cells := map (fun a => column (fst a) (intentions p)) AFFILIATIONS in
             named_families (raw_nb r) = cells
             /\ length (raw_nb r) = length political_families
             /\ date_debut p <= raw_date r <= date_fin p
             /\ raw_dateelection r = to_datetime 2022 4 10
             /\ raw_samplesize r = intentions_exprimees p)
          [poll_march_2022] (_format_2022_polls [poll_march_2022])).
  { apply current_polls_family_cells.
    - constructor; [|constructor].
      cbn [poll_march_2022 intentions map fst].
      repeat (apply List.Forall_cons;
              [cbn [core_cols AFFILIATIONS map snd app In]; intros H;
               repeat (destruct H as [H|H]; [discriminate H|]); exact H|]).
      apply List.Forall_nil.
    - constructor; [|constructor]. vm_compute. discriminate. }
  cbn [_format_2022_polls map] in H.
  apply Forall2_cons_iff in H as [(Hcells & _ & Hd & _) _].
  split; [|exact Hd]. rewrite Hcells. vm_compute. reflexivity.
Defined.

(** ** Chronology of the election coordinate *)

Lemma unique_from_sorted (seen l : list Z) :
  StronglySorted Z.le l -> StronglySorted Z.lt (unique_from seen l).
Proof.
  revert seen. induction l as [|x l IH]; intros seen Hs; simpl; [constructor|].
  apply StronglySorted_inv in Hs as [Hs Hx].
  destruct (existsb (Z.eqb x) seen); [exact (IH _ Hs)|].
  constructor; [exact (IH _ Hs)|].
  apply List.Forall_forall. intros y Hy.
  apply in_unique_from in Hy as [Hy Hseen].
  rewrite List.Forall_forall in Hx. specialize (Hx y Hy).
  assert (y <> x) by (intros ->; apply Hseen; left; reflexivity). lia.
Qed.

Lemma strongly_sorted_last (l : list Z) (x : Z) :
  StronglySorted Z.lt (l ++ [x]) -> Forall (fun y => y < x) l.
Proof.
  induction l as [|y l IH]; cbn [app]; intros Hs; [constructor|].
  apply StronglySorted_inv in Hs as [Hs Hy].
  constructor; [|exact (IH Hs)].
  rewrite List.Forall_forall in Hy. apply Hy, in_or_app. right. left. reflexivity.
Qed.

(** X20. When the table of a built model is ordered by election date, the
    election coordinate is chronological (strictly increasing), and the
    one election left out of the observed elections is the latest one:
    every observed election is earlier than it. *)
Theorem elections_coordinate_is_chronological
  (self : PresidentialElectionsModel)
  (polls : option (list mpoll)) (continuous_predictors : option (list float))
  (m : Model)
  (Hm : build_model self polls continuous_predictors = Ok m)
  (Hsorted : Sorted Z.le
               (map m_dateelection
                    match polls with Some p => p | None => polls_train self end)) :
  StronglySorted Z.lt (elections (coords m))
  /\ exists latest,
       elections (coords m) = elections_observed (coords m) ++ [latest]
       /\ Forall (fun e => e < latest) (elections_observed (coords m))
       /\ Forall (fun r => m_dateelection r <= latest)
                 match polls with Some p => p | None => polls_train self end.
Proof.
  destruct (build_model_coords _ _ _ _ Hm) as (mx & Hmx & ->).
  set (data := match polls with Some p => p | None => polls_train self end) in *.
  cbn [elections elections_observed].
  assert (Hss : StronglySorted Z.lt (unique (map m_dateelection data))).
  { apply unique_from_sorted. apply Sorted_StronglySorted; [|exact Hsorted].
    intros a b c. lia. }
  split; [exact Hss|].
  apply column_max_spec in Hmx as [Hin _].
  assert (Hne : unique (map m_dateelection data) <> []).
  { destruct data as [|r data']; [destruct Hin|].
    intros E. assert (Hr : In (m_dateelection r) (unique (map m_dateelection (r :: data'))))
      by (apply in_unique; left; reflexivity).
    rewrite E in Hr. destruct Hr. }
  exists (List.last (unique (map m_dateelection data)) 0).
  pose proof (app_removelast_last 0 Hne) as Hl.
  split; [exact Hl|].
  assert (Hobs : Forall (fun e => e < List.last (unique (map m_dateelection data)) 0)
                        (removelast (unique (map m_dateelection data)))).
  { apply strongly_sorted_last. rewrite <- Hl. exact Hss. }
  split; [exact Hobs|].
  apply List.Forall_forall. intros r Hr.
  assert (He : In (m_dateelection r) (unique (map m_dateelection data)))
    by (apply in_unique, in_map; exact Hr).
  rewrite Hl in He. apply in_app_or in He as [He|[<-|[]]]; [|lia].
  rewrite List.Forall_forall in Hobs. specialize (Hobs _ He). lia.
Qed.

Lemma elections_coordinate_is_chronological_witness :
  exists m,
    build_model forecaster None None = Ok m /\
    StronglySorted Z.lt (elections (coords m)).
Proof.
  destruct (build_model forecaster None None) as [m|e] eqn:Em;
    [|apply (f_equal (fun r => match r with Ok _ => true | Raise _ => false end)) in Em;
      vm_compute in Em; discriminate Em].
  exists m. split; [reflexivity|].
  refine (proj1 (elections_coordinate_is_chronological forecaster None None m Em _)).
  vm_compute. repeat constructor; discriminate.
Defined.

